(** * fiber-signed: signed URL middleware for Fiber

  A shallow embedding of the Go package [signed] (files [config.go],
  [signed.go] and the utilities file holding [getHash],
  [orderQueryParams], [getSignature] and [validateRequest]) together
  with the parts of the Go standard library ([strings], [sort],
  [strconv], [time], [net/url], [crypto/sha1], [crypto/sha256],
  [crypto/md5]) and of Fiber/fasthttp that the package calls.

  Go strings are byte strings: they are modelled by [string], whose
  characters are the 256 values of [ascii].  [url.Values], a Go
  [map[string][]string], is a [gmap string (list string)]. *)

From Stdlib Require Import ZArith List String Ascii Lia Bool Permutation.
From stdpp Require Import base tactics option list gmap strings sorting.

(** ** Digests: crypto/sha1, crypto/sha256, crypto/md5 *)

Module Crypto.
Local Open Scope Z_scope.

Definition byte_of_ascii (c : ascii) : Z := Z.of_N (N_of_ascii c).

Fixpoint bytes_of_string (s : string) : list Z :=
  match s with
  | EmptyString => []
  | String c s' => byte_of_ascii c :: bytes_of_string s'
  end.

(** 32-bit words are [Z]s in [0, 2^32); the wrap-around is explicit. *)
Definition add32 (a b : Z) : Z := (a + b) mod 2 ^ 32.
Definition rotl32 (x n : Z) : Z :=
  Z.lor (Z.shiftl x n mod 2 ^ 32) (Z.shiftr x (32 - n)).
Definition rotr32 (x n : Z) : Z := rotl32 x (32 - n).
Definition not32 (x : Z) : Z := Z.lxor x 0xffffffff.
Definition xor3 (a b c : Z) : Z := Z.lxor (Z.lxor a b) c.

Definition be_word (b : list Z) : Z := fold_left (fun acc x => acc * 256 + x) b 0.
Definition le_word (b : list Z) : Z := fold_right (fun x acc => acc * 256 + x) 0 b.

Definition le_bytes (n : nat) (x : Z) : list Z :=
  map (fun i => Z.shiftr x (8 * Z.of_nat i) mod 256) (seq 0 n).
Definition be_bytes (n : nat) (x : Z) : list Z := rev (le_bytes n x).

Fixpoint chunks (fuel n : nat) (l : list Z) : list (list Z) :=
  match fuel with
  | O => []
  | S fuel' =>
      match l with
      | [] => []
      | _ => take n l :: chunks fuel' n (drop n l)
      end
  end.

(** Message padding shared by the three digests: a 1 bit, zeros up to
    56 mod 64 bytes, then the bit length on 8 bytes. *)
Definition pad (len_bytes : nat -> Z -> list Z) (msg : list Z) : list Z :=
  let n := Z.of_nat (length msg) in
  msg ++ [0x80] ++ repeat 0 (Z.to_nat ((55 - n) mod 64))
      ++ len_bytes 8%nat ((8 * n) mod 2 ^ 64).

Definition blocks (word : list Z -> Z) (padded : list Z) : list (list Z) :=
  map (fun blk => map word (chunks 16 4 blk)) (chunks (length padded) 64 padded).

Definition indexed (l : list Z) : list (Z * Z) :=
  combine (map Z.of_nat (seq 0 (length l))) l.

(** *** SHA-1 (FIPS 180-4) *)

Fixpoint sha1_schedule (n : nat) (w : list Z) : list Z :=
  match n with
  | O => w
  | S n' =>
      let x := Z.lxor (Z.lxor (nth 2 w 0) (nth 7 w 0))
                      (Z.lxor (nth 13 w 0) (nth 15 w 0)) in
      sha1_schedule n' (rotl32 x 1 :: w)
  end.

Definition sha1_round (st : Z * Z * Z * Z * Z) (tw : Z * Z) : Z * Z * Z * Z * Z :=
  let '(a, b, c, d, e) := st in
  let '(t, w) := tw in
  let '(f, k) :=
    if t <? 20 then (Z.lor (Z.land b c) (Z.land (not32 b) d), 0x5a827999)
    else if t <? 40 then (xor3 b c d, 0x6ed9eba1)
    else if t <? 60 then
      (Z.lor (Z.lor (Z.land b c) (Z.land b d)) (Z.land c d), 0x8f1bbcdc)
    else (xor3 b c d, 0xca62c1d6) in
  let temp := add32 (add32 (add32 (add32 (rotl32 a 5) f) e) k) w in
  (temp, a, rotl32 b 30, c, d).

Definition sha1_block (h : Z * Z * Z * Z * Z) (blk : list Z) : Z * Z * Z * Z * Z :=
  let w := rev (sha1_schedule 64 (rev blk)) in
  let '(a, b, c, d, e) := fold_left sha1_round (indexed w) h in
  let '(h0, h1, h2, h3, h4) := h in
  (add32 h0 a, add32 h1 b, add32 h2 c, add32 h3 d, add32 h4 e).

Definition sha1 (msg : list Z) : list Z :=
  let '(h0, h1, h2, h3, h4) :=
    fold_left sha1_block (blocks be_word (pad be_bytes msg))
      (0x67452301, 0xefcdab89, 0x98badcfe, 0x10325476, 0xc3d2e1f0) in
  be_bytes 4 h0 ++ be_bytes 4 h1 ++ be_bytes 4 h2 ++ be_bytes 4 h3 ++ be_bytes 4 h4.

(** *** SHA-256 (FIPS 180-4) *)

(** The largest [r] below [2 ^ 36] with [r ^ 3 <= n]. *)
Definition cube_root (n : Z) : Z :=
  fold_left (fun r bit => if (r + 2 ^ bit) ^ 3 <=? n then r + 2 ^ bit else r)
            (rev (map Z.of_nat (seq 0 36))) 0.

Definition is_prime (n : nat) : bool :=
  forallb (fun d => negb (Nat.eqb (Nat.modulo n d) 0)) (seq 2 (n - 2)).

(** The round constants [_K] of crypto/sha256: the first 32 bits of
    the fractional parts of the cube roots of the first 64 primes
    (FIPS 180-4, section 4.2.2), from 0x428a2f98 to 0xc67178f2. *)
Definition sha256_K : list Z :=
  Eval vm_compute in
    map (fun p => cube_root (Z.of_nat p * 2 ^ 96) mod 2 ^ 32)
        (filter is_prime (seq 2 310)).

Fixpoint sha256_schedule (n : nat) (w : list Z) : list Z :=
  match n with
  | O => w
  | S n' =>
      let w2 := nth 1 w 0 in
      let w7 := nth 6 w 0 in
      let w15 := nth 14 w 0 in
      let w16 := nth 15 w 0 in
      let s0 := xor3 (rotr32 w15 7) (rotr32 w15 18) (Z.shiftr w15 3) in
      let s1 := xor3 (rotr32 w2 17) (rotr32 w2 19) (Z.shiftr w2 10) in
      sha256_schedule n' (add32 (add32 (add32 w16 s0) w7) s1 :: w)
  end.

Definition sha256_state : Type := Z * Z * Z * Z * Z * Z * Z * Z.

Definition sha256_round (st : sha256_state) (kw : Z * Z) : sha256_state :=
  let '(a, b, c, d, e, f, g, h) := st in
  let '(k, w) := kw in
  let S1 := xor3 (rotr32 e 6) (rotr32 e 11) (rotr32 e 25) in
  let ch := Z.lxor (Z.land e f) (Z.land (not32 e) g) in
  let temp1 := add32 (add32 (add32 (add32 h S1) ch) k) w in
  let S0 := xor3 (rotr32 a 2) (rotr32 a 13) (rotr32 a 22) in
  let maj := xor3 (Z.land a b) (Z.land a c) (Z.land b c) in
  let temp2 := add32 S0 maj in
  (add32 temp1 temp2, a, b, c, add32 d temp1, e, f, g).

Definition sha256_block (hs : sha256_state) (blk : list Z) : sha256_state :=
  let w := rev (sha256_schedule 48 (rev blk)) in
  let '(a, b, c, d, e, f, g, h) := fold_left sha256_round (combine sha256_K w) hs in
  let '(h0, h1, h2, h3, h4, h5, h6, h7) := hs in
  (add32 h0 a, add32 h1 b, add32 h2 c, add32 h3 d,
   add32 h4 e, add32 h5 f, add32 h6 g, add32 h7 h).

Definition sha256 (msg : list Z) : list Z :=
  let '(h0, h1, h2, h3, h4, h5, h6, h7) :=
    fold_left sha256_block (blocks be_word (pad be_bytes msg))
      (0x6a09e667, 0xbb67ae85, 0x3c6ef372, 0xa54ff53a,
       0x510e527f, 0x9b05688c, 0x1f83d9ab, 0x5be0cd19) in
  be_bytes 4 h0 ++ be_bytes 4 h1 ++ be_bytes 4 h2 ++ be_bytes 4 h3
    ++ be_bytes 4 h4 ++ be_bytes 4 h5 ++ be_bytes 4 h6 ++ be_bytes 4 h7.

(** *** MD5 (RFC 1321) *)

Definition md5_K : list Z :=
  [ 0xd76aa478; 0xe8c7b756; 0x242070db; 0xc1bdceee; 0xf57c0faf; 0x4787c62a;
    0xa8304613; 0xfd469501; 0x698098d8; 0x8b44f7af; 0xffff5bb1; 0x895cd7be;
    0x6b901122; 0xfd987193; 0xa679438e; 0x49b40821; 0xf61e2562; 0xc040b340;
    0x265e5a51; 0xe9b6c7aa; 0xd62f105d; 0x02441453; 0xd8a1e681; 0xe7d3fbc8;
    0x21e1cde6; 0xc33707d6; 0xf4d50d87; 0x455a14ed; 0xa9e3e905; 0xfcefa3f8;
    0x676f02d9; 0x8d2a4c8a; 0xfffa3942; 0x8771f681; 0x6d9d6122; 0xfde5380c;
    0xa4beea44; 0x4bdecfa9; 0xf6bb4b60; 0xbebfbc70; 0x289b7ec6; 0xeaa127fa;
    0xd4ef3085; 0x04881d05; 0xd9d4d039; 0xe6db99e5; 0x1fa27cf8; 0xc4ac5665;
    0xf4292244; 0x432aff97; 0xab9423a7; 0xfc93a039; 0x655b59c3; 0x8f0ccc92;
    0xffeff47d; 0x85845dd1; 0x6fa87e4f; 0xfe2ce6e0; 0xa3014314; 0x4e0811a1;
    0xf7537e82; 0xbd3af235; 0x2ad7d2bb; 0xeb86d391 ].

Definition md5_S : list Z :=
  [ 7; 12; 17; 22; 7; 12; 17; 22; 7; 12; 17; 22; 7; 12; 17; 22;
    5; 9; 14; 20; 5; 9; 14; 20; 5; 9; 14; 20; 5; 9; 14; 20;
    4; 11; 16; 23; 4; 11; 16; 23; 4; 11; 16; 23; 4; 11; 16; 23;
    6; 10; 15; 21; 6; 10; 15; 21; 6; 10; 15; 21; 6; 10; 15; 21 ].

Definition md5_round (m : list Z) (st : Z * Z * Z * Z) (iks : Z * (Z * Z)) : Z * Z * Z * Z :=
  let '(a, b, c, d) := st in
  let '(i, (k, s)) := iks in
  let '(f, g) :=
    if i <? 16 then (Z.lor (Z.land b c) (Z.land (not32 b) d), i)
    else if i <? 32 then (Z.lor (Z.land d b) (Z.land (not32 d) c), (5 * i + 1) mod 16)
    else if i <? 48 then (xor3 b c d, (3 * i + 5) mod 16)
    else (Z.lxor c (Z.lor b (not32 d)), (7 * i) mod 16) in
  let f' := add32 (add32 (add32 f a) k) (nth (Z.to_nat g) m 0) in
  (d, add32 b (rotl32 f' s), b, c).

Definition md5_block (h : Z * Z * Z * Z) (blk : list Z) : Z * Z * Z * Z :=
  let '(a, b, c, d) :=
    fold_left (md5_round blk)
      (combine (map Z.of_nat (seq 0 64)) (combine md5_K md5_S)) h in
  let '(a0, b0, c0, d0) := h in
  (add32 a0 a, add32 b0 b, add32 c0 c, add32 d0 d).

Definition md5 (msg : list Z) : list Z :=
  let '(a, b, c, d) :=
    fold_left md5_block (blocks le_word (pad le_bytes msg))
      (0x67452301, 0xefcdab89, 0x98badcfe, 0x10325476) in
  le_bytes 4 a ++ le_bytes 4 b ++ le_bytes 4 c ++ le_bytes 4 d.

(** [fmt.Sprintf("%x", digest)]: two lowercase hexadecimal digits per byte. *)
Definition hex_digit (n : Z) : ascii :=
  nth (Z.to_nat n) (list_ascii_of_string "0123456789abcdef") "0"%char.

Fixpoint hex (bs : list Z) : string :=
  match bs with
  | [] => EmptyString
  | b :: bs' => String (hex_digit (b / 16)) (String (hex_digit (b mod 16)) (hex bs'))
  end.

End Crypto.

(** ** Byte strings: package strings and sort.Strings *)

Module Str.

Definition code (c : ascii) : N := N_of_ascii c.

(** [lo <= c && c <= hi] on bytes. *)
Definition between (lo hi c : ascii) : bool :=
  ((code lo <=? code c) && (code c <=? code hi))%N.

(** Membership of a byte in a literal set of bytes. *)
Fixpoint mem (c : ascii) (set : string) : bool :=
  match set with
  | EmptyString => false
  | String d set' => Ascii.eqb c d || mem c set'
  end.

Fixpoint all (p : ascii -> bool) (s : string) : bool :=
  match s with
  | EmptyString => true
  | String c s' => p c && all p s'
  end.

Definition is_empty (s : string) : bool :=
  match s with EmptyString => true | _ => false end.

(** [strings.Contains(s, string(c))] *)
Fixpoint contains (c : ascii) (s : string) : bool :=
  match s with
  | EmptyString => false
  | String d s' => Ascii.eqb d c || contains c s'
  end.

(** [strings.Count(s, string(c))] *)
Fixpoint count (c : ascii) (s : string) : nat :=
  match s with
  | EmptyString => O
  | String d s' => (if Ascii.eqb d c then 1 else 0) + count c s'
  end.

(** [strings.Cut(s, string(c))]: text before and after the first [c];
    without a [c] the whole string and the empty string. *)
Fixpoint cut (c : ascii) (s : string) : string * string :=
  match s with
  | EmptyString => (EmptyString, EmptyString)
  | String d s' =>
      if Ascii.eqb d c then (EmptyString, s')
      else let (a, b) := cut c s' in (String d a, b)
  end.

(** Text before and from the last [c] on ([s[:i]] and [s[i:]] for
    [i := strings.LastIndex(s, string(c))]); [None] without a [c]. *)
Fixpoint cut_last (c : ascii) (s : string) : option (string * string) :=
  match s with
  | EmptyString => None
  | String d s' =>
      match cut_last c s' with
      | Some (a, b) => Some (String d a, b)
      | None => if Ascii.eqb d c then Some (EmptyString, s) else None
      end
  end.

(** [strings.Split(s, string(c))]: always at least one piece. *)
Fixpoint split (c : ascii) (s : string) : list string :=
  match s with
  | EmptyString => [EmptyString]
  | String d s' =>
      if Ascii.eqb d c then EmptyString :: split c s'
      else match split c s' with
           | [] => [String d EmptyString]
           | p :: ps => String d p :: ps
           end
  end.

(** [strings.Join(pieces, sep)] *)
Fixpoint join (sep : string) (pieces : list string) : string :=
  match pieces with
  | [] => EmptyString
  | [p] => p
  | p :: ps => p +:+ sep +:+ join sep ps
  end.

(** [strings.HasPrefix(s, p)] *)
Definition has_prefix (p s : string) : bool := String.prefix p s.

(** [strings.HasSuffix(s, string(c))] *)
Fixpoint ends_with (c : ascii) (s : string) : bool :=
  match s with
  | EmptyString => false
  | String d EmptyString => Ascii.eqb d c
  | String _ s' => ends_with c s'
  end.

(** [s[:len(s)-1]] *)
Fixpoint drop_last (s : string) : string :=
  match s with
  | EmptyString => EmptyString
  | String _ EmptyString => EmptyString
  | String d s' => String d (drop_last s')
  end.

(** [s[n:]] *)
Fixpoint skip (n : nat) (s : string) : string :=
  match n, s with
  | O, _ => s
  | S n', String _ s' => skip n' s'
  | S _, EmptyString => EmptyString
  end.

(** Text before and from the first occurrence of [sub] on. *)
Fixpoint cut_at (sub : string) (s : string) : option (string * string) :=
  if String.prefix sub s then Some (EmptyString, s)
  else match s with
       | EmptyString => None
       | String d s' =>
           match cut_at sub s' with
           | Some (a, b) => Some (String d a, b)
           | None => None
           end
       end.

Definition lower (c : ascii) : ascii :=
  if between "A" "Z" c then ascii_of_N (code c + 32) else c.

(** [strings.ToLower] on ASCII letters. *)
Fixpoint to_lower (s : string) : string :=
  match s with
  | EmptyString => EmptyString
  | String c s' => String (lower c) (to_lower s')
  end.

(** [sort.Strings]: ascending byte-wise order. *)
Definition sort (l : list string) : list string := merge_sort String.le l.

End Str.

(** ** Package net/url (the behaviour of Go 1.17 and 1.18) *)

Module URL.

(** The escaping modes of [net/url]. *)
Inductive encoding : Set :=
| encodePath
| encodePathSegment
| encodeHost
| encodeZone
| encodeUserPassword
| encodeQueryComponent
| encodeFragment.

Definition encoding_eqb (a b : encoding) : bool :=
  match a, b with
  | encodePath, encodePath
  | encodePathSegment, encodePathSegment
  | encodeHost, encodeHost
  | encodeZone, encodeZone
  | encodeUserPassword, encodeUserPassword
  | encodeQueryComponent, encodeQueryComponent
  | encodeFragment, encodeFragment => true
  | _, _ => false
  end.

Definition is_digit (c : ascii) : bool := Str.between "0" "9" c.
Definition is_alpha (c : ascii) : bool :=
  Str.between "a" "z" c || Str.between "A" "Z" c.

Definition ishex (c : ascii) : bool :=
  is_digit c || Str.between "a" "f" c || Str.between "A" "F" c.

Definition unhex (c : ascii) : N :=
  if is_digit c then (Str.code c - Str.code "0")%N
  else if Str.between "a" "f" c then (Str.code c - Str.code "a" + 10)%N
  else if Str.between "A" "F" c then (Str.code c - Str.code "A" + 10)%N
  else 0%N.

(** The byte written by [unhex(a)<<4 | unhex(b)]. *)
Definition unhex2 (a b : ascii) : ascii :=
  ascii_of_N (N.lor (N.shiftl (unhex a) 4) (unhex b)).

Definition upperhex (n : N) : ascii :=
  nth (N.to_nat n) (list_ascii_of_string "0123456789ABCDEF") "0"%char.

Definition dquote : ascii := "034"%char.

(** [shouldEscape(c, mode)] *)
Definition shouldEscape (c : ascii) (mode : encoding) : bool :=
  if is_alpha c || is_digit c then false
  else if (encoding_eqb mode encodeHost || encoding_eqb mode encodeZone)
          && (Str.mem c "!$&'()*+,;=:[]<>" || Ascii.eqb c dquote) then false
  else if Str.mem c "-_.~" then false
  else if Str.mem c "$&+,/:;=?@" then
    match mode with
    | encodePath => Ascii.eqb c "?"
    | encodePathSegment => Str.mem c "/;,?"
    | encodeUserPassword => Str.mem c "@/?:"
    | encodeQueryComponent => true
    | encodeFragment => false
    | encodeHost | encodeZone => true
    end
  else if encoding_eqb mode encodeFragment && Str.mem c "!()*" then false
  else true.

(** [escape(s, mode)] *)
Fixpoint escape (s : string) (mode : encoding) : string :=
  match s with
  | EmptyString => EmptyString
  | String c s' =>
      if shouldEscape c mode then
        if Ascii.eqb c " " && encoding_eqb mode encodeQueryComponent
        then String "+" (escape s' mode)
        else String "%" (String (upperhex (N.shiftr (Str.code c) 4))
               (String (upperhex (N.land (Str.code c) 15)) (escape s' mode)))
      else String c (escape s' mode)
  end.

(** [unescape(s, mode)]; [None] stands for either of its errors
    ([EscapeError], [InvalidHostError]). *)
Fixpoint unescape (s : string) (mode : encoding) : option string :=
  match s with
  | EmptyString => Some EmptyString
  | String "%" (String a (String b s')) =>
      if negb (ishex a && ishex b) then None
      else if encoding_eqb mode encodeHost && (unhex a <? 8)%N
              && negb (Ascii.eqb a "2" && Ascii.eqb b "5") then None
      else if encoding_eqb mode encodeZone
              && negb (Ascii.eqb a "2" && Ascii.eqb b "5")
              && negb (Ascii.eqb (unhex2 a b) " ")
              && shouldEscape (unhex2 a b) encodeHost then None
      else String (unhex2 a b) <$> unescape s' mode
  | String "%" _ => None
  | String "+" s' =>
      String (if encoding_eqb mode encodeQueryComponent then " "%char else "+"%char)
        <$> unescape s' mode
  | String c s' =>
      if (encoding_eqb mode encodeHost || encoding_eqb mode encodeZone)
         && (Str.code c <? 128)%N && shouldEscape c encodeHost then None
      else String c <$> unescape s' mode
  end.

Definition QueryEscape (s : string) : string := escape s encodeQueryComponent.
Definition QueryUnescape (s : string) : option string := unescape s encodeQueryComponent.

(** [validEncoded(s, mode)] *)
Definition validEncoded (s : string) (mode : encoding) : bool :=
  Str.all (fun c => Str.mem c "!$&'()*+,;=:@[]%" || negb (shouldEscape c mode)) s.

(** *** url.Values *)

Definition Get (v : gmap string (list string)) (key : string) : string :=
  match v !! key with
  | Some (x :: _) => x
  | _ => EmptyString
  end.

Definition Set_ (v : gmap string (list string)) (key value : string)
  : gmap string (list string) :=
  <[key := [value]]> v.

Definition Add (v : gmap string (list string)) (key value : string)
  : gmap string (list string) :=
  <[key := default [] (v !! key) ++ [value]]> v.

(** One iteration of the loop of [parseQuery] on the piece [key]:
    the pair it appends, if any. *)
Definition parsePair (piece : string) : option (string * string) :=
  if Str.contains ";" piece then None
  else if Str.is_empty piece then None
  else
    let (key, value) := Str.cut "=" piece in
    match QueryUnescape key with
    | None => None
    | Some key =>
        match QueryUnescape value with
        | None => None
        | Some value => Some (key, value)
        end
    end.

Definition addPair (m : gmap string (list string)) (kv : string * string)
  : gmap string (list string) :=
  Add m kv.1 kv.2.

(** [url.ParseQuery], without its error: each of its callers here
    discards it ([q, _ = url.ParseQuery(..)], [URL.Query]). *)
Definition ParseQuery (query : string) : gmap string (list string) :=
  fold_left addPair (omap parsePair (Str.split "&" query)) ∅.

Definition keys (v : gmap string (list string)) : list string :=
  (map_to_list v).*1.

Definition encodePair (kv : string * string) : string :=
  QueryEscape kv.1 +:+ "=" +:+ QueryEscape kv.2.

(** The (key, value) pairs of [v], keys ascending, values in order. *)
Definition pairs (v : gmap string (list string)) : list (string * string) :=
  k ← Str.sort (keys v); (fun x => (k, x)) <$> default [] (v !! k).

(** [Values.Encode] *)
Definition Encode (v : gmap string (list string)) : string :=
  Str.join "&" (encodePair <$> pairs v).

(** *** url.URL *)

Record Userinfo : Set := mkUserinfo {
  username : string;
  password : string;
  passwordSet : bool
}.

Record t : Set := mkURL {
  Scheme : string;
  Opaque : string;
  User : option Userinfo;
  Host : string;
  Path : string;
  RawPath : string;
  ForceQuery : bool;
  RawQuery : string;
  Fragment : string;
  RawFragment : string
}.

Definition empty : t :=
  mkURL EmptyString EmptyString None EmptyString EmptyString EmptyString
        false EmptyString EmptyString EmptyString.

Definition with_Path (u : t) (p : string) : t :=
  mkURL (Scheme u) (Opaque u) (User u) (Host u) p (RawPath u)
        (ForceQuery u) (RawQuery u) (Fragment u) (RawFragment u).

Definition with_RawQuery (u : t) (q : string) : t :=
  mkURL (Scheme u) (Opaque u) (User u) (Host u) (Path u) (RawPath u)
        (ForceQuery u) q (Fragment u) (RawFragment u).

Definition stringContainsCTLByte (s : string) : bool :=
  negb (Str.all (fun c => negb ((Str.code c <? 32)%N || (Str.code c =? 127)%N)) s).

Inductive scheme_result : Set :=
| SchemeFound (scheme rest : string)
| NoScheme
| MissingScheme.

Fixpoint getScheme_from (first : bool) (s : string) : scheme_result :=
  match s with
  | EmptyString => NoScheme
  | String c s' =>
      let continue :=
        match getScheme_from false s' with
        | SchemeFound scheme rest => SchemeFound (String c scheme) rest
        | r => r
        end in
      if is_alpha c then continue
      else if is_digit c || Str.mem c "+-." then
        if first then NoScheme else continue
      else if Ascii.eqb c ":" then
        if first then MissingScheme else SchemeFound EmptyString s'
      else NoScheme
  end.

(** [getScheme(rawURL)]: the scheme and the rest, or [None] for the
    error "missing protocol scheme". *)
Definition getScheme (rawURL : string) : option (string * string) :=
  match getScheme_from true rawURL with
  | SchemeFound scheme rest => Some (scheme, rest)
  | NoScheme => Some (EmptyString, rawURL)
  | MissingScheme => None
  end.

Definition validOptionalPort (port : string) : bool :=
  match port with
  | EmptyString => true
  | String c digits => Ascii.eqb c ":" && Str.all is_digit digits
  end.

Definition validUserinfo (s : string) : bool :=
  Str.all (fun c => is_alpha c || is_digit c || Str.mem c "-._:~!$&'()*+,;=%@") s.

(** [parseHost], as in Go 1.17 and 1.18: what stands between square
    brackets is not checked to be an IPv6 address, which later
    releases of net/url do.  The statements below that depend on the
    outcome of parsing are about plain host names, or relative to
    [ParseRequestURI]. *)
Definition parseHost (host : string) : option string :=
  if Str.has_prefix "[" host then
    match Str.cut_last "]" host with
    | None => None
    | Some (lit, close) =>
        if negb (validOptionalPort (Str.skip 1 close)) then None
        else
          match Str.cut_at "%25" lit with
          | Some (host1, zone) =>
              h1 ← unescape host1 encodeHost;
              h2 ← unescape zone encodeZone;
              h3 ← unescape close encodeHost;
              Some (h1 +:+ h2 +:+ h3)
          | None => unescape host encodeHost
          end
    end
  else
    match Str.cut_last ":" host with
    | Some (_, colonPort) =>
        if negb (validOptionalPort colonPort) then None
        else unescape host encodeHost
    | None => unescape host encodeHost
    end.

Definition parseAuthority (authority : string) : option (option Userinfo * string) :=
  match Str.cut_last "@" authority with
  | None => host ← parseHost authority; Some (None, host)
  | Some (userinfo, atHost) =>
      host ← parseHost (Str.skip 1 atHost);
      if negb (validUserinfo userinfo) then None
      else if negb (Str.contains ":" userinfo) then
        u ← unescape userinfo encodeUserPassword;
        Some (Some (mkUserinfo u EmptyString false), host)
      else
        let (name, pass) := Str.cut ":" userinfo in
        u ← unescape name encodeUserPassword;
        p ← unescape pass encodeUserPassword;
        Some (Some (mkUserinfo u p true), host)
  end.

(** The query part of [rest]: the text before it, [ForceQuery] and
    [RawQuery]. *)
Definition cutQuery (rest : string) : string * bool * string :=
  if Str.ends_with "?" rest && Nat.eqb (Str.count "?" rest) 1
  then (Str.drop_last rest, true, EmptyString)
  else let (a, b) := Str.cut "?" rest in (a, false, b).

(** The authority of [rest], which starts with two slashes, and the
    path after it. *)
Definition cutAuthority (rest : string) : string * string :=
  let (authority, path) := Str.cut "/" (Str.skip 2 rest) in
  (authority,
   if Str.contains "/" (Str.skip 2 rest) then String "/" path else EmptyString).

(** [parse(rawURL, viaRequest)]; [None] stands for any of its errors. *)
Definition parse (rawURL : string) (viaRequest : bool) : option t :=
  if stringContainsCTLByte rawURL then None
  else if Str.is_empty rawURL && viaRequest then None
  else if String.eqb rawURL "*" then Some (with_Path empty "*")
  else
    '(scheme, rest) ← getScheme rawURL;
    let scheme := Str.to_lower scheme in
    let '(rest, force, rawquery) := cutQuery rest in
    if negb (Str.has_prefix "/" rest) && negb (Str.is_empty scheme) then
      Some (mkURL scheme rest None EmptyString EmptyString EmptyString
                  force rawquery EmptyString EmptyString)
    else if negb (Str.has_prefix "/" rest) && viaRequest then None
    else if negb (Str.has_prefix "/" rest)
            && Str.contains ":" (Str.cut "/" rest).1 then None
    else
      '(user, host, rest) ←
        (if (negb (Str.is_empty scheme)
             || negb viaRequest && negb (Str.has_prefix "///" rest))
            && Str.has_prefix "//" rest
         then
           let (authority, path) := cutAuthority rest in
           '(user, host) ← parseAuthority authority;
           Some (user, host, path)
         else Some (None, EmptyString, rest));
      path ← unescape rest encodePath;
      let rawpath := if String.eqb rest (escape path encodePath)
                     then EmptyString else rest in
      Some (mkURL scheme EmptyString user host path rawpath
                  force rawquery EmptyString EmptyString).

Definition ParseRequestURI (rawURL : string) : option t := parse rawURL true.

(** [url.Parse] *)
Definition Parse (rawURL : string) : option t :=
  let (u, frag) := Str.cut "#" rawURL in
  url ← parse u false;
  if Str.is_empty frag then Some url
  else
    f ← unescape frag encodeFragment;
    let raw := if String.eqb frag (escape f encodeFragment)
               then EmptyString else frag in
    Some (mkURL (Scheme url) (Opaque url) (User url) (Host url) (Path url)
                (RawPath url) (ForceQuery url) (RawQuery url) f raw).

Definition EscapedPath (u : t) : string :=
  if negb (Str.is_empty (RawPath u)) && validEncoded (RawPath u) encodePath
     && bool_decide (unescape (RawPath u) encodePath = Some (Path u))
  then RawPath u
  else if String.eqb (Path u) "*" then "*"
  else escape (Path u) encodePath.

Definition EscapedFragment (u : t) : string :=
  if negb (Str.is_empty (RawFragment u)) && validEncoded (RawFragment u) encodeFragment
     && bool_decide (unescape (RawFragment u) encodeFragment = Some (Fragment u))
  then RawFragment u
  else escape (Fragment u) encodeFragment.

Definition Userinfo_String (ui : Userinfo) : string :=
  escape (username ui) encodeUserPassword
  +:+ (if passwordSet ui then ":" +:+ escape (password ui) encodeUserPassword
       else EmptyString).

(** [URL.String] *)
Definition String_ (u : t) : string :=
  let scheme := if Str.is_empty (Scheme u) then EmptyString else Scheme u +:+ ":" in
  let body :=
    if negb (Str.is_empty (Opaque u)) then scheme +:+ Opaque u
    else
      let authority :=
        if negb (Str.is_empty (Scheme u)) || negb (Str.is_empty (Host u))
           || bool_decide (User u <> None)
        then
          (if negb (Str.is_empty (Host u)) || negb (Str.is_empty (Path u))
              || bool_decide (User u <> None) then "//" else EmptyString)
          +:+ match User u with
              | Some ui => Userinfo_String ui +:+ "@"
              | None => EmptyString
              end
          +:+ (if Str.is_empty (Host u) then EmptyString
               else escape (Host u) encodeHost)
        else EmptyString in
      let path := EscapedPath u in
      let slash :=
        if negb (Str.is_empty path) && negb (Str.has_prefix "/" path)
           && negb (Str.is_empty (Host u)) then "/" else EmptyString in
      let buf := scheme +:+ authority +:+ slash in
      let dot :=
        if Str.is_empty buf && Str.contains ":" (Str.cut "/" path).1
        then "./" else EmptyString in
      buf +:+ dot +:+ path in
  body
  +:+ (if ForceQuery u || negb (Str.is_empty (RawQuery u))
       then "?" +:+ RawQuery u else EmptyString)
  +:+ (if Str.is_empty (Fragment u) then EmptyString
       else "#" +:+ EscapedFragment u).

(** [URL.RequestURI] *)
Definition RequestURI (u : t) : string :=
  (if Str.is_empty (Opaque u) then
     (if Str.is_empty (EscapedPath u) then "/" else EscapedPath u)
   else if Str.has_prefix "//" (Opaque u) then Scheme u +:+ ":" +:+ Opaque u
   else Opaque u)
  +:+ (if ForceQuery u || negb (Str.is_empty (RawQuery u))
       then "?" +:+ RawQuery u else EmptyString).

(** [URL.Query] *)
Definition Query (u : t) : gmap string (list string) := ParseQuery (RawQuery u).

End URL.

(** ** strconv.ParseInt and package time *)

Module Strconv.
Local Open Scope Z_scope.

Fixpoint digits (acc : Z) (s : string) : option Z :=
  match s with
  | EmptyString => Some acc
  | String c s' =>
      if URL.is_digit c
      then digits (acc * 10 + (Z.of_N (Str.code c) - 48)) s'
      else None
  end.

(** The magnitude read by [ParseUint(s, 10, 64)]; the range is checked
    by [ParseInt] below, on the unbounded value. *)
Definition ParseUint (s : string) : option Z :=
  if Str.is_empty s then None else digits 0 s.

(** [strconv.ParseInt(s, 10, 64)]; [None] is a syntax or range error. *)
Definition ParseInt (s : string) : option Z :=
  match s with
  | EmptyString => None
  | String c s' =>
      let '(neg, ds) :=
        if Ascii.eqb c "+" then (false, s')
        else if Ascii.eqb c "-" then (true, s')
        else (false, s) in
      un ← ParseUint ds;
      if negb neg && (2 ^ 63 <=? un) then None
      else if neg && (2 ^ 63 <? un) then None
      else Some (if neg then - un else un)
  end.

End Strconv.

Module Time.
Local Open Scope Z_scope.

(** A [time.Time] without monotonic reading: seconds since January 1,
    year 1 (an int64) and nanoseconds within the second. *)
Record t : Set := mk { sec : Z; nsec : Z }.

Definition unixToInternal : Z :=
  (1969 * 365 + 1969 / 4 - 1969 / 100 + 1969 / 400) * 86400.

(** int64 wrap-around of Go's [+]. *)
Definition wrap64 (x : Z) : Z := (x + 2 ^ 63) mod 2 ^ 64 - 2 ^ 63.

(** [time.Unix(s, 0)]: [Time{0, s + unixToInternal, Local}]. *)
Definition Unix (s : Z) : t := mk (wrap64 (s + unixToInternal)) 0.

(** [t.Before(u)] *)
Definition Before (a b : t) : bool :=
  (sec a <? sec b) || ((sec a =? sec b) && (nsec a <? nsec b)).

(** [t.Unix()]: seconds since January 1, 1970. *)
Definition unix (a : t) : Z := sec a - unixToInternal.

End Time.

(** ** The request seen through *fiber.Ctx *)

Module Fiber.

(** What [validateRequest] reads of a context: [c.Method()],
    [c.BaseURL()] (protocol, "://", host), [c.OriginalURL()] (the
    request target as received) and [c.Body()]. *)
Record Ctx : Set := mkCtx {
  Method : string;
  BaseURL : string;
  OriginalURL : string;
  Body : string
}.

(** fasthttp's [decodeArgAppend]: a malformed escape is kept as text. *)
Fixpoint decodeArg (s : string) : string :=
  match s with
  | EmptyString => EmptyString
  | String c s1 =>
      if Ascii.eqb c "%" then
        match s1 with
        | String a (String b s2) =>
            if URL.ishex a && URL.ishex b
            then String (URL.unhex2 a b) (decodeArg s2)
            else String "%" (decodeArg s1)
        | _ => s
        end
      else if Ascii.eqb c "+" then String " " (decodeArg s1)
      else String c (decodeArg s1)
  end.

(** fasthttp's query string of a request target: the text between
    the first [?] and the first [#]. *)
Definition queryString (target : string) : string :=
  let (before, _) := Str.cut "#" target in
  (Str.cut "?" before).2.

(** One step of fasthttp's [argsScanner]: key and value of a piece. *)
Definition scanArg (piece : string) : string * string :=
  let (k, v) := Str.cut "=" piece in (decodeArg k, decodeArg v).

(** [Args.Peek]: the value of the first argument named [key]; pairs
    with empty key and value are not stored. *)
Fixpoint peek (key : string) (pieces : list string) : string :=
  match pieces with
  | [] => EmptyString
  | p :: ps =>
      let (k, v) := scanArg p in
      if negb (Str.is_empty k && Str.is_empty v) && String.eqb k key then v
      else peek key ps
  end.

(** [c.Query(key)] *)
Definition Query (c : Ctx) (key : string) : string :=
  peek key (Str.split "&" (queryString (OriginalURL c))).

End Fiber.

(** ** net/http requests *)

Module HTTP.

(** The body stream of a request: the bytes still unread, or a
    stream whose [Read] fails with the given message. *)
Inductive Reader : Set :=
| Stream (unread : string)
| Failing (msg : string).

(** [ioutil.ReadAll]: the bytes or the error, and the stream after. *)
Definition ReadAll (b : Reader) : (string + string) * Reader :=
  match b with
  | Stream unread => (inl unread, Stream EmptyString)
  | Failing msg => (inr msg, Failing msg)
  end.

Record Request : Set := mkRequest {
  Method : string;
  URL : URL.t;
  Host : string;
  Body : option Reader
}.

(** [if r.Body != nil { body, err = ioutil.ReadAll(r.Body) }]: the
    bytes (none for a nil body) or the error, and the body after. *)
Definition readBody (body : option Reader) : (string + string) * option Reader :=
  match body with
  | Some b => let (res, b') := ReadAll b in (res, Some b')
  | None => (inl EmptyString, None)
  end.

End HTTP.

(** ** Package signed *)

Module Signed.

(** *** config.go *)

Definition AlgorithmSHA1 : string := "SHA-1".
Definition AlgorithmSHA256 : string := "SHA-256".
Definition AlgorithmMD5 : string := "MD-5".

Record Config : Type := mkConfig {
  Next : option (Fiber.Ctx -> bool);
  Algorithm : string;
  GetPrivateKeyFunc : option (unit -> string);
  SignatureQueryKey : string;
  PrivateKeyQueryKey : string;
  ExpiresQueryKey : string;
  BodyHashQueryKey : string
}.

(** [ConfigDefault]; [getenv] is [os.Getenv]. *)
Definition ConfigDefault (getenv : string -> string) : Config :=
  {| Next := None;
     Algorithm := AlgorithmSHA1;
     GetPrivateKeyFunc := Some (fun _ => getenv "FIBER_SIGNED_PRIVATE_KEY");
     SignatureQueryKey := "signature";
     PrivateKeyQueryKey := "privateKey";
     ExpiresQueryKey := "expires";
     BodyHashQueryKey := "bodyHash" |}.

Definition or_default (s d : string) : string :=
  if Str.is_empty s then d else s.

(** [configDefault(config ...Config)] *)
Definition configDefault (getenv : string -> string) (config : list Config) : Config :=
  match config with
  | [] => ConfigDefault getenv
  | cfg :: _ =>
      let d := ConfigDefault getenv in
      {| Next := match Next cfg with None => Next d | n => n end;
         Algorithm := or_default (Algorithm cfg) (Algorithm d);
         GetPrivateKeyFunc :=
           match GetPrivateKeyFunc cfg with
           | None => GetPrivateKeyFunc d
           | f => f
           end;
         SignatureQueryKey := or_default (SignatureQueryKey cfg) (SignatureQueryKey d);
         PrivateKeyQueryKey := or_default (PrivateKeyQueryKey cfg) (PrivateKeyQueryKey d);
         ExpiresQueryKey := or_default (ExpiresQueryKey cfg) (ExpiresQueryKey d);
         BodyHashQueryKey := or_default (BodyHashQueryKey cfg) (BodyHashQueryKey d) |}
  end.

(** The call [cfg.GetPrivateKeyFunc()].  [configDefault] never leaves
    the field nil; on a nil field, which Go would refuse to call, the
    model reads the empty secret. *)
Definition privateKey (cfg : Config) : string :=
  match GetPrivateKeyFunc cfg with
  | Some f => f tt
  | None => EmptyString
  end.

(** The errors of the package, by kind, and their messages. *)
Inductive Error : Set :=
| MalformedURL
| ReservedParameterError (key : string)
| BodyReadError (msg : string)
| MissingSignature (key : string)
| InvalidExpiry (key : string)
| Expired
| SignatureMismatch.

Definition Error_message (e : Error) : string :=
  match e with
  | MalformedURL => "cannot parse provided URL"
  | ReservedParameterError key =>
      key +:+ " is a reserved query parameter when generating signed routes"
  | BodyReadError msg => msg
  | MissingSignature key =>
      key +:+ " is a required query param for a signed URL route"
  | InvalidExpiry key => key +:+ " value must be valid integer"
  | Expired => "url signature has expired"
  | SignatureMismatch => "invalid signature"
  end.

(** *** The utilities file *)

(** [getHash(hashString)] *)
Definition getHash (cfg : Config) (hashString : string) : string :=
  let hash :=
    if String.eqb (Algorithm cfg) AlgorithmSHA1 then Crypto.sha1
    else if String.eqb (Algorithm cfg) AlgorithmSHA256 then Crypto.sha256
    else if String.eqb (Algorithm cfg) AlgorithmMD5 then Crypto.md5
    else Crypto.sha1 in
  Crypto.hex (hash (Crypto.bytes_of_string hashString)).

(** [orderQueryParams(q)] *)
Definition orderQueryParams (cfg : Config) (q : gmap string (list string)) : string :=
  let keys :=
    Str.sort (filter (fun k => k <> SignatureQueryKey cfg) (URL.keys q)) in
  let ordered :=
    key ← keys;
    (fun val => key +:+ "=" +:+ val) <$> Str.sort (default [] (q !! key)) in
  Str.join "&" ordered.

(** The query parameters [getSignature] starts from. *)
Definition existingQuery (originalURL : string) : gmap string (list string) :=
  if Str.contains "?" originalURL
  then URL.ParseQuery (nth 1 (Str.split "?" originalURL) EmptyString)
  else URL.ParseQuery originalURL.

(** The parameters [getSignature] adds to [q] before hashing: the
    private key and, for a non-empty body, its hash. *)
Definition injectParams (cfg : Config) (q : gmap string (list string)) (body : string)
  : gmap string (list string) :=
  let q := URL.Set_ q (PrivateKeyQueryKey cfg) (privateKey cfg) in
  if (0 <? String.length body)%nat
  then URL.Set_ q (BodyHashQueryKey cfg) (getHash cfg body)
  else q.

(** The query parameters that are hashed. *)
Definition signedQuery (cfg : Config) (originalURL body : string)
  : gmap string (list string) :=
  injectParams cfg (existingQuery originalURL) body.

(** The local [hashString] of [getSignature], for a parsed URL. *)
Definition hashString (cfg : Config) (method : string) (parsed : URL.t)
    (originalURL body : string) : string :=
  let path :=
    if (String.length (URL.Path parsed) <? 1)%nat
    then URL.Path parsed +:+ "/" else URL.Path parsed in
  method +:+ "&" +:+ URL.Scheme parsed +:+ "://" +:+ URL.Host parsed
    +:+ path +:+ "?" +:+ orderQueryParams cfg (signedQuery cfg originalURL body).

(** [getSignature(method, baseURL, originalURL, body)] *)
Definition getSignature (cfg : Config) (method baseURL originalURL body : string)
  : string * option Error :=
  match URL.ParseRequestURI (baseURL +:+ originalURL) with
  | None => (EmptyString, Some MalformedURL)
  | Some parsed =>
      (getHash cfg (hashString cfg method parsed originalURL body), None)
  end.

(** [validateRequest(c)]; [now] is the value of [time.Now()]. *)
Definition validateRequest (cfg : Config) (now : Time.t) (c : Fiber.Ctx)
  : bool * option Error :=
  let signature := Fiber.Query c (SignatureQueryKey cfg) in
  if Str.is_empty signature
  then (false, Some (MissingSignature (SignatureQueryKey cfg)))
  else
    let expires := Fiber.Query c (ExpiresQueryKey cfg) in
    let expiry : option Error :=
      if negb (Str.is_empty expires) then
        match Strconv.ParseInt expires with
        | None => Some (InvalidExpiry (ExpiresQueryKey cfg))
        | Some i =>
            if Time.Before (Time.Unix i) now then Some Expired else None
        end
      else None in
    match expiry with
    | Some e => (false, Some e)
    | None =>
        let '(hashedSignature, _) :=
          getSignature cfg (Fiber.Method c) (Fiber.BaseURL c)
                       (Fiber.OriginalURL c) (Fiber.Body c) in
        if negb (String.eqb hashedSignature signature)
        then (false, Some SignatureMismatch)
        else (true, None)
    end.

(** *** signed.go *)

(** What the handler returned by [New] does with a request. *)
Inductive Handled : Set :=
| Continue
| Forbidden (msg : string).

Definition handler (cfg : Config) (now : Time.t) (c : Fiber.Ctx) : Handled :=
  if match Next cfg with Some next => next c | None => false end then Continue
  else
    match validateRequest cfg now c with
    | (false, Some err) => Forbidden (Error_message err)
    | (false, None) => Forbidden EmptyString
    | (true, _) => Continue
    end.

(** [New(config ...Config)]: the value it gives the package variable
    [cfg], and the handler it returns.  The handler reads the package
    variable when a request arrives, not when [New] is called: it is
    a function of the value [cfg] then has. *)
Definition New (getenv : string -> string) (config : list Config)
  : Config * (Config -> Time.t -> Fiber.Ctx -> Handled) :=
  (configDefault getenv config, handler).

(** The package variable after the calls [New(config...)] for the
    argument lists [calls] in turn, from the value [cfg0]. *)
Definition afterNew (getenv : string -> string) (calls : list (list Config))
    (cfg0 : Config) : Config :=
  fold_left (fun _ config => (New getenv config).1) calls cfg0.

(** What a call of [GetSignedURLFromHTTPRequest] leaves behind: its
    two results, the request as mutated, and the arguments of each
    call of [getSignature] it made. *)
Record Signing : Set := mkSigning {
  signedURL : string;
  err : option Error;
  request : HTTP.Request;
  signatureCalls : list (string * string * string * string)
}.

(** [GetSignedURLFromHTTPRequest(r)] *)
Definition GetSignedURLFromHTTPRequest (cfg : Config) (r : HTTP.Request) : Signing :=
  let baseURL := URL.Scheme (HTTP.URL r) +:+ "://" +:+ HTTP.Host r in
  let originalURL := URL.Path (HTTP.URL r) +:+ "?" +:+ URL.RawQuery (HTTP.URL r) in
  let '(read, stream) := HTTP.readBody (HTTP.Body r) in
  let r := HTTP.mkRequest (HTTP.Method r) (HTTP.URL r) (HTTP.Host r) stream in
  match read with
  | inr msg => mkSigning EmptyString (Some (BodyReadError msg)) r []
  | inl body =>
      let q := URL.Query (HTTP.URL r) in
      if negb (Str.is_empty (URL.Get q (SignatureQueryKey cfg))) then
        mkSigning EmptyString (Some (ReservedParameterError (SignatureQueryKey cfg))) r []
      else if negb (Str.is_empty (URL.Get q (PrivateKeyQueryKey cfg))) then
        mkSigning EmptyString (Some (ReservedParameterError (PrivateKeyQueryKey cfg))) r []
      else if negb (Str.is_empty (URL.Get q (BodyHashQueryKey cfg))) then
        mkSigning EmptyString (Some (ReservedParameterError (BodyHashQueryKey cfg))) r []
      else
        let '(signature, _) := getSignature cfg (HTTP.Method r) baseURL originalURL body in
        let q := URL.Add q "signature" signature in
        let u := URL.with_RawQuery (HTTP.URL r) (URL.Encode q) in
        let r := HTTP.mkRequest (HTTP.Method r) u (HTTP.Host r) stream in
        mkSigning (URL.String_ u) None r
                  [(HTTP.Method r, baseURL, originalURL, body)]
  end.

(** *** Presenting a URL to the middleware *)

(** The methods of a request that reaches the handlers of a Fiber
    application; to any other method string it answers 400 before a
    handler runs.  CONNECT, for which a client may send the authority
    in place of the request URI, is left out. *)
Definition methods : list string :=
  ["GET"; "HEAD"; "POST"; "PUT"; "DELETE"; "OPTIONS"; "TRACE"; "PATCH"].

(** net/http's [removeEmptyPort], applied by [http.NewRequest] to the
    host of the URL: a trailing colon without port is dropped. *)
Definition removeEmptyPort (host : string) : string :=
  match Str.cut_last ":" host with
  | Some (_, colonPort) =>
      if negb (Str.contains "]" colonPort) && Str.ends_with ":" host
      then Str.drop_last host else host
  | None => host
  end.

(** The context a Fiber application sees when a Go HTTP client
    requests [rawURL] with [method] and [body]: the client parses the
    URL and sends [URL.RequestURI] as request target and the host of
    the URL, without empty port, as host; Fiber reports the method,
    protocol "http" or "https" with the host in lower case as base
    URL, the request target and the body. *)
Definition deliver (method rawURL body : string) : option Fiber.Ctx :=
  u ← URL.Parse rawURL;
  if (String.eqb (URL.Scheme u) "http" || String.eqb (URL.Scheme u) "https")
     && bool_decide (method ∈ methods)
  then Some (Fiber.mkCtx method
               (URL.Scheme u +:+ "://" +:+ Str.to_lower (removeEmptyPort (URL.Host u)))
               (URL.RequestURI u) body)
  else None.

End Signed.

(** ** Configurations and requests of the package's tests *)

Module Scenario.
Import Signed.

(** [New(Config{GetPrivateKeyFunc: func() string { return "secret" }})] *)
Definition secretConfig : Config :=
  configDefault (fun _ => EmptyString)
    [mkConfig None "" (Some (fun _ => "secret")) "" "" "" ""].

(** The README's override of the signature key:
    [New(Config{SignatureQueryKey: "sign", ..})]. *)
Definition signConfig : Config :=
  configDefault (fun _ => EmptyString)
    [mkConfig None "" (Some (fun _ => "secret")) "sign" "" "" ""].

(** [cfg] with another value in its [Algorithm] field. *)
Definition withAlgorithm (cfg : Config) (alg : string) : Config :=
  mkConfig (Next cfg) alg (GetPrivateKeyFunc cfg) (SignatureQueryKey cfg)
           (PrivateKeyQueryKey cfg) (ExpiresQueryKey cfg) (BodyHashQueryKey cfg).

(** A request as [http.NewRequest(method, rawURL, body)] builds it
    for the URL [scheme://host path ? rawQuery]: an empty port is
    removed from the host, which is also the [Host] field. *)
Definition newRequest (method scheme host path rawQuery : string)
    (body : option HTTP.Reader) : HTTP.Request :=
  let host := removeEmptyPort host in
  HTTP.mkRequest method
    (URL.mkURL scheme "" None host path "" false rawQuery "" "")
    host body.

(** 2023-11-14 22:13:20 UTC and 5 ns. *)
Definition aNow : Time.t := Time.mk (Time.unixToInternal + 1700000000) 5.

End Scenario.

(** ** Shapes of strings, queries and requests used in the statements *)

Module Shape.

(** The bytes of an escaped string: those the mode leaves alone, and
    [%] and [+]. *)
Definition escaped_byte (mode : URL.encoding) (c : ascii) : bool :=
  negb (URL.shouldEscape c mode) || Str.mem c "%+".

(** ASCII control bytes, which [url.Parse] refuses anywhere. *)
Definition ctl (c : ascii) : bool :=
  (Str.code c <? 32)%N || (Str.code c =? 127)%N.

Definition host_name_byte (c : ascii) : bool :=
  URL.is_alpha c || URL.is_digit c || Str.mem c "-._~".

(** Bytes that [net/url] leaves alone in a host and that do not end
    an authority. *)
Definition host_safe (c : ascii) : bool :=
  negb (URL.shouldEscape c URL.encodeHost) && negb (ctl c)
  && negb (Str.mem c "/?#@[").

(** A host of the form [name] or [name:port]. *)
Definition plain_host (h : string) : bool :=
  negb (Str.is_empty h)
  && Str.all host_name_byte (Str.cut ":" h).1
  && Str.all URL.is_digit (Str.cut ":" h).2.

(** A path that is empty or absolute, without escape, question mark
    or control byte. *)
Definition plain_path (p : string) : bool :=
  (Str.is_empty p || Str.has_prefix "/" p)
  && Str.all (fun c => negb (ctl c) && negb (Str.mem c "%?")) p.

(** A raw query without question mark or control byte. *)
Definition plain_query (q : string) : bool :=
  Str.all (fun c => negb (ctl c) && negb (Ascii.eqb c "?")) q.

(** The schemes a Fiber application is reached by. *)
Definition web_scheme (s : string) : bool :=
  String.eqb s "http" || String.eqb s "https".

(** A request URL of the plain shape: web scheme, plain host, no
    opaque part, user, raw path or fragment, plain path. *)
Definition plain_url (u : URL.t) : bool :=
  web_scheme (URL.Scheme u) && plain_host (URL.Host u)
  && Str.is_empty (URL.Opaque u) && bool_decide (URL.User u = None)
  && Str.is_empty (URL.RawPath u) && Str.is_empty (URL.Fragment u)
  && plain_path (URL.Path u).

(** A request for a plain URL, sent to the host of that URL, whose
    raw query is plain. *)
Definition plain_request (r : HTTP.Request) : bool :=
  plain_url (HTTP.URL r) && String.eqb (HTTP.Host r) (URL.Host (HTTP.URL r))
  && plain_query (URL.RawQuery (HTTP.URL r)).


(** The request target an HTTP client sends for the path [p]. *)
Definition target_path (p : string) : string :=
  if Str.is_empty p then "/" else URL.escape p URL.encodePath.

(** The path [getSignature] hashes for the parsed path [p]. *)
Definition hashed_path (p : string) : string :=
  if (String.length p <? 1)%nat then p +:+ "/" else p.

(** The bytes the signer reads from the body of [r]. *)
Definition body_bytes (r : HTTP.Request) : string :=
  match HTTP.readBody (HTTP.Body r) with
  | (inl body, _) => body
  | (inr _, _) => EmptyString
  end.


(** A nil body, or a stream that can be read. *)
Definition readable (body : option HTTP.Reader) : bool :=
  match body with
  | Some (HTTP.Failing _) => false
  | _ => true
  end.

(** The instant of a [time.Time], in nanoseconds since January 1,
    1970, as an unbounded integer. *)
Definition nanos (t : Time.t) : Z :=
  (Time.unix t * 10 ^ 9 + Time.nsec t)%Z.

(** A [time.Time] as the clock returns it: seconds within int64,
    nanoseconds within the second. *)
Definition clock (t : Time.t) : Prop :=
  (- 2 ^ 63 <= Time.sec t < 2 ^ 63 /\ 0 <= Time.nsec t < 10 ^ 9)%Z.

(** The last second that [time.Unix] represents without wrap-around. *)
Definition maxUnix : Z := (2 ^ 63 - 1 - Time.unixToInternal)%Z.

(** The outcomes of [validateRequest] once the expiry check has
    passed: valid, or rejected for its signature. *)
Definition past_expiry (outcome : bool * option Signed.Error) : Prop :=
  outcome = (true, None) \/ outcome = (false, Some Signed.SignatureMismatch).

(** The expiry check of [validateRequest] passes on the value
    [expires] of the expiry parameter: it is empty, or an integer
    [time.Unix] of which is not before [now]. *)
Definition expiry_passes (now : Time.t) (expires : string) : bool :=
  Str.is_empty expires
  || match Strconv.ParseInt expires with
     | Some i => negb (Time.Before (Time.Unix i) now)
     | None => false
     end.

(** A query map as [url.ParseQuery] builds them: no key without a value. *)
Definition proper (v : gmap string (list string)) : Prop :=
  forall k vs, v !! k = Some vs -> vs <> [].

(** The (key, value) pairs of [ps] whose key is [k], as values. *)
Definition values_of (k : string) (ps : list (string * string)) : list string :=
  (filter (fun kv => kv.1 = k) ps).*2.

(** Two query maps with the same keys and, under each key other than
    [skip], the same values up to order. *)
Definition same_params (skip : string) (q1 q2 : gmap string (list string)) : Prop :=
  forall k, k <> skip -> option_Forall2 Permutation (q1 !! k) (q2 !! k).

(** A configuration in which every field that [configDefault] fills
    is set. *)
Definition complete (cfg : Signed.Config) : Prop :=
  Signed.Algorithm cfg <> "" /\ is_Some (Signed.GetPrivateKeyFunc cfg)
  /\ Signed.SignatureQueryKey cfg <> "" /\ Signed.PrivateKeyQueryKey cfg <> ""
  /\ Signed.ExpiresQueryKey cfg <> "" /\ Signed.BodyHashQueryKey cfg <> "".

(** The handler's [cfg.Next != nil && cfg.Next(c)]. *)
Definition skipped (cfg : Signed.Config) (c : Fiber.Ctx) : bool :=
  match Signed.Next cfg with Some next => next c | None => false end.

(** The errors [validateRequest] rejects a request with. *)
Definition rejections (cfg : Signed.Config) : list Signed.Error :=
  [Signed.MissingSignature (Signed.SignatureQueryKey cfg);
   Signed.InvalidExpiry (Signed.ExpiresQueryKey cfg);
   Signed.Expired; Signed.SignatureMismatch].

(** The length in hexadecimal digits of the digest of [cfg.Algorithm]. *)
Definition digest_length (cfg : Signed.Config) : nat :=
  if String.eqb (Signed.Algorithm cfg) Signed.AlgorithmSHA256 then 64
  else if String.eqb (Signed.Algorithm cfg) Signed.AlgorithmMD5 then 32
  else 40.

End Shape.

(** * Properties *)

Import Signed Scenario Shape.

(** ** Digest test vectors *)

Example sha1_abc :
  Crypto.hex (Crypto.sha1 (Crypto.bytes_of_string "abc"))
  = "a9993e364706816aba3e25717850c26c9cd0d89d".
Proof. vm_compute. reflexivity. Qed.

Example sha256_abc :
  Crypto.hex (Crypto.sha256 (Crypto.bytes_of_string "abc"))
  = "ba7816bf8f01cfea414140de5dae2223b00361a396177a9cb410ff61f20015ad".
Proof. vm_compute. reflexivity. Qed.

Example sha256_K_ends :
  length Crypto.sha256_K = 64%nat
  /\ head Crypto.sha256_K = Some 0x428a2f98%Z
  /\ last Crypto.sha256_K = Some 0xc67178f2%Z.
Proof. vm_compute. done. Qed.

Example md5_abc :
  Crypto.hex (Crypto.md5 (Crypto.bytes_of_string "abc"))
  = "900150983cd24fb0d6963f7d28e17f72".
Proof. vm_compute. reflexivity. Qed.

(** ** The package's own tests, replayed on the model *)

Example test_getSignature_bad_url :
  getSignature secretConfig "BAD" "something not a url" "also weird" ""
  = ("", Some MalformedURL).
Proof. vm_compute. reflexivity. Qed.

Example test_getSignature_trailing_slash :
  getSignature secretConfig "GET" "http://127.0.0.1:3000" "" ""
  = (getHash secretConfig "GET&http://127.0.0.1:3000/?privateKey=secret", None).
Proof. vm_compute. reflexivity. Qed.

Example test_getSignature_private_key :
  getSignature secretConfig "GET" "http://127.0.0.1:3000" "/signature?q=something" ""
  = (getHash secretConfig
       "GET&http://127.0.0.1:3000/signature?privateKey=secret&q=something", None).
Proof. vm_compute. reflexivity. Qed.

Example test_getSignature_body :
  getSignature secretConfig "GET" "http://127.0.0.1:3000" "/?q=something" "body"
  = (getHash secretConfig
       ("GET&http://127.0.0.1:3000/?bodyHash=" +:+ getHash secretConfig "body"
        +:+ "&privateKey=secret&q=something"), None).
Proof. vm_compute. reflexivity. Qed.

Example test_orderQueryParams :
  orderQueryParams secretConfig
    (URL.Set_ (URL.Set_ (URL.Set_ (URL.Set_ ∅ "c" "789") "a" "123") "b" "456")
              "signature" "something")
  = "a=123&b=456&c=789".
Proof. vm_compute. reflexivity. Qed.

Example test_validateRequest_ok :
  validateRequest secretConfig aNow
    (Fiber.mkCtx "GET" "http://example.com"
                 "/?signature=d07242c7ef0dfb2e22c5339faa8317fe1f3f670e" "")
  = (true, None).
Proof. vm_compute. reflexivity. Qed.

Example test_validateRequest_failures :
  let run target := validateRequest secretConfig aNow
                      (Fiber.mkCtx "GET" "http://example.com" target "") in
  run "/" = (false, Some (MissingSignature "signature"))
  /\ run "/?signature=something&expires=123" = (false, Some Expired)
  /\ run "/?signature=something&expires=abc" = (false, Some (InvalidExpiry "expires"))
  /\ run "/?signature=wrong" = (false, Some SignatureMismatch).
Proof. vm_compute. repeat split; reflexivity. Qed.

Example test_signer_body :
  signedURL (GetSignedURLFromHTTPRequest secretConfig
               (newRequest "GET" "http" "example.com" "/" "" (Some (HTTP.Stream "body"))))
  = "http://example.com/?signature="
    +:+ getHash secretConfig
          ("GET&http://example.com/?bodyHash=" +:+ getHash secretConfig "body"
           +:+ "&privateKey=secret").
Proof. vm_compute. reflexivity. Qed.

Example test_signer_errors :
  let run rawQuery body :=
    err (GetSignedURLFromHTTPRequest secretConfig
           (newRequest "GET" "http" "example.com" "/" rawQuery body)) in
  run "" (Some (HTTP.Failing "test error")) = Some (BodyReadError "test error")
  /\ run "signature=something" None = Some (ReservedParameterError "signature")
  /\ run "privateKey=something" None = Some (ReservedParameterError "privateKey")
  /\ run "bodyHash=something" None = Some (ReservedParameterError "bodyHash").
Proof. vm_compute. repeat split; reflexivity. Qed.

(** ** Tactics *)

(** Splits a conjunction into its parts, leaving equations alone. *)
Ltac conjs := repeat match goal with |- _ /\ _ => split end.

(** Closes an equation between closed terms by evaluating both sides. *)
Ltac by_computing :=
  match goal with |- _ = _ => vm_compute; reflexivity end.

(** ** Byte strings *)

Lemma sapp_cons c s t : String c s +:+ t = String c (s +:+ t).
Proof. reflexivity. Qed.

Lemma sapp_nil_r s : s +:+ "" = s.
Proof. induction s as [|c s IH]; [done|]. by rewrite sapp_cons, IH. Qed.

Lemma sapp_assoc a b c : (a +:+ b) +:+ c = a +:+ (b +:+ c).
Proof. induction a as [|x a IH]; [done|]. by rewrite !sapp_cons, IH. Qed.

Lemma sapp_length a b : String.length (a +:+ b) = (String.length a + String.length b)%nat.
Proof. induction a as [|x a IH]; [done|]. rewrite sapp_cons. simpl. by rewrite IH. Qed.

Lemma is_empty_true s : Str.is_empty s = true <-> s = "".
Proof. by destruct s. Qed.

Lemma is_empty_false s : Str.is_empty s = false <-> s <> "".
Proof. by destruct s. Qed.

Lemma all_app p a b : Str.all p (a +:+ b) = Str.all p a && Str.all p b.
Proof.
  induction a as [|x a IH]; [done|].
  rewrite sapp_cons. simpl. by rewrite IH, andb_assoc.
Qed.

Lemma all_impl (p q : ascii -> bool) s :
  (forall c, p c = true -> q c = true) -> Str.all p s = true -> Str.all q s = true.
Proof.
  intros Hpq. induction s as [|x s IH]; [done|]. simpl.
  intros [Hx Hs]%andb_prop. by rewrite (Hpq _ Hx), IH.
Qed.

Lemma contains_app c a b :
  Str.contains c (a +:+ b) = Str.contains c a || Str.contains c b.
Proof.
  induction a as [|x a IH]; [done|].
  rewrite sapp_cons. simpl. by rewrite IH, orb_assoc.
Qed.

(** A string all of whose bytes satisfy [p] holds no byte that fails it. *)
Lemma all_not_contains p c s :
  p c = false -> Str.all p s = true -> Str.contains c s = false.
Proof.
  intros Hc. induction s as [|x s IH]; [done|]. simpl.
  intros [Hx Hs]%andb_prop. rewrite IH by done.
  destruct (Ascii.eqb_spec x c) as [->|]; [congruence|done].
Qed.

Lemma count_not_contains c s : Str.contains c s = false -> Str.count c s = 0%nat.
Proof.
  induction s as [|x s IH]; [done|]. simpl.
  intros [-> Hs]%orb_false_elim. by rewrite IH.
Qed.

Lemma count_app c a b : Str.count c (a +:+ b) = (Str.count c a + Str.count c b)%nat.
Proof.
  induction a as [|x a IH]; [done|]. rewrite sapp_cons. simpl. rewrite IH. lia.
Qed.

Lemma cut_app c a b :
  Str.contains c a = false -> Str.cut c (a +:+ String c b) = (a, b).
Proof.
  induction a as [|x a IH]; simpl.
  - intros _. by rewrite Ascii.eqb_refl.
  - intros [Hx Ha]%orb_false_elim. by rewrite Hx, IH.
Qed.

Lemma cut_none c a : Str.contains c a = false -> Str.cut c a = (a, "").
Proof.
  induction a as [|x a IH]; [done|]. simpl.
  intros [Hx Ha]%orb_false_elim. by rewrite Hx, IH.
Qed.

Lemma split_nonempty c s : Str.split c s <> [].
Proof.
  induction s as [|x s IH]; [done|]. simpl.
  destruct (Ascii.eqb x c); [done|]. by destruct (Str.split c s).
Qed.

Lemma split_none c a : Str.contains c a = false -> Str.split c a = [a].
Proof.
  induction a as [|x a IH]; [done|]. simpl.
  intros [Hx Ha]%orb_false_elim. by rewrite Hx, IH.
Qed.

Lemma split_app c a b :
  Str.contains c a = false -> Str.split c (a +:+ String c b) = a :: Str.split c b.
Proof.
  induction a as [|x a IH]; simpl.
  - intros _. by rewrite Ascii.eqb_refl.
  - intros [Hx Ha]%orb_false_elim. by rewrite Hx, IH.
Qed.

Lemma join_cons sep p ps :
  ps <> [] -> Str.join sep (p :: ps) = p +:+ sep +:+ Str.join sep ps.
Proof. by destruct ps. Qed.

(** Splitting a joined list gives the list back when no piece holds
    the separator. *)
Lemma split_join c ps :
  ps <> [] -> Forall (fun p => Str.contains c p = false) ps ->
  Str.split c (Str.join (String c "") ps) = ps.
Proof.
  induction ps as [|p ps IH]; [done|]. intros _ Hps.
  apply Forall_cons in Hps as [Hp Hps].
  destruct ps as [|p' ps]; [by apply split_none|].
  rewrite join_cons by done.
  change (String c "" +:+ ?s) with (String c s).
  rewrite split_app by done. by rewrite IH.
Qed.

Lemma has_prefix_cons c s : Str.has_prefix (String c "") (String c s) = true.
Proof.
  unfold Str.has_prefix. simpl. destruct (ascii_dec c c); [|done]. by destruct s.
Qed.

Lemma ends_with_app c a : Str.ends_with c (a +:+ String c "") = true.
Proof.
  induction a as [|x a IH].
  - unfold String.app. simpl. apply Ascii.eqb_refl.
  - rewrite sapp_cons. simpl. rewrite IH.
    destruct a; by unfold String.app.
Qed.

Lemma drop_last_app c a : Str.drop_last (a +:+ String c "") = a.
Proof.
  induction a as [|x a IH]; [done|].
  rewrite sapp_cons. simpl. rewrite IH. by destruct a.
Qed.

Lemma ends_with_cons_ne c x a :
  a <> "" -> Str.ends_with c (String x a) = Str.ends_with c a.
Proof. by destruct a. Qed.

(** A string ending in a byte other than [c] does not end with [c]. *)
Lemma ends_with_app_other c a x b :
  Str.ends_with c (a +:+ String x b) = Str.ends_with c (String x b).
Proof.
  induction a as [|y a IH]; [done|].
  rewrite sapp_cons, ends_with_cons_ne; [done|]. by destruct a.
Qed.

(** ** Escaping *)

Ltac each_byte c := destruct c as [[] [] [] [] [] [] [] []].

Lemma escape_id mode s :
  Str.all (fun c => negb (URL.shouldEscape c mode)) s = true -> URL.escape s mode = s.
Proof.
  induction s as [|c s IH]; [done|]. simpl.
  intros [Hc Hs]%andb_prop. apply negb_true_iff in Hc. by rewrite Hc, IH.
Qed.

Lemma unescape_escape_query_cons c s :
  URL.unescape (URL.escape (String c s) URL.encodeQueryComponent) URL.encodeQueryComponent
  = String c <$> URL.unescape (URL.escape s URL.encodeQueryComponent) URL.encodeQueryComponent.
Proof. each_byte c; reflexivity. Qed.

Lemma unescape_escape_path_cons c s :
  URL.unescape (URL.escape (String c s) URL.encodePath) URL.encodePath
  = String c <$> URL.unescape (URL.escape s URL.encodePath) URL.encodePath.
Proof. each_byte c; reflexivity. Qed.

(** [QueryUnescape(QueryEscape(s))] is [s]. *)
Lemma QueryUnescape_QueryEscape s : URL.QueryUnescape (URL.QueryEscape s) = Some s.
Proof.
  unfold URL.QueryUnescape, URL.QueryEscape.
  induction s as [|c s IH]; [done|]. by rewrite unescape_escape_query_cons, IH.
Qed.

Lemma unescape_escape_path s :
  URL.unescape (URL.escape s URL.encodePath) URL.encodePath = Some s.
Proof.
  induction s as [|c s IH]; [done|]. by rewrite unescape_escape_path_cons, IH.
Qed.

Lemma unescape_path_cons c s :
  Ascii.eqb c "%" = false ->
  URL.unescape (String c s) URL.encodePath = String c <$> URL.unescape s URL.encodePath.
Proof. each_byte c; first [reflexivity | discriminate]. Qed.

(** Decoding a path with no escape in it changes nothing. *)
Lemma unescape_path_id s :
  Str.contains "%" s = false -> URL.unescape s URL.encodePath = Some s.
Proof.
  induction s as [|c s IH]; [done|]. simpl Str.contains.
  intros [Hc Hs]%orb_false_elim. by rewrite unescape_path_cons, IH.
Qed.

Lemma unescape_host_cons c s :
  URL.shouldEscape c URL.encodeHost = false ->
  URL.unescape (String c s) URL.encodeHost = String c <$> URL.unescape s URL.encodeHost.
Proof. each_byte c; first [reflexivity | discriminate]. Qed.

Lemma unescape_host_id s :
  Str.all (fun c => negb (URL.shouldEscape c URL.encodeHost)) s = true ->
  URL.unescape s URL.encodeHost = Some s.
Proof.
  induction s as [|c s IH]; [done|]. simpl Str.all.
  intros [Hc Hs]%andb_prop. apply negb_true_iff in Hc.
  by rewrite unescape_host_cons, IH.
Qed.

Lemma escape_bytes_cons mode c s :
  Str.all (escaped_byte mode) (URL.escape (String c s) mode)
  = Str.all (escaped_byte mode) (URL.escape s mode).
Proof. destruct mode; each_byte c; reflexivity. Qed.

Lemma escape_bytes mode s : Str.all (escaped_byte mode) (URL.escape s mode) = true.
Proof. induction s as [|c s IH]; [done|]. by rewrite escape_bytes_cons. Qed.

Lemma escape_not_contains mode c s :
  escaped_byte mode c = false -> Str.contains c (URL.escape s mode) = false.
Proof. intros Hc. eapply all_not_contains; [done|apply escape_bytes]. Qed.

Lemma escape_is_empty mode s : Str.is_empty (URL.escape s mode) = Str.is_empty s.
Proof.
  destruct s as [|c s]; [done|]. simpl.
  destruct (URL.shouldEscape c mode); [|done]. by destruct (_ && _).
Qed.

Lemma has_prefix_char c s :
  Str.has_prefix (String c "") s = true <-> exists s', s = String c s'.
Proof.
  unfold Str.has_prefix. destruct s as [|d s]; simpl.
  - split; [done|]. by intros [? ?].
  - destruct (ascii_dec c d) as [<-|Hne].
    + split; [by eexists|]. intros _. by destruct s.
    + split; [done|]. intros [? [= -> ->]]. done.
Qed.

Lemma escape_path_prefix s :
  Str.has_prefix "/" s = true -> Str.has_prefix "/" (URL.escape s URL.encodePath) = true.
Proof.
  intros [s' ->]%has_prefix_char. apply has_prefix_char. by eexists.
Qed.

(** fasthttp decodes what [QueryEscape] writes. *)
Lemma decodeArg_escape_cons c s :
  Fiber.decodeArg (URL.QueryEscape (String c s))
  = String c (Fiber.decodeArg (URL.QueryEscape s)).
Proof. unfold URL.QueryEscape. each_byte c; reflexivity. Qed.

Lemma decodeArg_QueryEscape s : Fiber.decodeArg (URL.QueryEscape s) = s.
Proof.
  induction s as [|c s IH]; [done|]. by rewrite decodeArg_escape_cons, IH.
Qed.

(** ** Query strings: [ParseQuery] after [Encode] *)

Lemma encodePair_no_amp kv : Str.contains "&" (URL.encodePair kv) = false.
Proof.
  unfold URL.encodePair, URL.QueryEscape.
  rewrite !contains_app, !escape_not_contains by done. done.
Qed.

Lemma encodePair_cut kv :
  Str.cut "=" (URL.encodePair kv) = (URL.QueryEscape kv.1, URL.QueryEscape kv.2).
Proof.
  unfold URL.encodePair, URL.QueryEscape.
  change ("=" +:+ ?s) with (String "=" s).
  apply cut_app, escape_not_contains. done.
Qed.

Lemma parsePair_encodePair kv : URL.parsePair (URL.encodePair kv) = Some kv.
Proof.
  unfold URL.parsePair. rewrite encodePair_cut.
  rewrite !QueryUnescape_QueryEscape.
  unfold URL.encodePair, URL.QueryEscape.
  rewrite !contains_app, !escape_not_contains by done. simpl.
  destruct kv as [k v]. simpl.
  destruct (URL.escape k _); done.
Qed.

Lemma omap_parsePair_encode (ps : list (string * string)) :
  omap URL.parsePair (URL.encodePair <$> ps) = ps.
Proof.
  induction ps as [|kv ps IH]; [done|].
  rewrite fmap_cons. cbn [omap list_omap]. rewrite parsePair_encodePair. by rewrite IH.
Qed.

Lemma split_Encode (ps : list (string * string)) :
  omap URL.parsePair (Str.split "&" (Str.join "&" (URL.encodePair <$> ps))) = ps.
Proof.
  destruct ps as [|kv ps]; [done|].
  rewrite split_join.
  - apply omap_parsePair_encode.
  - done.
  - apply Forall_fmap, Forall_forall. intros ? _. apply encodePair_no_amp.
Qed.

Lemma ParseQuery_Encode_pairs v :
  URL.ParseQuery (URL.Encode v) = fold_left URL.addPair (URL.pairs v) ∅.
Proof. unfold URL.ParseQuery, URL.Encode. by rewrite split_Encode. Qed.

(** What a run of [m[key] = append(m[key], value)] leaves under [k]. *)
Lemma values_of_cons k k' x ps :
  values_of k ((k', x) :: ps)
  = if decide (k' = k) then x :: values_of k ps else values_of k ps.
Proof. unfold values_of. rewrite filter_cons. cbn [fst]. by case_decide. Qed.

Lemma fold_addPair_lookup (ps : list (string * string)) (m : gmap string (list string)) k :
  fold_left URL.addPair ps m !! k
  = if decide (values_of k ps = []) then m !! k
    else Some (default [] (m !! k) ++ values_of k ps).
Proof.
  revert m. induction ps as [|[k' x] ps IH]; intros m.
  { by rewrite decide_True. }
  cbn [fold_left]. rewrite IH, values_of_cons.
  unfold URL.addPair, URL.Add. cbn [fst snd].
  destruct (decide (k' = k)) as [->|Hne].
  - rewrite lookup_insert_eq. cbn [default from_option id].
    rewrite (decide_False (P := x :: _ = [])) by done.
    destruct (decide (values_of k ps = [])) as [->|]; [done|].
    by rewrite <- app_assoc.
  - by rewrite lookup_insert_ne.
Qed.

Lemma ParseQuery_lookup s k :
  URL.ParseQuery s !! k
  = if decide (values_of k (omap URL.parsePair (Str.split "&" s)) = []) then None
    else Some (values_of k (omap URL.parsePair (Str.split "&" s))).
Proof. unfold URL.ParseQuery. rewrite fold_addPair_lookup. by rewrite lookup_empty. Qed.

Lemma ParseQuery_proper s : proper (URL.ParseQuery s).
Proof.
  intros k vs. rewrite ParseQuery_lookup. case_decide; [done|]. by intros [= <-].
Qed.

Lemma Add_proper v k x : proper v -> proper (URL.Add v k x).
Proof.
  intros Hv k' vs. unfold URL.Add.
  destruct (decide (k = k')) as [->|].
  - rewrite lookup_insert_eq. intros [= <-]. by destruct (default [] _).
  - rewrite lookup_insert_ne by done. apply Hv.
Qed.

Lemma NoDup_keys (v : gmap string (list string)) : NoDup (URL.keys v).
Proof. apply NoDup_fst_map_to_list. Qed.

Lemma elem_of_keys (v : gmap string (list string)) k :
  k ∈ URL.keys v <-> is_Some (v !! k).
Proof.
  unfold URL.keys. rewrite list_elem_of_fmap. split.
  - intros [[k' vs] [-> Hin]]. apply elem_of_map_to_list in Hin. by eexists.
  - intros [vs Hvs]. exists (k, vs). split; [done|]. by apply elem_of_map_to_list.
Qed.

Lemma sort_Permutation l : Str.sort l ≡ₚ l.
Proof. apply merge_sort_Permutation. Qed.

Lemma sort_Sorted l : Sorted String.le (Str.sort l).
Proof. apply (Sorted_merge_sort String.le). Qed.

(** [sort.Strings] gives the same list on inputs equal up to order. *)
Lemma sort_unique l1 l2 : l1 ≡ₚ l2 -> Str.sort l1 = Str.sort l2.
Proof.
  intros Hp. apply (Sorted_unique String.le); [apply sort_Sorted..|].
  by rewrite !sort_Permutation.
Qed.

Lemma values_of_app k (l1 l2 : list (string * string)) :
  values_of k (l1 ++ l2) = values_of k l1 ++ values_of k l2.
Proof. unfold values_of. by rewrite filter_app, fmap_app. Qed.

Lemma values_of_tagged k k' (l : list string) :
  values_of k ((fun x => (k', x)) <$> l) = if decide (k' = k) then l else [].
Proof.
  induction l as [|x l IH]; [by case_decide|].
  rewrite fmap_cons, values_of_cons, IH. by case_decide.
Qed.

Lemma values_of_bind k ks (f : string -> list string) :
  NoDup ks ->
  values_of k (k' ← ks; (fun x => (k', x)) <$> f k')
  = if decide (k ∈ ks) then f k else [].
Proof.
  induction 1 as [|k' ks Hk' Hks IH]; [done|].
  rewrite bind_cons, values_of_app, values_of_tagged, IH.
  destruct (decide (k' = k)) as [->|Hne].
  - rewrite (decide_True (P := k ∈ k :: ks)) by left.
    rewrite (decide_False (P := k ∈ ks)) by done. apply app_nil_r.
  - simpl. case_decide as Hin.
    + rewrite decide_True; [done|by right].
    + rewrite decide_False; [done|]. by intros [->|?]%elem_of_cons.
Qed.

Lemma values_of_pairs v k : values_of k (URL.pairs v) = default [] (v !! k).
Proof.
  unfold URL.pairs. rewrite values_of_bind.
  - case_decide as Hin; [done|].
    rewrite sort_Permutation, elem_of_keys in Hin.
    destruct (v !! k); [|done]. by destruct Hin.
  - rewrite sort_Permutation. apply NoDup_keys.
Qed.

(** [url.ParseQuery(v.Encode())] is [v]. *)
Lemma ParseQuery_Encode v : proper v -> URL.ParseQuery (URL.Encode v) = v.
Proof.
  intros Hv. apply map_eq. intros k.
  rewrite ParseQuery_Encode_pairs, fold_addPair_lookup, lookup_empty, values_of_pairs.
  destruct (v !! k) as [vs|] eqn:Hk; simpl; [|done].
  rewrite decide_False; [done|]. by eapply Hv.
Qed.

Lemma sort_singleton x : Str.sort [x] = [x].
Proof. done. Qed.

(** ** Reading an encoded query with fasthttp *)

Lemma Get_values v key :
  URL.Get v key = match default [] (v !! key) with x :: _ => x | [] => "" end.
Proof. unfold URL.Get. by destruct (v !! key) as [[|??]|]. Qed.

Lemma scanArg_encodePair kv : Fiber.scanArg (URL.encodePair kv) = kv.
Proof.
  unfold Fiber.scanArg. rewrite encodePair_cut, !decodeArg_QueryEscape. by destruct kv.
Qed.

Lemma peek_encoded key (ps : list (string * string)) :
  key <> "" ->
  Fiber.peek key (URL.encodePair <$> ps)
  = match values_of key ps with x :: _ => x | [] => "" end.
Proof.
  intros Hkey. induction ps as [|[k x] ps IH]; [done|].
  rewrite fmap_cons, values_of_cons. cbn [Fiber.peek].
  rewrite scanArg_encodePair.
  destruct (decide (k = key)) as [->|Hne].
  - rewrite String.eqb_refl. by destruct key.
  - apply String.eqb_neq in Hne. rewrite Hne, andb_false_r. apply IH.
Qed.

Lemma peek_Encode key v :
  key <> "" -> Fiber.peek key (Str.split "&" (URL.Encode v)) = URL.Get v key.
Proof.
  intros Hkey. rewrite Get_values, <- values_of_pairs. unfold URL.Encode.
  destruct (URL.pairs v) as [|kv ps] eqn:Hps; [done|].
  rewrite split_join.
  - by apply peek_encoded.
  - done.
  - apply Forall_fmap, Forall_forall. intros ? _. apply encodePair_no_amp.
Qed.

Lemma contains_cons c d s :
  Str.contains c (String d s) = Ascii.eqb d c || Str.contains c s.
Proof. reflexivity. Qed.

Lemma Encode_not_contains c v :
  escaped_byte URL.encodeQueryComponent c = false -> c <> "="%char -> c <> "&"%char ->
  Str.contains c (URL.Encode v) = false.
Proof.
  intros Hc Heq Hamp. unfold URL.Encode.
  assert (forall d, c <> d -> Ascii.eqb d c = false) as Hne.
  { intros d Hd. apply Ascii.eqb_neq. congruence. }
  induction (URL.pairs v) as [|kv ps IH]; [done|].
  assert (Str.contains c (URL.encodePair kv) = false) as Hkv.
  { unfold URL.encodePair, URL.QueryEscape.
    change ("=" +:+ ?s) with (String "=" s).
    rewrite contains_app, contains_cons, !escape_not_contains, Hne by done. done. }
  destruct ps as [|kv' ps]; [done|].
  rewrite fmap_cons, join_cons by done.
  change ("&" +:+ ?s) with (String "&" s).
  by rewrite contains_app, contains_cons, Hkv, IH, Hne.
Qed.

(** [c.Query(key)] on a request target [path?query] whose query was
    written by [Values.Encode]. *)
Lemma Query_Encode method base path v body key :
  key <> "" ->
  Str.contains "?" path = false -> Str.contains "#" path = false ->
  Fiber.Query (Fiber.mkCtx method base (path +:+ "?" +:+ URL.Encode v) body) key
  = URL.Get v key.
Proof.
  intros Hkey Hq Hh. unfold Fiber.Query, Fiber.queryString. cbn [Fiber.OriginalURL].
  rewrite cut_none.
  - change ("?" +:+ ?s) with (String "?" s). rewrite cut_app by done.
    by apply peek_Encode.
  - change ("?" +:+ ?s) with (String "?" s).
    rewrite contains_app, contains_cons, Hh, Encode_not_contains by done. done.
Qed.

(** ** The canonical ordering *)

Lemma bind_ext_Forall {A B} (f g : A -> list B) l :
  Forall (fun x => f x = g x) l -> l ≫= f = l ≫= g.
Proof.
  induction 1 as [|x l Hx Hl IH]; [done|]. by rewrite !bind_cons, Hx, IH.
Qed.

Lemma same_params_keys skip q1 q2 :
  same_params skip q1 q2 ->
  filter (fun k => k <> skip) (URL.keys q1) ≡ₚ filter (fun k => k <> skip) (URL.keys q2).
Proof.
  intros Hq. apply NoDup_Permutation.
  - apply NoDup_filter, NoDup_keys.
  - apply NoDup_filter, NoDup_keys.
  - intros k. rewrite !list_elem_of_filter, !elem_of_keys.
    split; intros [Hk Hs]; (split; [done|]); specialize (Hq k Hk);
      destruct Hs as [vs Hvs]; rewrite Hvs in Hq; inversion Hq; by eexists.
Qed.

(** [orderQueryParams] depends on the parameters only up to the
    order of the values of each key, and not on the signature key. *)
Lemma orderQueryParams_same cfg q1 q2 :
  same_params (SignatureQueryKey cfg) q1 q2 ->
  orderQueryParams cfg q1 = orderQueryParams cfg q2.
Proof.
  intros Hq. unfold orderQueryParams.
  rewrite (sort_unique _ _ (same_params_keys _ _ _ Hq)).
  f_equal. apply bind_ext_Forall, Forall_forall. intros k Hk.
  rewrite sort_Permutation in Hk. apply list_elem_of_filter in Hk as [Hk _].
  f_equal. apply sort_unique. specialize (Hq k Hk).
  destruct Hq; [done|by simpl].
Qed.


Lemma same_params_Set skip q1 q2 key value :
  same_params skip q1 q2 ->
  same_params skip (URL.Set_ q1 key value) (URL.Set_ q2 key value).
Proof.
  intros Hq k Hk. unfold URL.Set_.
  destruct (decide (key = k)) as [->|Hne].
  - rewrite !lookup_insert_eq. by constructor.
  - rewrite !lookup_insert_ne by done. by apply Hq.
Qed.

(** ** Parsing and printing plain web URLs *)

Lemma cut_last_none c s : Str.contains c s = false -> Str.cut_last c s = None.
Proof.
  induction s as [|x s IH]; [done|]. simpl.
  intros [Hx Hs]%orb_false_elim. by rewrite IH, Hx.
Qed.

Lemma cut_last_app c a b :
  Str.contains c b = false -> Str.cut_last c (a +:+ String c b) = Some (a, String c b).
Proof.
  intros Hb. induction a as [|x a IH]; simpl.
  - by rewrite cut_last_none, Ascii.eqb_refl.
  - by rewrite IH.
Qed.

(** The two shapes of a string with respect to its first [c]. *)
Lemma cut_shape c s :
  Str.contains c (Str.cut c s).1 = false
  /\ (s = (Str.cut c s).1 /\ (Str.cut c s).2 = "" /\ Str.contains c s = false
      \/ s = (Str.cut c s).1 +:+ String c (Str.cut c s).2).
Proof.
  induction s as [|x s [IH1 IH2]].
  { split; [done|]. by left. }
  simpl. destruct (Ascii.eqb x c) eqn:Hx.
  - apply Ascii.eqb_eq in Hx as ->. split; [done|]. right. reflexivity.
  - destruct (Str.cut c s) as [a b]. simpl in *. rewrite Hx. split; [done|].
    destruct IH2 as [(<- & -> & ->)|Hs]; [by left|]. right.
    change (String x s = String x (a +:+ String c b)). by rewrite <- Hs.
Qed.

Lemma all_has_prefix p c s :
  p c = false -> Str.all p s = true -> Str.has_prefix (String c "") s = false.
Proof.
  intros Hc Hs. apply not_true_is_false. intros [s' ->]%has_prefix_char.
  simpl in Hs. by rewrite Hc in Hs.
Qed.

Lemma host_name_byte_safe c : host_name_byte c = true -> host_safe c = true.
Proof. each_byte c; first [reflexivity | discriminate]. Qed.

Lemma is_digit_safe c : URL.is_digit c = true -> host_safe c = true.
Proof. each_byte c; first [reflexivity | discriminate]. Qed.

Lemma host_safe_escape c : host_safe c = true -> URL.shouldEscape c URL.encodeHost = false.
Proof.
  unfold host_safe. intros [[Hc _]%andb_prop _]%andb_prop. by apply negb_true_iff.
Qed.

(** The bytes of a plain host are those [net/url] leaves alone in a
    host; none of them ends the authority. *)
Lemma plain_host_bytes h : plain_host h = true -> Str.all host_safe h = true.
Proof.
  unfold plain_host. intros [[_ Hname]%andb_prop Hport]%andb_prop.
  destruct (cut_shape ":" h) as [_ [(Hh & _ & _)|Hh]]; rewrite Hh.
  - eapply all_impl; [apply host_name_byte_safe|done].
  - rewrite all_app. apply andb_true_intro. split.
    + eapply all_impl; [apply host_name_byte_safe|done].
    + simpl. eapply all_impl; [apply is_digit_safe|done].
Qed.

Lemma plain_host_not_contains h c :
  plain_host h = true -> host_safe c = false -> Str.contains c h = false.
Proof. intros Hh Hc. eapply all_not_contains; [exact Hc|]. by apply plain_host_bytes. Qed.

Lemma plain_host_unescape h :
  plain_host h = true -> URL.unescape h URL.encodeHost = Some h.
Proof.
  intros Hh. apply unescape_host_id. eapply all_impl; [|by apply plain_host_bytes].
  intros c Hc. by rewrite host_safe_escape.
Qed.

Lemma plain_host_escape h :
  plain_host h = true -> URL.escape h URL.encodeHost = h.
Proof.
  intros Hh. apply escape_id. eapply all_impl; [|by apply plain_host_bytes].
  intros c Hc. by rewrite host_safe_escape.
Qed.

Lemma plain_host_nonempty h : plain_host h = true -> Str.is_empty h = false.
Proof.
  unfold plain_host. intros [[Hh _]%andb_prop _]%andb_prop. by apply negb_true_iff.
Qed.

(** [parseHost] accepts a plain host as it is. *)
Lemma parseHost_plain h : plain_host h = true -> URL.parseHost h = Some h.
Proof.
  intros Hh. unfold URL.parseHost.
  rewrite (all_has_prefix host_safe "[" h eq_refl (plain_host_bytes h Hh)).
  pose proof Hh as Hh'. unfold plain_host in Hh'.
  apply andb_prop in Hh' as [[_ Hname]%andb_prop Hport].
  destruct (cut_shape ":" h) as [Hn [(_ & _ & Hc)|Heq]].
  - rewrite cut_last_none by done. by apply plain_host_unescape.
  - rewrite Heq at 1. rewrite cut_last_app.
    + simpl. rewrite Hport. simpl. by apply plain_host_unescape.
    + eapply all_not_contains; [|exact Hport]. done.
Qed.

Lemma parseAuthority_plain h :
  plain_host h = true -> URL.parseAuthority h = Some (None, h).
Proof.
  intros Hh. unfold URL.parseAuthority.
  rewrite cut_last_none by (by apply plain_host_not_contains).
  by rewrite parseHost_plain.
Qed.

Lemma ends_with_not_contains c s : Str.contains c s = false -> Str.ends_with c s = false.
Proof.
  induction s as [|x s IH]; [done|]. rewrite contains_cons.
  intros [Hx Hs]%orb_false_elim. destruct s as [|y s]; [done|].
  rewrite ends_with_cons_ne by done. by apply IH.
Qed.

Lemma plain_query_bytes q c :
  plain_query q = true -> ctl c || Ascii.eqb c "?" = true -> Str.contains c q = false.
Proof.
  intros Hq Hc. eapply all_not_contains; [|exact Hq]. simpl.
  destruct (ctl c); [done|]. simpl in Hc. by rewrite Hc.
Qed.

Lemma plain_query_no_ctl q :
  plain_query q = true -> Str.all (fun c => negb (ctl c)) q = true.
Proof. apply all_impl. by intros c [-> _]%andb_prop. Qed.

Lemma web_scheme_cases s : web_scheme s = true -> s = "http" \/ s = "https".
Proof.
  unfold web_scheme. intros [H|H]%orb_prop; apply String.eqb_eq in H; auto.
Qed.

(** [cutQuery] on [front?query] without further question mark. *)
Lemma cutQuery_app front rq :
  Str.contains "?" front = false -> Str.contains "?" rq = false ->
  URL.cutQuery (front +:+ "?" +:+ rq) = (front, Str.is_empty rq, rq).
Proof.
  intros Hf Hq. unfold URL.cutQuery. change ("?" +:+ rq) with (String "?" rq).
  destruct rq as [|x rq].
  - rewrite ends_with_app, count_app, count_not_contains by done.
    simpl. by rewrite drop_last_app.
  - rewrite ends_with_app_other, ends_with_cons_ne, ends_with_not_contains by done.
    simpl. by rewrite cut_app.
Qed.

(** [cutAuthority] on [//host path] for an empty or absolute path. *)
Lemma cutAuthority_app host p :
  Str.contains "/" host = false ->
  Str.is_empty p || Str.has_prefix "/" p = true ->
  URL.cutAuthority ("//" +:+ host +:+ p) = (host, p).
Proof.
  intros Hh Hp. unfold URL.cutAuthority. simpl Str.skip.
  change ("" +:+ ?s) with s.
  destruct p as [|c p].
  - rewrite sapp_nil_r, cut_none, Hh by done. done.
  - cbn [Str.is_empty orb] in Hp. apply has_prefix_char in Hp as [p' [= -> ->]].
    rewrite cut_app, contains_app, contains_cons by done.
    by rewrite Ascii.eqb_refl, orb_true_r.
Qed.

Lemma stringContainsCTLByte_all s :
  URL.stringContainsCTLByte s = negb (Str.all (fun c => negb (ctl c)) s).
Proof. reflexivity. Qed.

(** [parse] on [scheme://host path?query] for a web scheme, a plain
    host, an empty or absolute path text [p] and a query [rq]. *)
Lemma parse_web via scheme host p rq path :
  web_scheme scheme = true -> plain_host host = true ->
  Str.is_empty p || Str.has_prefix "/" p = true ->
  plain_query p = true -> plain_query rq = true ->
  URL.unescape p URL.encodePath = Some path ->
  URL.parse (scheme +:+ "://" +:+ host +:+ p +:+ "?" +:+ rq) via
  = Some (URL.mkURL scheme "" None host path
            (if String.eqb p (URL.escape path URL.encodePath) then "" else p)
            (Str.is_empty rq) rq "" "").
Proof.
  intros Hs Hh Hp Hpq Hrq Hpath.
  assert (Str.all (fun c => negb (ctl c)) (host +:+ p +:+ "?" +:+ rq) = true) as Hctl.
  { rewrite !all_app. apply andb_true_intro; split.
    { eapply all_impl; [|by apply plain_host_bytes].
      intros c. unfold host_safe. by intros [[_ ->]%andb_prop _]%andb_prop. }
    apply andb_true_intro; split; [by apply plain_query_no_ctl|].
    apply andb_true_intro; split; [done|by apply plain_query_no_ctl]. }
  assert (URL.cutQuery ("//" +:+ host +:+ p +:+ "?" +:+ rq)
          = ("//" +:+ host +:+ p, Str.is_empty rq, rq)) as Hcut.
  { rewrite <- (cutQuery_app ("//" +:+ host +:+ p) rq).
    - by rewrite !sapp_assoc.
    - rewrite !contains_app, (plain_host_not_contains host "?"),
        (plain_query_bytes p "?") by done. done.
    - by apply plain_query_bytes. }
  assert (URL.cutAuthority ("//" +:+ host +:+ p) = (host, p)) as Haut.
  { apply cutAuthority_app; [|done]. by apply plain_host_not_contains. }
  assert (forall s, Str.has_prefix "/" ("//" +:+ s) = true) as Hp1.
  { intros s. apply has_prefix_char. by eexists. }
  assert (forall s, Str.has_prefix "//" ("//" +:+ s) = true) as Hp2.
  { intros s. unfold Str.has_prefix. simpl. by destruct s. }
  unfold URL.parse. rewrite stringContainsCTLByte_all.
  destruct (web_scheme_cases _ Hs) as [-> | ->].
  - change (Str.all _ ("http" +:+ "://" +:+ ?s)) with (Str.all (fun c => negb (ctl c)) s).
    rewrite Hctl.
    change (URL.getScheme ("http" +:+ "://" +:+ ?s)) with (Some ("http", "//" +:+ s)).
    change (Str.is_empty ("http" +:+ ?s)) with false.
    change (String.eqb ("http" +:+ ?s) "*") with false.
    cbn [negb andb mbind option_bind]. rewrite Hcut.
    change (Str.to_lower "http") with "http".
    rewrite Hp1, Hp2. cbn [negb andb orb Str.is_empty]. rewrite Haut.
    rewrite parseAuthority_plain by done. cbn [mbind option_bind].
    by rewrite Hpath.
  - change (Str.all _ ("https" +:+ "://" +:+ ?s)) with (Str.all (fun c => negb (ctl c)) s).
    rewrite Hctl.
    change (URL.getScheme ("https" +:+ "://" +:+ ?s)) with (Some ("https", "//" +:+ s)).
    change (Str.is_empty ("https" +:+ ?s)) with false.
    change (String.eqb ("https" +:+ ?s) "*") with false.
    cbn [negb andb mbind option_bind]. rewrite Hcut.
    change (Str.to_lower "https") with "https".
    rewrite Hp1, Hp2. cbn [negb andb orb Str.is_empty]. rewrite Haut.
    rewrite parseAuthority_plain by done. cbn [mbind option_bind].
    by rewrite Hpath.
Qed.

(** ** From the signer's URL to the verifier's context *)

Lemma existingQuery_app path rq :
  Str.contains "?" path = false -> Str.contains "?" rq = false ->
  existingQuery (path +:+ "?" +:+ rq) = URL.ParseQuery rq.
Proof.
  intros Hp Hq. unfold existingQuery. change ("?" +:+ rq) with (String "?" rq).
  rewrite contains_app, contains_cons, Ascii.eqb_refl, orb_true_r.
  by rewrite split_app, split_none.
Qed.

Lemma escaped_path_byte c :
  escaped_byte URL.encodePath c = true -> negb (ctl c) && negb (Ascii.eqb c "?") = true.
Proof. each_byte c; first [reflexivity | discriminate]. Qed.

Lemma escaped_query_byte c :
  escaped_byte URL.encodeQueryComponent c || Str.mem c "=&" = true ->
  negb (ctl c) && negb (Str.mem c "?#") = true.
Proof. each_byte c; first [reflexivity | discriminate]. Qed.

Lemma escape_path_plain p : plain_query (URL.escape p URL.encodePath) = true.
Proof. eapply all_impl; [apply escaped_path_byte|apply escape_bytes]. Qed.

(** The bytes of an encoded query. *)
Lemma Encode_bytes v :
  Str.all (fun c => escaped_byte URL.encodeQueryComponent c || Str.mem c "=&")
          (URL.Encode v) = true.
Proof.
  unfold URL.Encode.
  assert (forall kv, Str.all (fun c => escaped_byte URL.encodeQueryComponent c
                                       || Str.mem c "=&") (URL.encodePair kv) = true) as Hkv.
  { intros kv. unfold URL.encodePair, URL.QueryEscape. rewrite !all_app.
    apply andb_true_intro; split; [|apply andb_true_intro; split; [done|]];
      (eapply all_impl; [|apply escape_bytes]); by intros c ->. }
  induction (URL.pairs v) as [|kv ps IH]; [done|].
  destruct ps as [|kv' ps]; [apply Hkv|].
  rewrite fmap_cons, join_cons by done. rewrite !all_app, Hkv, IH. done.
Qed.

Lemma Encode_plain v : plain_query (URL.Encode v) = true.
Proof.
  eapply all_impl; [|apply Encode_bytes].
  intros c Hc. apply escaped_query_byte in Hc.
  apply andb_prop in Hc as [-> Hc]. simpl.
  apply negb_true_iff in Hc. apply negb_true_iff.
  simpl in Hc. by apply orb_false_elim in Hc as [-> _].
Qed.

Lemma Encode_no_hash v : Str.contains "#" (URL.Encode v) = false.
Proof. eapply all_not_contains; [|apply Encode_bytes]. done. Qed.

Lemma Encode_Add_nonempty v k x : Str.is_empty (URL.Encode (URL.Add v k x)) = false.
Proof.
  unfold URL.Encode.
  assert (URL.pairs (URL.Add v k x) <> []) as Hne.
  { intros Hnil. pose proof (values_of_pairs (URL.Add v k x) k) as Hv.
    rewrite Hnil in Hv. unfold URL.Add in Hv. rewrite lookup_insert_eq in Hv.
    simpl in Hv. by destruct (default [] (v !! k)). }
  destruct (URL.pairs _) as [|kv ps]; [done|].
  assert (Str.is_empty (URL.encodePair kv) = false) as Hkv.
  { unfold URL.encodePair. by destruct (URL.QueryEscape kv.1). }
  destruct ps as [|kv' ps]; [done|].
  rewrite fmap_cons, join_cons by done.
  by destruct (URL.encodePair kv).
Qed.

Lemma plain_path_spec p :
  plain_path p = true ->
  Str.is_empty p || Str.has_prefix "/" p = true
  /\ plain_query p = true /\ Str.contains "%" p = false /\ Str.contains "?" p = false.
Proof.
  unfold plain_path. intros [Hp Hall]%andb_prop. split; [done|]. split; [|split].
  - eapply all_impl; [|exact Hall]. intros c [-> Hc]%andb_prop. simpl.
    apply negb_true_iff in Hc. apply negb_true_iff.
    simpl in Hc. apply orb_false_elim in Hc as [_ Hc]. by rewrite orb_false_r in Hc.
  - eapply all_not_contains; [|exact Hall]. done.
  - eapply all_not_contains; [|exact Hall]. done.
Qed.

Lemma not_star p : Str.is_empty p || Str.has_prefix "/" p = true -> String.eqb p "*" = false.
Proof.
  destruct p as [|c p]; [done|]. cbn [Str.is_empty orb].
  intros [p' [= -> ->]]%has_prefix_char. done.
Qed.

(** [URL.String] of a plain URL whose raw query was replaced by a
    non-empty one. *)
Lemma String_plain u rq :
  plain_url u = true -> Str.is_empty rq = false ->
  URL.String_ (URL.with_RawQuery u rq)
  = URL.Scheme u +:+ "://" +:+ URL.Host u
    +:+ URL.escape (URL.Path u) URL.encodePath +:+ "?" +:+ rq.
Proof.
  destruct u as [scheme opaque user host path rawpath force rawquery frag rawfrag].
  unfold plain_url. cbn [URL.Scheme URL.Host URL.Opaque URL.User URL.RawPath
                         URL.Fragment URL.Path].
  intros [[[[[[Hs Hh]%andb_prop Ho%is_empty_true]%andb_prop
              Hu%bool_decide_eq_true]%andb_prop Hr%is_empty_true]%andb_prop
            Hf%is_empty_true]%andb_prop Hp]%andb_prop Hrq.
  subst opaque user rawpath frag.
  apply plain_path_spec in Hp as (Hp & _ & _ & _).
  unfold URL.String_, URL.with_RawQuery, URL.EscapedPath.
  cbn [URL.Scheme URL.Host URL.Opaque URL.User URL.RawPath URL.Fragment URL.Path
       URL.RawQuery URL.ForceQuery Str.is_empty negb andb].
  rewrite (not_star _ Hp), Hrq, (plain_host_nonempty _ Hh), (plain_host_escape _ Hh).
  rewrite orb_true_r.
  assert (Str.is_empty scheme = false) as ->.
  { by destruct (web_scheme_cases _ Hs) as [-> | ->]. }
  cbn [negb orb andb].
  assert (negb (Str.is_empty (URL.escape path URL.encodePath))
          && negb (Str.has_prefix "/" (URL.escape path URL.encodePath)) = false) as ->.
  { rewrite escape_is_empty. destruct (Str.is_empty path) eqn:He; [done|].
    simpl in Hp. by rewrite escape_path_prefix. }
  rewrite orb_true_r. cbn [andb].
  assert (Str.is_empty ((scheme +:+ ":") +:+ ("//" +:+ "" +:+ host) +:+ "") = false) as ->.
  { by destruct (web_scheme_cases _ Hs) as [-> | ->]. }
  cbn [andb]. rewrite !sapp_assoc. change ("" +:+ ?s) with s.
  rewrite sapp_nil_r. reflexivity.
Qed.

(** ** Digests *)

Lemma hex_length bs : String.length (Crypto.hex bs) = (2 * length bs)%nat.
Proof. induction bs as [|b bs IH]; [done|]. simpl. rewrite IH. lia. Qed.

Lemma hex_digit_lower n : Str.mem (Crypto.hex_digit n) "0123456789abcdef" = true.
Proof.
  unfold Crypto.hex_digit.
  generalize (Z.to_nat n). intros k.
  do 16 (destruct k as [|k]; [reflexivity|]). by destruct k.
Qed.

Lemma hex_lower bs :
  Str.all (fun c => Str.mem c "0123456789abcdef") (Crypto.hex bs) = true.
Proof.
  induction bs as [|b bs IH]; [done|].
  cbn [Crypto.hex Str.all]. by rewrite !hex_digit_lower, IH.
Qed.

Lemma be_bytes_length n x : length (Crypto.be_bytes n x) = n.
Proof. unfold Crypto.be_bytes, Crypto.le_bytes. by rewrite length_rev, length_map, length_seq. Qed.

Lemma le_bytes_length n x : length (Crypto.le_bytes n x) = n.
Proof. unfold Crypto.le_bytes. by rewrite length_map, length_seq. Qed.

Lemma sha1_length msg : length (Crypto.sha1 msg) = 20%nat.
Proof.
  unfold Crypto.sha1. destruct (fold_left _ _ _) as [[[[h0 h1] h2] h3] h4].
  by rewrite !length_app, !be_bytes_length.
Qed.

Lemma sha256_length msg : length (Crypto.sha256 msg) = 32%nat.
Proof.
  unfold Crypto.sha256.
  destruct (fold_left _ _ _) as [[[[[[[h0 h1] h2] h3] h4] h5] h6] h7].
  by rewrite !length_app, !be_bytes_length.
Qed.

Lemma md5_length msg : length (Crypto.md5 msg) = 16%nat.
Proof.
  unfold Crypto.md5. destruct (fold_left _ _ _) as [[[a b] c] d].
  by rewrite !length_app, !le_bytes_length.
Qed.

(** The length of a digest as [getHash] prints it. *)
Lemma getHash_length cfg s :
  String.length (getHash cfg s)
  = if String.eqb (Algorithm cfg) AlgorithmSHA1 then 40%nat
    else if String.eqb (Algorithm cfg) AlgorithmSHA256 then 64%nat
    else if String.eqb (Algorithm cfg) AlgorithmMD5 then 32%nat
    else 40%nat.
Proof.
  unfold getHash. rewrite hex_length.
  repeat destruct (String.eqb _ _);
    by rewrite ?sha1_length, ?sha256_length, ?md5_length.
Qed.

Lemma getHash_nonempty cfg s : Str.is_empty (getHash cfg s) = false.
Proof.
  pose proof (getHash_length cfg s) as Hlen.
  destruct (getHash cfg s); [|done].
  by repeat destruct (String.eqb _ _).
Qed.

Lemma getHash_lower cfg s :
  Str.all (fun c => Str.mem c "0123456789abcdef") (getHash cfg s) = true.
Proof. apply hex_lower. Qed.

(** An algorithm name that is none of the three constants selects SHA-1. *)
Lemma getHash_default cfg alg s :
  alg <> AlgorithmSHA1 -> alg <> AlgorithmSHA256 -> alg <> AlgorithmMD5 ->
  getHash (withAlgorithm cfg alg) s = getHash (withAlgorithm cfg AlgorithmSHA1) s.
Proof.
  intros H1%String.eqb_neq H2%String.eqb_neq H3%String.eqb_neq.
  unfold getHash, withAlgorithm. cbn [Algorithm]. by rewrite H1, H2, H3.
Qed.

(** ** Signing, then verifying *)

Lemma plain_url_spec u :
  plain_url u = true ->
  web_scheme (URL.Scheme u) = true /\ plain_host (URL.Host u) = true
  /\ URL.Opaque u = "" /\ URL.User u = None /\ URL.RawPath u = ""
  /\ URL.Fragment u = "" /\ plain_path (URL.Path u) = true.
Proof.
  unfold plain_url.
  intros [[[[[[Hs Hh]%andb_prop Ho%is_empty_true]%andb_prop
              Hu%bool_decide_eq_true]%andb_prop Hr%is_empty_true]%andb_prop
            Hf%is_empty_true]%andb_prop Hp]%andb_prop.
  done.
Qed.

Lemma web_scheme_no_hash s : web_scheme s = true -> Str.contains "#" s = false.
Proof. by intros [-> | ->]%web_scheme_cases. Qed.

(** What Fiber receives when the signed URL of a plain request is
    requested. *)
Lemma deliver_plain method u rq body :
  method ∈ methods ->
  plain_url u = true -> Str.is_empty rq = false -> plain_query rq = true ->
  Str.contains "#" rq = false ->
  deliver method (URL.String_ (URL.with_RawQuery u rq)) body
  = Some (Fiber.mkCtx method
            (URL.Scheme u +:+ "://" +:+ Str.to_lower (removeEmptyPort (URL.Host u)))
            (target_path (URL.Path u) +:+ "?" +:+ rq) body).
Proof.
  intros Hm Hu Hne Hrq Hhash. rewrite String_plain by done.
  apply plain_url_spec in Hu as (Hs & Hh & Ho & Hus & Hr & Hf & Hp).
  apply plain_path_spec in Hp as (Hp & Hpq & Hpc & Hpm).
  unfold deliver, URL.Parse. rewrite cut_none.
  - rewrite (parse_web false _ _ _ _ (URL.Path u)); try done.
    + rewrite String.eqb_refl. cbn [mbind option_bind Str.is_empty URL.Scheme URL.Host].
      fold (web_scheme (URL.Scheme u)). rewrite Hs, (bool_decide_eq_true_2 _ Hm).
      unfold URL.RequestURI, URL.EscapedPath, target_path.
      cbn [URL.Opaque URL.RawPath URL.Path URL.ForceQuery URL.RawQuery
           Str.is_empty negb andb orb].
      rewrite (not_star _ Hp), Hne, escape_is_empty. cbn [negb].
      by destruct (Str.is_empty (URL.Path u)).
    + rewrite escape_is_empty. destruct (Str.is_empty (URL.Path u)) eqn:He; [done|].
      cbn [orb] in *. by apply escape_path_prefix.
    + apply escape_path_plain.
    + apply unescape_escape_path.
  - change ("://" +:+ ?s) with (String ":" (String "/" (String "/" s))).
    change ("?" +:+ ?s) with (String "?" s).
    repeat (rewrite contains_app || rewrite contains_cons).
    rewrite web_scheme_no_hash by done.
    rewrite (plain_host_not_contains _ "#"), escape_not_contains, Hhash by done.
    done.
Qed.

(** [getSignature] on a base URL and request target of the plain shape. *)
Lemma getSignature_web cfg method scheme host p rq body path :
  web_scheme scheme = true -> plain_host host = true ->
  Str.is_empty p || Str.has_prefix "/" p = true ->
  plain_query p = true -> plain_query rq = true ->
  URL.unescape p URL.encodePath = Some path ->
  getSignature cfg method (scheme +:+ "://" +:+ host) (p +:+ "?" +:+ rq) body
  = (getHash cfg (method +:+ "&" +:+ scheme +:+ "://" +:+ host +:+ hashed_path path
                  +:+ "?" +:+ orderQueryParams cfg
                                (injectParams cfg (URL.ParseQuery rq) body)), None).
Proof.
  intros Hs Hh Hp Hpq Hrq Hpath. unfold getSignature, URL.ParseRequestURI.
  rewrite !sapp_assoc. rewrite (parse_web true _ _ _ _ path) by done.
  unfold hashString, signedQuery. cbn [URL.Path URL.Scheme URL.Host].
  rewrite existingQuery_app; [done|..]; by apply plain_query_bytes.
Qed.

(** What an accepted call of the signer did. *)
Lemma signer_accepted cfg r :
  err (GetSignedURLFromHTTPRequest cfg r) = None ->
  exists body stream,
    HTTP.readBody (HTTP.Body r) = (inl body, stream)
    /\ URL.Get (URL.Query (HTTP.URL r)) (SignatureQueryKey cfg) = ""
    /\ URL.Get (URL.Query (HTTP.URL r)) (PrivateKeyQueryKey cfg) = ""
    /\ URL.Get (URL.Query (HTTP.URL r)) (BodyHashQueryKey cfg) = ""
    /\ let baseURL := URL.Scheme (HTTP.URL r) +:+ "://" +:+ HTTP.Host r in
       let originalURL := URL.Path (HTTP.URL r) +:+ "?" +:+ URL.RawQuery (HTTP.URL r) in
       let signature := (getSignature cfg (HTTP.Method r) baseURL originalURL body).1 in
       let u := URL.with_RawQuery (HTTP.URL r)
                  (URL.Encode (URL.Add (URL.Query (HTTP.URL r)) "signature" signature)) in
       GetSignedURLFromHTTPRequest cfg r
       = mkSigning (URL.String_ u) None
                   (HTTP.mkRequest (HTTP.Method r) u (HTTP.Host r) stream)
                   [(HTTP.Method r, baseURL, originalURL, body)].
Proof.
  unfold GetSignedURLFromHTTPRequest.
  destruct (HTTP.readBody (HTTP.Body r)) as [[body|msg] stream]; [|done].
  cbn [HTTP.URL HTTP.Method HTTP.Host].
  destruct (Str.is_empty (URL.Get _ (SignatureQueryKey cfg))) eqn:H1; [|done].
  destruct (Str.is_empty (URL.Get _ (PrivateKeyQueryKey cfg))) eqn:H2; [|done].
  destruct (Str.is_empty (URL.Get _ (BodyHashQueryKey cfg))) eqn:H3; [|done].
  cbn [negb]. intros _. exists body, stream.
  apply is_empty_true in H1, H2, H3. repeat (split; [done|]).
  cbn zeta. by destruct (getSignature _ _ _ _ _).
Qed.

(** ** The expiry check *)

Lemma digits_nonneg s : forall acc v,
  (0 <= acc)%Z -> Strconv.digits acc s = Some v -> (0 <= v)%Z.
Proof.
  induction s as [|c s IH]; intros acc v Hacc; simpl.
  - by intros [= <-].
  - destruct (URL.is_digit c) eqn:Hc; [|done]. apply IH.
    assert (48 <= Z.of_N (Str.code c))%Z; [|lia].
    revert Hc. clear. each_byte c; first [discriminate | intros _; vm_compute; discriminate].
Qed.

(** [strconv.ParseInt(s, 10, 64)] returns an int64. *)
Lemma ParseInt_range s i :
  Strconv.ParseInt s = Some i -> (- 2 ^ 63 <= i < 2 ^ 63)%Z.
Proof.
  unfold Strconv.ParseInt. destruct s as [|c s]; [done|].
  destruct (if Ascii.eqb c "+" then _ else _) as [neg ds].
  unfold Strconv.ParseUint. destruct (Str.is_empty ds); [done|].
  destruct (Strconv.digits 0 ds) as [un|] eqn:Hun; [|done]. cbn [mbind option_bind].
  apply digits_nonneg in Hun; [|done].
  destruct neg; cbn [negb andb].
  - destruct (2 ^ 63 <? un)%Z eqn:Hc; [done|]. intros [= <-]. lia.
  - destruct (2 ^ 63 <=? un)%Z eqn:Hc; [done|]. intros [= <-]. lia.
Qed.

Lemma ParseInt_nonempty s i : Strconv.ParseInt s = Some i -> Str.is_empty s = false.
Proof. by destruct s. Qed.

(** [time.Unix(i, 0)] is before a clock reading exactly when the
    instant of [i] seconds is earlier, as long as [i] is a second
    that [time.Unix] represents. *)
Lemma Before_Unix i now :
  clock now -> (- 2 ^ 63 <= i <= maxUnix)%Z ->
  Time.Before (Time.Unix i) now = (i * 10 ^ 9 <? nanos now)%Z.
Proof.
  unfold clock, maxUnix, nanos, Time.unix, Time.Before, Time.Unix, Time.wrap64.
  cbn [Time.sec Time.nsec]. intros [Hsec Hnsec] Hi.
  assert (Time.unixToInternal = 62135596800%Z) as Hu by reflexivity.
  rewrite Hu in *.
  rewrite Z.mod_small by lia.
  destruct (i * 10 ^ 9 <? _)%Z eqn:Hlt.
  - apply Z.ltb_lt in Hlt. apply orb_true_intro.
    destruct (Z.ltb_spec (i + 62135596800 + 2 ^ 63 - 2 ^ 63) (Time.sec now)); [by left|].
    right. apply andb_true_intro. split; [apply Z.eqb_eq|apply Z.ltb_lt]; lia.
  - apply Z.ltb_ge in Hlt. apply orb_false_intro.
    + apply Z.ltb_ge. lia.
    + destruct (Z.eqb_spec (i + 62135596800 + 2 ^ 63 - 2 ^ 63) (Time.sec now)); [|done].
      simpl. apply Z.ltb_ge. lia.
Qed.

(** A second before a clock reading is one that [time.Unix] represents. *)
Lemma before_clock_representable i now :
  clock now -> (i * 10 ^ 9 < nanos now)%Z -> (i <= maxUnix)%Z.
Proof.
  unfold clock, maxUnix, nanos, Time.unix. intros [Hsec Hnsec] Hi.
  assert (Time.unixToInternal = 62135596800%Z) as Hu by reflexivity.
  rewrite Hu in *. lia.
Qed.

Lemma Get_Add_fresh (q : gmap string (list string)) k x :
  q !! k = None -> URL.Get (URL.Add q k x) k = x.
Proof. intros Hk. unfold URL.Get, URL.Add. by rewrite lookup_insert_eq, Hk. Qed.

Lemma Get_Add_ne (q : gmap string (list string)) k k' x :
  k <> k' -> URL.Get (URL.Add q k x) k' = URL.Get q k'.
Proof. intros Hk. unfold URL.Get, URL.Add. by rewrite lookup_insert_ne. Qed.


Lemma same_params_inject cfg skip q1 q2 body :
  same_params skip q1 q2 ->
  same_params skip (injectParams cfg q1 body) (injectParams cfg q2 body).
Proof.
  intros Hq. unfold injectParams.
  destruct (0 <? String.length body)%nat; repeat apply same_params_Set; done.
Qed.

Lemma target_path_spec p :
  plain_path p = true ->
  Str.is_empty (target_path p) || Str.has_prefix "/" (target_path p) = true
  /\ plain_query (target_path p) = true
  /\ Str.contains "?" (target_path p) = false
  /\ Str.contains "#" (target_path p) = false
  /\ exists path, URL.unescape (target_path p) URL.encodePath = Some path
                  /\ hashed_path path = hashed_path p.
Proof.
  intros (Hp & Hpq & Hpc & Hpm)%plain_path_spec. unfold target_path.
  destruct p as [|c p].
  { repeat (split; [done|]). by exists "/". }
  cbn [Str.is_empty orb] in *. split; [|split; [|split; [|split]]].
  - by rewrite escape_path_prefix, orb_true_r.
  - apply escape_path_plain.
  - by apply escape_not_contains.
  - by apply escape_not_contains.
  - exists (String c p). by rewrite unescape_escape_path.
Qed.

(** * The claims *)

(** ** C1: the round trip *)




(** ** C5: the concrete scenario *)

(** C5. With secret "secret", method GET, URL http://example.com/ and
    an empty body, the signer calls [getSignature] once; the canonical
    message it builds is exactly
    [GET&http://example.com/?privateKey=secret], and the signature it
    returns under the default algorithm is the lowercase hexadecimal
    SHA-1 digest of that byte string (the digest the package's tests
    expect), which the signer appends to the URL. *)
Theorem C5_concrete_scenario :
  let r := newRequest "GET" "http" "example.com" "/" "" None in
  let message := "GET&http://example.com/?privateKey=secret" in
  let digest := Crypto.hex (Crypto.sha1 (Crypto.bytes_of_string message)) in
  signatureCalls (GetSignedURLFromHTTPRequest secretConfig r)
  = [("GET", "http://example.com", "/?", "")]
  /\ (exists parsed,
        URL.ParseRequestURI ("http://example.com" +:+ "/?") = Some parsed
        /\ hashString secretConfig "GET" parsed "/?" "" = message)
  /\ getSignature secretConfig "GET" "http://example.com" "/?" "" = (digest, None)
  /\ digest = "d07242c7ef0dfb2e22c5339faa8317fe1f3f670e"
  /\ Str.all (fun c => Str.mem c "0123456789abcdef") digest = true
  /\ signedURL (GetSignedURLFromHTTPRequest secretConfig r)
     = "http://example.com/?signature=" +:+ digest.
Proof.
  cbn zeta. conjs; try by_computing.
  eexists. split; [by_computing|by_computing].
Qed.

(** ** C3: the key the signature is appended under *)

(** C3 (the code departs from the claim). Under a configuration whose
    signature key is "sign", the signer appends the signature under
    the literal key "signature": the returned URL carries no parameter
    named "sign", and the verifier of the same configuration finds no
    signature in it. *)
Theorem C3_signature_key_hard_coded :
  let r := newRequest "GET" "http" "example.com" "/" "" None in
  let s := GetSignedURLFromHTTPRequest signConfig r in
  SignatureQueryKey signConfig = "sign"
  /\ err s = None
  /\ signedURL s = "http://example.com/?signature=d07242c7ef0dfb2e22c5339faa8317fe1f3f670e"
  /\ URL.Query (HTTP.URL (request s)) !! "sign" = None
  /\ URL.Query (HTTP.URL (request s)) !! "signature"
     = Some ["d07242c7ef0dfb2e22c5339faa8317fe1f3f670e"]
  /\ (exists c, deliver "GET" (signedURL s) "" = Some c
                /\ validateRequest signConfig aNow c
                   = (false, Some (MissingSignature "sign"))).
Proof.
  cbn zeta. conjs; try by_computing.
  eexists. split; [by_computing|by_computing].
Qed.

(** ** C4: a URL that does not parse *)

(** C4 (the code departs from the claim). [getSignature] reports
    [MalformedURL], but both callers discard the error: for a request
    without scheme the signer returns a URL with an empty signature
    and no error, and the verifier rejects a target with a malformed
    escape as a signature mismatch. *)
Theorem C4_malformed_url_error_discarded :
  let r := HTTP.mkRequest "GET"
             (URL.mkURL "" "" None "" "/search" "" false "" "" "")
             "example.com" None in
  let s := GetSignedURLFromHTTPRequest secretConfig r in
  let c := Fiber.mkCtx "GET" "http://example.com" "/%zz?signature=abc" "" in
  URL.ParseRequestURI ("://example.com" +:+ "/search?") = None
  /\ getSignature secretConfig "GET" "://example.com" "/search?" ""
     = ("", Some MalformedURL)
  /\ signatureCalls s = [("GET", "://example.com", "/search?", "")]
  /\ err s = None
  /\ signedURL s = "/search?signature="
  /\ URL.ParseRequestURI (Fiber.BaseURL c +:+ Fiber.OriginalURL c) = None
  /\ validateRequest secretConfig aNow c = (false, Some SignatureMismatch)
  /\ handler secretConfig aNow c = Forbidden "invalid signature".
Proof. cbn zeta. conjs; by_computing. Qed.

(** ** C2: order independence *)

(** C2 (the code departs from the claim). [getSignature] reads the
    query as [strings.Split(originalURL, "?")[1]], the text between
    the first and the second question mark.  The two targets below
    have the same method, scheme, host, path and body, and the same
    query parameters [a=1] and [b=x?y] in different orders; their
    signatures differ, since what follows the second question mark is
    dropped. *)
Theorem C2_second_question_mark_breaks_order_independence :
  let base := "http://example.com" in
  let o1 := "/?a=1&b=x?y" in
  let o2 := "/?b=x?y&a=1" in
  (exists u1 u2,
     URL.ParseRequestURI (base +:+ o1) = Some u1
     /\ URL.ParseRequestURI (base +:+ o2) = Some u2
     /\ URL.Scheme u1 = URL.Scheme u2 /\ URL.Host u1 = URL.Host u2
     /\ URL.Path u1 = URL.Path u2
     /\ URL.RawQuery u1 = "a=1&b=x?y" /\ URL.RawQuery u2 = "b=x?y&a=1"
     /\ URL.Query u1 = URL.Query u2
     /\ URL.Query u1 !! "b" = Some ["x?y"])
  /\ existingQuery o1 !! "b" = Some ["x"]
  /\ existingQuery o2 !! "a" = None
  /\ getSignature secretConfig "GET" base o1 ""
     = (getHash secretConfig "GET&http://example.com/?a=1&b=x&privateKey=secret", None)
  /\ getSignature secretConfig "GET" base o2 ""
     = (getHash secretConfig "GET&http://example.com/?b=x&privateKey=secret", None)
  /\ getSignature secretConfig "GET" base o1 ""
     <> getSignature secretConfig "GET" base o2 "".
Proof.
  cbn zeta. split.
  - do 2 eexists. conjs; by_computing.
  - conjs; try by_computing.
    intros H. vm_compute in H. discriminate H.
Qed.

(** ** C9: algorithm selection *)

(** C9. For every input string, [getHash] under SHA-1, SHA-256 and
    MD-5 is the lowercase hexadecimal print of the SHA-1, SHA-256 and
    MD5 digest of the bytes of the string: 40, 64 and 32 digits, as on
    the standard test messages "abc" and
    "abcdbcdecdefdefgefghfghighijhijkijkljklmklmnlmnomnopnopq".  The
    SHA-256 and MD5 digests so differ from the default one in length
    and in value; under an algorithm name that is none of the three
    constants, [getHash] returns, without error, what it returns
    under SHA-1. *)
Theorem C9_algorithm_selection (cfg : Config) (s : string) :
  let h alg := getHash (withAlgorithm cfg alg) in
  let lower := Str.all (fun c => Str.mem c "0123456789abcdef") in
  let two_blocks := "abcdbcdecdefdefgefghfghighijhijkijkljklmklmnlmnomnopnopq" in
  (h AlgorithmSHA1 s = Crypto.hex (Crypto.sha1 (Crypto.bytes_of_string s))
   /\ h AlgorithmSHA256 s = Crypto.hex (Crypto.sha256 (Crypto.bytes_of_string s))
   /\ h AlgorithmMD5 s = Crypto.hex (Crypto.md5 (Crypto.bytes_of_string s)))
  /\ (h AlgorithmSHA1 "abc" = "a9993e364706816aba3e25717850c26c9cd0d89d"
      /\ h AlgorithmSHA256 "abc"
         = "ba7816bf8f01cfea414140de5dae2223b00361a396177a9cb410ff61f20015ad"
      /\ h AlgorithmMD5 "abc" = "900150983cd24fb0d6963f7d28e17f72"
      /\ h AlgorithmSHA1 two_blocks = "84983e441c3bd26ebaae4aa1f95129e5e54670f1"
      /\ h AlgorithmSHA256 two_blocks
         = "248d6a61d20638b8e5c026930c3e6039a33ce45964ff2167f6ecedd419db06c1"
      /\ h AlgorithmMD5 two_blocks = "8215ef0796a20bcaaae116d3876c664a")
  /\ String.length (h AlgorithmSHA1 s) = 40%nat
  /\ String.length (h AlgorithmSHA256 s) = 64%nat
  /\ String.length (h AlgorithmMD5 s) = 32%nat
  /\ lower (h AlgorithmSHA1 s) = true
  /\ lower (h AlgorithmSHA256 s) = true
  /\ lower (h AlgorithmMD5 s) = true
  /\ h AlgorithmSHA256 s <> h AlgorithmSHA1 s
  /\ h AlgorithmMD5 s <> h AlgorithmSHA1 s
  /\ forall alg,
       alg <> AlgorithmSHA1 -> alg <> AlgorithmSHA256 -> alg <> AlgorithmMD5 ->
       h alg s = h AlgorithmSHA1 s.
Proof.
  cbn zeta.
  assert (String.length (getHash (withAlgorithm cfg AlgorithmSHA1) s) = 40%nat) as H1.
  { by rewrite getHash_length. }
  assert (String.length (getHash (withAlgorithm cfg AlgorithmSHA256) s) = 64%nat) as H2.
  { by rewrite getHash_length. }
  assert (String.length (getHash (withAlgorithm cfg AlgorithmMD5) s) = 32%nat) as H3.
  { by rewrite getHash_length. }
  split; [by split; [|split]|].
  split; [conjs; by_computing|].
  do 3 (split; [done|]). do 3 (split; [apply getHash_lower|]).
  split; [|split].
  - intros Heq. rewrite Heq in H2. congruence.
  - intros Heq. rewrite Heq in H3. congruence.
  - intros alg Ha Hb Hc. by apply getHash_default.
Qed.

Lemma C9_algorithm_selection_witness :
  getHash (withAlgorithm secretConfig "Otherwise") "test string"
  = getHash (withAlgorithm secretConfig AlgorithmSHA1) "test string".
Proof.
  apply (C9_algorithm_selection secretConfig "test string"); discriminate.
Defined.

(** ** C8: a request target without question mark *)

(** C8, as stated, fails: the bare path "/users" is parsed as query
    input and yields the parameter "/users" with an empty value, which
    appears in the canonical ordered-params string before the private
    key. *)
Lemma C8_counterexample :
  Str.contains "?" "/users" = false
  /\ existingQuery "/users" = {["/users" := [""]]}
  /\ orderQueryParams secretConfig (signedQuery secretConfig "/users" "")
     = "/users=&privateKey=secret"
  /\ (exists parsed,
        URL.ParseRequestURI ("http://example.com" +:+ "/users") = Some parsed
        /\ hashString secretConfig "GET" parsed "/users" ""
           = "GET&http://example.com/users?/users=&privateKey=secret").
Proof.
  conjs; try by_computing.
  eexists. split; [by_computing|by_computing].
Qed.

Lemma ParseQuery_one_key s :
  Str.is_empty s = false ->
  Str.all (fun c => negb (Str.mem c "&;=%+")) s = true ->
  URL.ParseQuery s = {[s := [""]]}.
Proof.
  intros Hne Hs. unfold URL.ParseQuery.
  rewrite split_none by (eapply all_not_contains; [|exact Hs]; done).
  cbn [omap list_omap]. unfold URL.parsePair.
  rewrite (all_not_contains _ ";" s eq_refl Hs), Hne.
  rewrite cut_none by (eapply all_not_contains; [|exact Hs]; done).
  assert (URL.QueryUnescape s = Some s) as ->.
  { clear Hne. unfold URL.QueryUnescape. induction s as [|c s IH]; [done|].
    cbn [Str.all] in Hs. apply andb_prop in Hs as [Hc Hs].
    specialize (IH Hs). revert Hc IH. clear.
    each_byte c; first [discriminate | intros _ IH; simpl; by rewrite IH]. }
  cbn [URL.QueryUnescape URL.unescape fold_left]. unfold URL.addPair, URL.Add.
  cbn [fst snd]. by rewrite lookup_empty, insert_empty.
Qed.

Lemma bind_singleton {A B} (f : A -> B) (l : list A) : l ≫= (fun x => [f x]) = f <$> l.
Proof. induction l as [|x l IH]; [done|]. cbn. by rewrite <- IH. Qed.

(** Side conditions on a few named keys. *)
Ltac key_facts :=
  rewrite ?NoDup_cons, ?elem_of_cons, ?elem_of_nil, ?lookup_insert_is_Some',
    ?lookup_singleton_is_Some, ?lookup_empty in *;
  pose proof (@is_Some_None (list string)); pose proof (@NoDup_nil_2 string).
Ltac distinct_keys := key_facts; intuition congruence.
Ltac present_keys := intros ? _; key_facts; intuition congruence.
Ltac value_of_key :=
  let k := fresh "k" in
  intros k ?; rewrite ?lookup_insert, ?lookup_singleton, ?lookup_empty;
  repeat case_decide; subst;
  repeat match goal with
         | |- context [String.eqb ?a ?b] => destruct (String.eqb_spec a b)
         end;
  first [done | exfalso; key_facts; intuition congruence].

(** The string hashed for parameters with one value each. *)
Lemma orderQueryParams_single_values cfg (q : gmap string (list string))
    (ks : list string) (value : string -> string) :
  NoDup ks ->
  (forall k, k <> SignatureQueryKey cfg -> k ∈ ks <-> is_Some (q !! k)) ->
  SignatureQueryKey cfg ∉ ks ->
  (forall k, k ∈ ks -> q !! k = Some [value k]) ->
  orderQueryParams cfg q
  = Str.join "&" ((fun k => k +:+ "=" +:+ value k) <$> Str.sort ks).
Proof.
  intros Hnd Hks Hsig Hval. unfold orderQueryParams.
  rewrite (sort_unique (filter _ _) ks).
  - f_equal. rewrite <- bind_singleton. apply bind_ext_Forall, Forall_forall.
    intros k Hk. rewrite sort_Permutation in Hk.
    rewrite (Hval k Hk). cbn [default from_option id]. by rewrite sort_singleton.
  - apply NoDup_Permutation; [apply NoDup_filter, NoDup_keys|done|].
    intros k. rewrite list_elem_of_filter, elem_of_keys. split.
    + intros [Hk ?]. by apply Hks.
    + intros Hk. assert (k <> SignatureQueryKey cfg) by (by intros ->).
      split; [done|]. by apply Hks.
Qed.

(** C8, amended. When pathAndQuery contains no [?], the Canonicalizer
    parses the whole string as query input.  For the empty string
    this yields no parameter: only the injected private-key pair and,
    for a non-empty body, the body-hash pair are hashed.  A bare path
    without the bytes [& ; = % +], such as "/" or "/users", yields
    one parameter, the path as key with an empty value; it is hashed
    with the injected pairs.  In both cases, when the names involved
    (the path, the signature key, the private-key key and the
    body-hash key) are pairwise different, the canonical
    ordered-params string is the [&]-join of the pieces [key=value]
    of these parameters, keys ascending. *)
Theorem C8_query_without_question_mark (cfg : Config) (pathAndQuery body : string) :
  Str.contains "?" pathAndQuery = false ->
  let injected :=
    PrivateKeyQueryKey cfg :: (if Str.is_empty body then [] else [BodyHashQueryKey cfg]) in
  let value k :=
    if String.eqb k (PrivateKeyQueryKey cfg) then privateKey cfg
    else if String.eqb k (BodyHashQueryKey cfg) then getHash cfg body
    else "" in
  let piece k := k +:+ "=" +:+ value k in
  existingQuery pathAndQuery = URL.ParseQuery pathAndQuery
  /\ (pathAndQuery = "" ->
      existingQuery pathAndQuery = ∅
      /\ signedQuery cfg pathAndQuery body = injectParams cfg ∅ body
      /\ dom (signedQuery cfg pathAndQuery body)
         ⊆ {[PrivateKeyQueryKey cfg; BodyHashQueryKey cfg]}
      /\ (NoDup [SignatureQueryKey cfg; PrivateKeyQueryKey cfg; BodyHashQueryKey cfg] ->
          orderQueryParams cfg (signedQuery cfg pathAndQuery body)
          = Str.join "&" (piece <$> Str.sort injected)))
  /\ (pathAndQuery <> "" ->
      Str.all (fun c => negb (Str.mem c "&;=%+")) pathAndQuery = true ->
      existingQuery pathAndQuery = {[pathAndQuery := [""]]}
      /\ signedQuery cfg pathAndQuery body
         = injectParams cfg {[pathAndQuery := [""]]} body
      /\ (NoDup [pathAndQuery; SignatureQueryKey cfg; PrivateKeyQueryKey cfg;
                 BodyHashQueryKey cfg] ->
          orderQueryParams cfg (signedQuery cfg pathAndQuery body)
          = Str.join "&" (piece <$> Str.sort (pathAndQuery :: injected)))).
Proof.
  cbn zeta. intros Hq. unfold signedQuery, existingQuery. rewrite Hq.
  split; [done|]. split.
  - intros ->. split; [done|]. split; [done|].
    change (URL.ParseQuery "") with (∅ : gmap string (list string)).
    unfold injectParams, URL.Set_. split.
    + destruct (0 <? String.length body)%nat; intros k;
        rewrite ?dom_insert_L, dom_empty_L, !elem_of_union, !elem_of_singleton, elem_of_empty;
        tauto.
    + intros Hnd.
      destruct body as [|b body]; cbn [String.length Nat.ltb Nat.leb Str.is_empty];
        (apply orderQueryParams_single_values;
         [distinct_keys|present_keys|distinct_keys|value_of_key]).
  - intros Hne Hs. rewrite (ParseQuery_one_key pathAndQuery) by (by destruct pathAndQuery).
    split; [done|]. split; [done|]. intros Hnd.
    unfold injectParams, URL.Set_.
    destruct body as [|b body]; cbn [String.length Nat.ltb Nat.leb Str.is_empty];
      (apply orderQueryParams_single_values;
       [distinct_keys|present_keys|distinct_keys|value_of_key]).
Qed.

Lemma C8_query_without_question_mark_witness :
  orderQueryParams secretConfig (signedQuery secretConfig "" "") = "privateKey=secret"
  /\ existingQuery "/users" = {["/users" := [""]]}
  /\ orderQueryParams secretConfig (signedQuery secretConfig "/users" "body")
     = "/users=&bodyHash=" +:+ getHash secretConfig "body" +:+ "&privateKey=secret".
Proof.
  assert (NoDup ["signature"; "privateKey"; "bodyHash"]) as Hkeys by distinct_keys.
  assert (NoDup ["/users"; "signature"; "privateKey"; "bodyHash"]) as Hnames
    by distinct_keys.
  destruct (C8_query_without_question_mark secretConfig "" "" eq_refl) as (_ & H1 & _).
  destruct (H1 eq_refl) as (_ & _ & _ & Hempty).
  destruct (C8_query_without_question_mark secretConfig "/users" "body" eq_refl)
    as (_ & _ & H2).
  destruct (H2 ltac:(discriminate) eq_refl) as (Hquery & _ & Hpath).
  split; [|split; [exact Hquery|]].
  - rewrite (Hempty Hkeys). by_computing.
  - rewrite (Hpath Hnames). by_computing.
Defined.

(** ** C6: the expiry check *)

(** C6, as stated, fails at both ends.  An expiry parameter that is
    present with an empty value does not parse as an integer, yet the
    request is not rejected for it; and the timestamp
    9223372036854775807, which is after the current time, is rejected
    as expired, because [time.Unix] wraps around on it. *)
Lemma C6_counterexample :
  let empty := Fiber.mkCtx "GET" "http://example.com"
                 "/?expires=&signature=eb8c45fd69de9271b98e5bd8e84945171de0b40f" "" in
  let far := Fiber.mkCtx "GET" "http://example.com"
               "/?signature=abc&expires=9223372036854775807" "" in
  ("expires=" ∈ Str.split "&" (Fiber.queryString (Fiber.OriginalURL empty))
   /\ Strconv.ParseInt (Fiber.Query empty "expires") = None
   /\ validateRequest secretConfig aNow empty = (true, None))
  /\ (Strconv.ParseInt (Fiber.Query far "expires") = Some (2 ^ 63 - 1)%Z
      /\ (nanos aNow <= (2 ^ 63 - 1) * 10 ^ 9)%Z
      /\ validateRequest secretConfig aNow far = (false, Some Expired)).
Proof.
  cbn zeta. split; (split; [|split]).
  - vm_compute. left.
  - vm_compute. reflexivity.
  - vm_compute. reflexivity.
  - vm_compute. reflexivity.
  - vm_compute. discriminate.
  - vm_compute. reflexivity.
Qed.

(** C6, amended. Once a signature is present: if the expiry parameter
    is absent or empty the request never fails for expiry; if it is
    not empty and [strconv.ParseInt] (base 10, 64 bits) rejects it,
    verification fails with [InvalidExpiry]; if the parsed Unix
    timestamp is strictly before the current time it fails with
    [Expired]; a timestamp exactly at or after the current time passes
    the expiry check, provided it is at most 2^63 - 1 - 62135596800,
    the last second that [time.Unix] represents. *)
Theorem C6_expiry_check (cfg : Config) (now : Time.t) (c : Fiber.Ctx) :
  let expires := Fiber.Query c (ExpiresQueryKey cfg) in
  let outcome := validateRequest cfg now c in
  Fiber.Query c (SignatureQueryKey cfg) <> "" ->
  clock now ->
  (expires = "" -> past_expiry outcome)
  /\ (expires <> "" -> Strconv.ParseInt expires = None ->
      outcome = (false, Some (InvalidExpiry (ExpiresQueryKey cfg))))
  /\ (forall i, Strconv.ParseInt expires = Some i ->
      (i * 10 ^ 9 < nanos now)%Z -> outcome = (false, Some Expired))
  /\ (forall i, Strconv.ParseInt expires = Some i ->
      (nanos now <= i * 10 ^ 9)%Z -> (i <= maxUnix)%Z -> past_expiry outcome).
Proof.
  cbn zeta. intros Hsig%is_empty_false Hnow. unfold validateRequest. rewrite Hsig.
  assert (past_expiry
            (let '(hashedSignature, _) :=
               getSignature cfg (Fiber.Method c) (Fiber.BaseURL c)
                            (Fiber.OriginalURL c) (Fiber.Body c) in
             if negb (String.eqb hashedSignature (Fiber.Query c (SignatureQueryKey cfg)))
             then (false, Some SignatureMismatch) else (true, None))) as Hpast.
  { destruct (getSignature _ _ _ _ _) as [h e].
    destruct (negb _); [by right|by left]. }
  split; [|split; [|split]].
  - intros ->. exact Hpast.
  - intros Hne%is_empty_false ->. by rewrite Hne.
  - intros i Hi Hlt. rewrite Hi.
    rewrite (ParseInt_nonempty _ _ Hi).
    cbn [negb]. rewrite Before_Unix; [|done|].
    + by rewrite (proj2 (Z.ltb_lt _ _) Hlt).
    + pose proof (ParseInt_range _ _ Hi). split; [lia|by eapply before_clock_representable].
  - intros i Hi Hge Hmax. rewrite Hi.
    rewrite (ParseInt_nonempty _ _ Hi).
    cbn [negb]. rewrite Before_Unix; [|done|].
    + rewrite (proj2 (Z.ltb_ge _ _) Hge). exact Hpast.
    + pose proof (ParseInt_range _ _ Hi). split; [lia|done].
Qed.

Lemma C6_expiry_check_witness :
  let at_now := Fiber.mkCtx "GET" "http://example.com"
                  "/?signature=abc&expires=1700000001" "" in
  let before := Fiber.mkCtx "GET" "http://example.com"
                  "/?signature=abc&expires=1700000000" "" in
  past_expiry (validateRequest secretConfig aNow at_now)
  /\ validateRequest secretConfig aNow before = (false, Some Expired).
Proof.
  cbn zeta. split.
  - eapply (C6_expiry_check secretConfig aNow) with (i := 1700000001%Z);
      [discriminate|vm_compute; intuition discriminate|reflexivity
      |vm_compute; discriminate|vm_compute; discriminate].
  - eapply (C6_expiry_check secretConfig aNow) with (i := 1700000000%Z);
      [discriminate|vm_compute; intuition discriminate|reflexivity|vm_compute; reflexivity].
Defined.

(** ** C7: reserved parameters *)

(** C7, as stated, fails: the signer reads each reserved key with
    [Values.Get], the first value of the key, and reads the body
    before the query.  A query with an empty first value and a second
    value "abc" under the signature key is signed without error; a
    request whose body cannot be read fails with the read error,
    whatever its query. *)
Lemma C7_counterexample :
  (let r := newRequest "GET" "http" "example.com" "/" "signature=&signature=abc" None in
   let s := GetSignedURLFromHTTPRequest secretConfig r in
   URL.Query (HTTP.URL r) !! "signature" = Some [""; "abc"]
   /\ err s = None
   /\ signedURL s
      = "http://example.com/?signature=&signature=abc&signature=d07242c7ef0dfb2e22c5339faa8317fe1f3f670e")
  /\ (let r := newRequest "GET" "http" "example.com" "/" "signature=abc"
                 (Some (HTTP.Failing "test error")) in
      URL.Query (HTTP.URL r) !! "signature" = Some ["abc"]
      /\ err (GetSignedURLFromHTTPRequest secretConfig r)
         = Some (BodyReadError "test error")).
Proof. cbn zeta. conjs; by_computing. Qed.

(** C7, amended. For every signing request whose body is absent or
    readable and whose URL query has a non-empty first value under
    the signature key, the private-key key or the body-hash key,
    [GetSignedURLFromHTTPRequest] returns [ReservedParameterError]
    for the first such key, with no URL produced, no call of
    [getSignature] and the request URL untouched. *)
Theorem C7_reserved_parameter_rejected (cfg : Config) (r : HTTP.Request) :
  let q := URL.Query (HTTP.URL r) in
  let s := GetSignedURLFromHTTPRequest cfg r in
  readable (HTTP.Body r) = true ->
  URL.Get q (SignatureQueryKey cfg) <> ""
  \/ URL.Get q (PrivateKeyQueryKey cfg) <> ""
  \/ URL.Get q (BodyHashQueryKey cfg) <> "" ->
  err s = Some (ReservedParameterError
                  (if negb (Str.is_empty (URL.Get q (SignatureQueryKey cfg)))
                   then SignatureQueryKey cfg
                   else if negb (Str.is_empty (URL.Get q (PrivateKeyQueryKey cfg)))
                   then PrivateKeyQueryKey cfg
                   else BodyHashQueryKey cfg))
  /\ signedURL s = ""
  /\ signatureCalls s = []
  /\ HTTP.URL (request s) = HTTP.URL r.
Proof.
  cbn zeta. intros Hbody Hres. unfold GetSignedURLFromHTTPRequest.
  assert (exists body stream, HTTP.readBody (HTTP.Body r) = (inl body, stream))
    as (body & stream & ->).
  { destruct (HTTP.Body r) as [[unread|msg]|]; [by eexists _, _|done|by eexists _, _]. }
  cbn [HTTP.URL].
  destruct (Str.is_empty (URL.Get _ (SignatureQueryKey cfg))) eqn:H1; [|done].
  destruct (Str.is_empty (URL.Get _ (PrivateKeyQueryKey cfg))) eqn:H2; [|done].
  destruct (Str.is_empty (URL.Get _ (BodyHashQueryKey cfg))) eqn:H3; [|done].
  apply is_empty_true in H1, H2, H3. tauto.
Qed.

Lemma C7_reserved_parameter_rejected_witness :
  err (GetSignedURLFromHTTPRequest secretConfig
         (newRequest "GET" "http" "example.com" "/" "a=1&bodyHash=abc"
                     (Some (HTTP.Stream "body"))))
  = Some (ReservedParameterError "bodyHash").
Proof.
  apply (C7_reserved_parameter_rejected secretConfig
           (newRequest "GET" "http" "example.com" "/" "a=1&bodyHash=abc"
                       (Some (HTTP.Stream "body")))).
  - reflexivity.
  - right. right. vm_compute. discriminate.
Defined.

(** ** C10: the request after signing *)

Lemma pairs_keys_sorted v : StronglySorted String.le (URL.pairs v).*1.
Proof.
  unfold URL.pairs.
  pose proof (Sorted_StronglySorted _ _ (sort_Sorted (URL.keys v))) as Hs.
  induction Hs as [|k ks Hks IH Hk]; [constructor|].
  rewrite bind_cons, fmap_app. apply StronglySorted_app_2; [| |done].
  - intros x1 x2 Hx1 Hx2.
    assert (x1 = k) as ->.
    { clear -Hx1. induction (default [] (v !! k)) as [|x l IHl]; [by inversion Hx1|].
      rewrite !fmap_cons in Hx1. apply elem_of_cons in Hx1 as [?|?]; auto. }
    rewrite Forall_forall in Hk. apply Hk.
    apply list_elem_of_fmap in Hx2 as ([k' x] & -> & Hin).
    apply list_elem_of_bind in Hin as (k'' & Hin & Hk'').
    apply list_elem_of_fmap in Hin as (? & [= -> ->] & _). done.
  - clear. induction (default [] (v !! k)) as [|x l IHl]; [constructor|].
    rewrite !fmap_cons. constructor; [done|].
    apply Forall_forall. intros k' Hk'.
    assert (k' = k) as ->; [|reflexivity].
    clear -Hk'. induction l as [|y l IHl]; [by inversion Hk'|].
    rewrite !fmap_cons in Hk'. apply elem_of_cons in Hk' as [?|?]; auto.
Qed.

Lemma elem_of_values_of k x (ps : list (string * string)) :
  x ∈ values_of k ps -> (k, x) ∈ ps.
Proof.
  unfold values_of. intros ([k' x'] & -> & Hin)%list_elem_of_fmap.
  apply list_elem_of_filter in Hin as [Hk Hin]. simpl in *. by subst.
Qed.

Lemma Add_pairs v k x : (k, x) ∈ URL.pairs (URL.Add v k x).
Proof.
  apply elem_of_values_of. rewrite values_of_pairs. unfold URL.Add.
  rewrite lookup_insert_eq. simpl. apply elem_of_app. right. by left.
Qed.

(** Adding a value to a query map changes it. *)
Lemma Add_changes (v : gmap string (list string)) k x : URL.Add v k x <> v.
Proof.
  intros Heq. assert (URL.Add v k x !! k = v !! k) as Hk by (by rewrite Heq).
  unfold URL.Add in Hk. rewrite lookup_insert_eq in Hk.
  destruct (v !! k) as [l|]; [|done]. simpl in Hk.
  injection Hk as Hk. apply (f_equal length) in Hk. rewrite length_app in Hk.
  simpl in Hk. lia.
Qed.

(** C10. On success, [GetSignedURLFromHTTPRequest] leaves its argument
    request changed beyond the exhausted body: [r.URL.RawQuery] now
    holds [q.Encode()] for the parsed query [q] with the signature
    added under "signature", that is the pairs of [q], keys ascending,
    each written as escaped key, [=], escaped value and joined by [&];
    this text is never the original raw query.  Method, host and the
    other URL fields are as before. *)
Theorem C10_request_mutated (cfg : Config) (r : HTTP.Request) :
  let s := GetSignedURLFromHTTPRequest cfg r in
  let q := URL.Query (HTTP.URL r) in
  err s = None ->
  exists signature ps,
    signatureCalls s
    = [(HTTP.Method r, URL.Scheme (HTTP.URL r) +:+ "://" +:+ HTTP.Host r,
        URL.Path (HTTP.URL r) +:+ "?" +:+ URL.RawQuery (HTTP.URL r), body_bytes r)]
    /\ signature
       = (getSignature cfg (HTTP.Method r)
            (URL.Scheme (HTTP.URL r) +:+ "://" +:+ HTTP.Host r)
            (URL.Path (HTTP.URL r) +:+ "?" +:+ URL.RawQuery (HTTP.URL r))
            (body_bytes r)).1
    /\ ps = URL.pairs (URL.Add q "signature" signature)
    /\ URL.RawQuery (HTTP.URL (request s))
       = Str.join "&" ((fun kv => URL.QueryEscape kv.1 +:+ "=" +:+ URL.QueryEscape kv.2) <$> ps)
    /\ ("signature", signature) ∈ ps
    /\ StronglySorted String.le ps.*1
    /\ URL.RawQuery (HTTP.URL (request s)) <> URL.RawQuery (HTTP.URL r)
    /\ HTTP.URL (request s)
       = URL.with_RawQuery (HTTP.URL r) (URL.RawQuery (HTTP.URL (request s)))
    /\ HTTP.Method (request s) = HTTP.Method r
    /\ HTTP.Host (request s) = HTTP.Host r
    /\ HTTP.Body (request s) = (HTTP.readBody (HTTP.Body r)).2.
Proof.
  cbn zeta. intros Hacc.
  destruct (signer_accepted _ _ Hacc) as (body & stream & Hread & _ & _ & _ & Heq).
  cbn zeta in Heq. rewrite Heq. unfold body_bytes. rewrite Hread.
  cbn [signatureCalls request HTTP.URL HTTP.Method HTTP.Host HTTP.Body snd].
  eexists _, _. split; [done|]. split; [done|]. split; [done|].
  split; [done|]. split; [apply Add_pairs|]. split; [apply pairs_keys_sorted|].
  split; [|done].
  unfold URL.with_RawQuery. cbn [URL.RawQuery].
  intros Hsame.
  apply (Add_changes (URL.Query (HTTP.URL r)) "signature"
           (getSignature cfg (HTTP.Method r)
              (URL.Scheme (HTTP.URL r) +:+ "://" +:+ HTTP.Host r)
              (URL.Path (HTTP.URL r) +:+ "?" +:+ URL.RawQuery (HTTP.URL r)) body).1).
  rewrite <- (ParseQuery_Encode (URL.Add _ _ _)) by apply Add_proper, ParseQuery_proper.
  by rewrite Hsame.
Qed.

Lemma C10_request_mutated_witness :
  let r := newRequest "GET" "http" "example.com" "/" "b=2&a=1%201" (Some (HTTP.Stream "body")) in
  exists signature ps,
    ps = [("a", "1 1"); ("b", "2"); ("signature", signature)]
    /\ URL.RawQuery (HTTP.URL (request (GetSignedURLFromHTTPRequest secretConfig r)))
       = "a=1+1&b=2&signature=" +:+ signature
    /\ HTTP.Body (request (GetSignedURLFromHTTPRequest secretConfig r))
       = Some (HTTP.Stream "").
Proof.
  cbn zeta.
  destruct (C10_request_mutated secretConfig
              (newRequest "GET" "http" "example.com" "/" "b=2&a=1%201"
                          (Some (HTTP.Stream "body")))
              ltac:(vm_compute; reflexivity))
    as (signature & ps & _ & Hsig & Hps & Hraw & _ & _ & _ & _ & _ & _ & Hbody).
  exists signature, ps. split; [|split].
  - rewrite Hps, Hsig. vm_compute. reflexivity.
  - rewrite Hraw, Hps, Hsig. vm_compute. reflexivity.
  - rewrite Hbody. reflexivity.
Defined.

(** * Further properties of the code *)

(** ** config.go: defaulting *)

Lemma or_default_nonempty s d : d <> "" -> or_default s d <> "".
Proof.
  intros Hd. unfold or_default.
  destruct (Str.is_empty s) eqn:Hs; [done|by apply is_empty_false].
Qed.

Lemma or_default_fixed s d : d <> "" -> or_default s d = s <-> s <> "".
Proof.
  intros Hd. unfold or_default. destruct s; [|done].
  cbn [Str.is_empty]. split; [intros ?; by subst|intros H; by destruct H].
Qed.

Lemma or_default_idem s d : d <> "" -> or_default (or_default s d) d = or_default s d.
Proof. intros Hd. by apply or_default_fixed, or_default_nonempty. Qed.

(** Whatever is passed to [configDefault], the configuration it
    returns has an algorithm, a private-key function and four
    non-empty parameter names: [getSignature] never calls a nil
    [GetPrivateKeyFunc]. *)
Theorem configDefault_complete getenv (config : list Config) :
  complete (configDefault getenv config).
Proof.
  destruct config as [|cfg rest].
  - by repeat split.
  - unfold complete, configDefault.
    cbn [Algorithm GetPrivateKeyFunc SignatureQueryKey PrivateKeyQueryKey
         ExpiresQueryKey BodyHashQueryKey ConfigDefault].
    split; [by apply or_default_nonempty|]. split; [by destruct (GetPrivateKeyFunc cfg)|].
    repeat split; by apply or_default_nonempty.
Qed.

(** [configDefault] leaves [Next] as it is, keeps every other field
    that is set and gives every field that is not set the value it
    has in [ConfigDefault].  It so returns the configuration it is
    given unchanged exactly when every field it fills is already
    set. *)
Theorem configDefault_fixed_iff getenv (cfg : Config) (rest : list Config) :
  let c := configDefault getenv (cfg :: rest) in
  let kept (field : Config -> string) := field cfg <> "" -> field c = field cfg in
  (c = cfg <-> complete cfg)
  /\ Next c = Next cfg
  /\ (is_Some (GetPrivateKeyFunc cfg) -> GetPrivateKeyFunc c = GetPrivateKeyFunc cfg)
  /\ (GetPrivateKeyFunc cfg = None -> privateKey c = getenv "FIBER_SIGNED_PRIVATE_KEY")
  /\ (kept Algorithm /\ kept SignatureQueryKey /\ kept PrivateKeyQueryKey
      /\ kept ExpiresQueryKey /\ kept BodyHashQueryKey)
  /\ (Algorithm cfg = "" -> Algorithm c = AlgorithmSHA1)
  /\ (SignatureQueryKey cfg = "" -> SignatureQueryKey c = "signature")
  /\ (PrivateKeyQueryKey cfg = "" -> PrivateKeyQueryKey c = "privateKey")
  /\ (ExpiresQueryKey cfg = "" -> ExpiresQueryKey c = "expires")
  /\ (BodyHashQueryKey cfg = "" -> BodyHashQueryKey c = "bodyHash").
Proof.
  destruct cfg as [next alg key k1 k2 k3 k4]. unfold complete, configDefault.
  cbn [Next Algorithm GetPrivateKeyFunc SignatureQueryKey PrivateKeyQueryKey
       ExpiresQueryKey BodyHashQueryKey ConfigDefault].
  split; [split|].
  - intros [= _ Halg Hkey H1 H2 H3 H4].
    apply or_default_fixed in Halg, H1, H2, H3, H4; try done.
    repeat split; try done. destruct key; [done|]. by inversion Hkey.
  - intros (Halg & [f ->] & H1 & H2 & H3 & H4).
    f_equal; try (by apply or_default_fixed); by destruct next.
  - split; [by destruct next|]. split; [by intros [f ->]|]. split; [by intros ->|].
    split; [repeat split; intros Hset; by apply or_default_fixed|].
    repeat split; by intros ->.
Qed.

(** Defaulting twice is defaulting once, and only the first
    configuration passed is read. *)
Theorem configDefault_idempotent getenv (cfg : Config) (rest : list Config) :
  configDefault getenv [configDefault getenv (cfg :: rest)] = configDefault getenv [cfg].
Proof.
  destruct cfg as [next alg key k1 k2 k3 k4]. unfold configDefault.
  cbn [Next Algorithm GetPrivateKeyFunc SignatureQueryKey PrivateKeyQueryKey
       ExpiresQueryKey BodyHashQueryKey ConfigDefault].
  f_equal; try apply or_default_idem; try done; [by destruct next|by destruct key].
Qed.

(** ** validateRequest *)

Lemma validateRequest_cases cfg now c :
  validateRequest cfg now c = (true, None)
  \/ exists e, e ∈ rejections cfg /\ validateRequest cfg now c = (false, Some e).
Proof.
  unfold validateRequest, rejections.
  destruct (Str.is_empty (Fiber.Query c (SignatureQueryKey cfg))).
  { right. eexists. split; [|done]. apply list_elem_of_here. }
  destruct (negb (Str.is_empty (Fiber.Query c (ExpiresQueryKey cfg)))).
  - destruct (Strconv.ParseInt _) as [i|].
    + destruct (Time.Before _ _).
      * right. eexists. split; [|done]. do 2 apply list_elem_of_further. apply list_elem_of_here.
      * destruct (getSignature _ _ _ _ _) as [h e]. destruct (negb _); [|by left].
        right. eexists. split; [|done]. do 3 apply list_elem_of_further. apply list_elem_of_here.
    + right. eexists. split; [|done]. apply list_elem_of_further, list_elem_of_here.
  - destruct (getSignature _ _ _ _ _) as [h e]. destruct (negb _); [|by left].
    right. eexists. split; [|done]. do 3 apply list_elem_of_further. apply list_elem_of_here.
Qed.

(** [validateRequest] returns [true] exactly when it returns no
    error; an error it returns is one of its own four, never the
    error of [getSignature], which it drops. *)
Theorem validateRequest_outcomes cfg now c :
  ((validateRequest cfg now c).1 = true <-> (validateRequest cfg now c).2 = None)
  /\ (forall e, (validateRequest cfg now c).2 = Some e -> e ∈ rejections cfg)
  /\ (validateRequest cfg now c).2 <> Some MalformedURL.
Proof.
  destruct (validateRequest_cases cfg now c) as [->|(e & He & ->)]; cbn [fst snd].
  - by repeat split.
  - split; [done|]. split; [by intros ? [= <-]|].
    intros [= ->]. unfold rejections in He.
    repeat (apply elem_of_cons in He as [He|He]; [done|]). by apply elem_of_nil in He.
Qed.

(** [validateRequest] accepts a request exactly when the signature
    parameter is not empty, the expiry check passes and the signature
    computed from the request is the one presented. *)
Theorem validateRequest_accepts_iff cfg now c :
  validateRequest cfg now c = (true, None)
  <-> Fiber.Query c (SignatureQueryKey cfg) <> ""
      /\ expiry_passes now (Fiber.Query c (ExpiresQueryKey cfg)) = true
      /\ (getSignature cfg (Fiber.Method c) (Fiber.BaseURL c)
                       (Fiber.OriginalURL c) (Fiber.Body c)).1
         = Fiber.Query c (SignatureQueryKey cfg).
Proof.
  unfold validateRequest, expiry_passes. rewrite <- is_empty_false.
  destruct (Str.is_empty (Fiber.Query c (SignatureQueryKey cfg))); [by intuition|].
  destruct (Str.is_empty (Fiber.Query c (ExpiresQueryKey cfg))); cbn [negb orb].
  - destruct (getSignature _ _ _ _ _) as [h e]. cbn [fst].
    destruct (String.eqb_spec h (Fiber.Query c (SignatureQueryKey cfg))); cbn [negb];
      by intuition.
  - destruct (Strconv.ParseInt _) as [i|]; [|by intuition].
    destruct (Time.Before _ _); cbn [negb]; [by intuition|].
    destruct (getSignature _ _ _ _ _) as [h e]. cbn [fst].
    destruct (String.eqb_spec h (Fiber.Query c (SignatureQueryKey cfg))); cbn [negb];
      by intuition.
Qed.

Lemma Query_bare_target c key :
  Str.contains "?" (Fiber.OriginalURL c) = false -> Fiber.Query c key = "".
Proof.
  unfold Fiber.Query, Fiber.queryString.
  generalize (Fiber.OriginalURL c). intros target Hq.
  pose proof (cut_shape "#" target) as [_ Hcut].
  destruct (Str.cut "#" target) as [before rest]. cbn [fst snd] in Hcut.
  assert (Str.contains "?" before = false) as Hb.
  { destruct Hcut as [(Heq & _)|Heq]; [by rewrite <- Heq|].
    rewrite Heq, contains_app in Hq. by apply orb_false_elim in Hq as [? _]. }
  by rewrite (cut_none _ _ Hb).
Qed.

Lemma sapp_nonempty s t : t <> "" -> s +:+ t <> "".
Proof. intros Ht. destruct s; [done|]. by rewrite sapp_cons. Qed.

Lemma digest_length_spec cfg s : String.length (getHash cfg s) = digest_length cfg.
Proof.
  rewrite getHash_length. unfold digest_length.
  destruct (String.eqb_spec (Algorithm cfg) AlgorithmSHA1) as [->|]; [done|].
  by repeat destruct (String.eqb _ _).
Qed.

(** A request target without question mark carries no signature:
    [validateRequest] rejects it as unsigned, whatever the time, the
    method and the body. *)
Theorem validateRequest_bare_target cfg now c :
  Str.contains "?" (Fiber.OriginalURL c) = false ->
  validateRequest cfg now c = (false, Some (MissingSignature (SignatureQueryKey cfg))).
Proof. intros Hq. unfold validateRequest. by rewrite Query_bare_target. Qed.

Lemma validateRequest_bare_target_witness :
  validateRequest secretConfig aNow (Fiber.mkCtx "GET" "http://example.com" "/users#top" "")
  = (false, Some (MissingSignature "signature")).
Proof.
  apply (validateRequest_bare_target secretConfig aNow
           (Fiber.mkCtx "GET" "http://example.com" "/users#top" "")).
  reflexivity.
Defined.

(** A request whose URL [url.ParseRequestURI] refuses is never
    accepted: [getSignature] then returns the empty signature, which
    no non-empty signature parameter equals. *)
Theorem validateRequest_malformed_rejected cfg now c :
  URL.ParseRequestURI (Fiber.BaseURL c +:+ Fiber.OriginalURL c) = None ->
  (validateRequest cfg now c).1 = false.
Proof.
  intros Hp. unfold validateRequest, getSignature. rewrite Hp.
  destruct (Fiber.Query c (SignatureQueryKey cfg)) as [|a sig]; [done|].
  cbn [Str.is_empty String.eqb negb].
  destruct (negb _); [|done].
  destruct (Strconv.ParseInt _); [|done]. by destruct (Time.Before _ _).
Qed.

Lemma validateRequest_malformed_rejected_witness :
  (validateRequest secretConfig aNow
     (Fiber.mkCtx "GET" "http://example.com"
                  "/%zz?signature=d07242c7ef0dfb2e22c5339faa8317fe1f3f670e" "")).1 = false.
Proof.
  apply (validateRequest_malformed_rejected secretConfig aNow
           (Fiber.mkCtx "GET" "http://example.com"
                        "/%zz?signature=d07242c7ef0dfb2e22c5339faa8317fe1f3f670e" "")).
  by_computing.
Defined.

(** The signature of an accepted request is a digest of the
    configured algorithm: 40, 64 or 32 lowercase hexadecimal digits;
    and the URL of an accepted request parses. *)
Theorem validateRequest_accepted_digest cfg now c :
  validateRequest cfg now c = (true, None) ->
  String.length (Fiber.Query c (SignatureQueryKey cfg)) = digest_length cfg
  /\ Str.all (fun c => Str.mem c "0123456789abcdef")
             (Fiber.Query c (SignatureQueryKey cfg)) = true
  /\ is_Some (URL.ParseRequestURI (Fiber.BaseURL c +:+ Fiber.OriginalURL c)).
Proof.
  unfold validateRequest, getSignature.
  destruct (Str.is_empty (Fiber.Query c (SignatureQueryKey cfg))) eqn:Hsig; [done|].
  assert (forall h : string * option Error,
            (let '(hashedSignature, _) := h in
             if negb (String.eqb hashedSignature (Fiber.Query c (SignatureQueryKey cfg)))
             then (false, Some SignatureMismatch) else (true, None)) = (true, None) ->
            h.1 = Fiber.Query c (SignatureQueryKey cfg)) as Heq.
  { intros [h e]. cbn [fst].
    by destruct (String.eqb_spec h (Fiber.Query c (SignatureQueryKey cfg))). }
  intros Hv.
  assert ((match URL.ParseRequestURI (Fiber.BaseURL c +:+ Fiber.OriginalURL c) with
           | Some parsed =>
               (getHash cfg (hashString cfg (Fiber.Method c) parsed
                                        (Fiber.OriginalURL c) (Fiber.Body c)), None)
           | None => ("", Some MalformedURL)
           end).1 = Fiber.Query c (SignatureQueryKey cfg)) as Hh.
  { apply Heq. destruct (negb _); [|done].
    destruct (Strconv.ParseInt _); [|done]. by destruct (Time.Before _ _). }
  clear Hv Heq.
  destruct (URL.ParseRequestURI _) as [parsed|]; cbn [fst] in Hh.
  - rewrite <- Hh. split; [apply digest_length_spec|]. split; [apply getHash_lower|done].
  - by rewrite <- Hh in Hsig.
Qed.

Lemma validateRequest_accepted_digest_witness :
  String.length
    (Fiber.Query (Fiber.mkCtx "GET" "http://example.com"
                    "/?signature=d07242c7ef0dfb2e22c5339faa8317fe1f3f670e" "") "signature")
  = 40%nat.
Proof.
  apply (validateRequest_accepted_digest secretConfig aNow
           (Fiber.mkCtx "GET" "http://example.com"
                        "/?signature=d07242c7ef0dfb2e22c5339faa8317fe1f3f670e" "")).
  by_computing.
Defined.

(** ** signed.go: the handler returned by New *)

(** The handler continues the stack exactly when [Next] asks to skip
    the middleware or [validateRequest] accepts the request. *)
Theorem handler_continue_iff cfg now c :
  handler cfg now c = Continue
  <-> skipped cfg c = true \/ validateRequest cfg now c = (true, None).
Proof.
  unfold handler. fold (skipped cfg c). destruct (skipped cfg c); [by intuition|].
  destruct (validateRequest_cases cfg now c) as [->|(e & _ & ->)]; [by intuition|].
  split; [done|]. by intros [|].
Qed.

Lemma last_cons {A} (l : list A) a d : List.last (a :: l) d = List.last l a.
Proof.
  revert a d. induction l as [|b l IH]; intros a d; [done|].
  change (List.last (a :: b :: l) d) with (List.last (b :: l) d). by rewrite !IH.
Qed.

Lemma afterNew_last getenv calls config cfg0 :
  afterNew getenv (config :: calls) cfg0 = configDefault getenv (List.last calls config).
Proof.
  unfold afterNew. cbn [fold_left New fst]. clear cfg0.
  revert config. induction calls as [|config' calls IH]; intros config; [done|].
  cbn [fold_left New fst]. by rewrite IH, last_cons.
Qed.

(** Every handler returned by the calls of [New] so far works with
    the configuration of the last call, which the package variable
    holds when the request arrives.  When such a handler answers 403, [Next] of that
    configuration did not skip the request, [validateRequest]
    rejected it under that configuration with one of its four
    errors, and the message of the answer is the message of that
    error, which is never empty: [err.Error()] is never called on a
    nil error. *)
Theorem New_forbidden getenv config later cfg0 h now c msg :
  h ∈ (fun config' => (New getenv config').2) <$> config :: later ->
  h (afterNew getenv (config :: later) cfg0) now c = Forbidden msg ->
  afterNew getenv (config :: later) cfg0 = (New getenv (List.last later config)).1
  /\ skipped (New getenv (List.last later config)).1 c = false
  /\ (exists e, e ∈ rejections (New getenv (List.last later config)).1
                /\ validateRequest (New getenv (List.last later config)).1 now c
                   = (false, Some e)
                /\ msg = Error_message e)
  /\ msg <> "".
Proof.
  intros (config' & -> & _)%list_elem_of_fmap.
  rewrite afterNew_last. unfold New. cbn [fst snd].
  generalize (configDefault getenv (List.last later config)). intros cfg.
  unfold handler. fold (skipped cfg c). destruct (skipped cfg c); [done|].
  destruct (validateRequest_cases cfg now c) as [->|(e & He & ->)]; [done|].
  intros [= <-]. split; [done|]. split; [done|]. split; [by exists e|].
  unfold rejections in He.
  repeat (apply elem_of_cons in He as [->|He]; [try done; by apply sapp_nonempty|]).
  by apply elem_of_nil in He.
Qed.

Lemma New_forbidden_witness :
  let always := mkConfig (Some (fun _ => true)) "" (Some (fun _ => "secret")) "" "" "" "" in
  let secret := mkConfig None "" (Some (fun _ => "secret")) "" "" "" "" in
  let c := Fiber.mkCtx "GET" "http://example.com" "/" "" in
  let message := "signature is a required query param for a signed URL route" in
  (New (fun _ => "") [always]).2
    (afterNew (fun _ => "") [[always]; [secret]] (ConfigDefault (fun _ => ""))) aNow c
  = Forbidden message
  /\ skipped (New (fun _ => "") [always]).1 c = true
  /\ skipped (New (fun _ => "") [secret]).1 c = false
  /\ (exists e, validateRequest (New (fun _ => "") [secret]).1 aNow c = (false, Some e)
                /\ message = Error_message e).
Proof.
  cbn zeta. split; [by_computing|]. split; [reflexivity|].
  destruct (New_forbidden (fun _ => "")
              [mkConfig (Some (fun _ => true)) "" (Some (fun _ => "secret")) "" "" "" ""]
              [[mkConfig None "" (Some (fun _ => "secret")) "" "" "" ""]]
              (ConfigDefault (fun _ => ""))
              (New (fun _ => "")
                 [mkConfig (Some (fun _ => true)) "" (Some (fun _ => "secret")) "" "" "" ""]).2
              aNow (Fiber.mkCtx "GET" "http://example.com" "/" "")
              "signature is a required query param for a signed URL route"
              ltac:(apply list_elem_of_here) ltac:(by_computing))
    as (_ & Hskip & (e & _ & He) & _).
  split; [exact Hskip|]. by exists e.
Defined.

(** ** signed.go: GetSignedURLFromHTTPRequest *)

Lemma readBody_readable body :
  readable body = true ->
  exists bytes stream, HTTP.readBody body = (inl bytes, stream)
                       /\ HTTP.readBody stream = (inl "", stream).
Proof.
  destruct body as [[unread|msg]|]; [|done|]; intros _.
  - by exists unread, (Some (HTTP.Stream "")).
  - by exists "", None.
Qed.

(** The signer returns no error exactly when the body is absent or
    readable and the first values of the three reserved keys in the
    query are empty or absent; a URL that does not parse is no
    reason for it to fail. *)
Theorem signer_accepts_iff cfg r :
  err (GetSignedURLFromHTTPRequest cfg r) = None
  <-> readable (HTTP.Body r) = true
      /\ URL.Get (URL.Query (HTTP.URL r)) (SignatureQueryKey cfg) = ""
      /\ URL.Get (URL.Query (HTTP.URL r)) (PrivateKeyQueryKey cfg) = ""
      /\ URL.Get (URL.Query (HTTP.URL r)) (BodyHashQueryKey cfg) = "".
Proof.
  split.
  - intros Hacc. destruct (signer_accepted _ _ Hacc) as (body & stream & Hread & ? & ? & ? & _).
    split; [|done]. by destruct (HTTP.Body r) as [[unread|msg]|].
  - intros (Hbody & H1 & H2 & H3). unfold GetSignedURLFromHTTPRequest.
    destruct (readBody_readable _ Hbody) as (body & stream & -> & _).
    cbn [HTTP.URL]. rewrite H1, H2, H3. cbn [Str.is_empty negb].
    by destruct (getSignature _ _ _ _ _).
Qed.

(** An error of the signer is the read error of the body or a
    [ReservedParameterError] for a reserved key whose first value is
    not empty.  With it comes the empty URL; [getSignature] was not
    called and the URL of the request is untouched, but the body has
    been read. *)
Theorem signer_rejection cfg r e :
  err (GetSignedURLFromHTTPRequest cfg r) = Some e ->
  signedURL (GetSignedURLFromHTTPRequest cfg r) = ""
  /\ signatureCalls (GetSignedURLFromHTTPRequest cfg r) = []
  /\ HTTP.URL (request (GetSignedURLFromHTTPRequest cfg r)) = HTTP.URL r
  /\ HTTP.Body (request (GetSignedURLFromHTTPRequest cfg r)) = (HTTP.readBody (HTTP.Body r)).2
  /\ ((exists msg, HTTP.Body r = Some (HTTP.Failing msg) /\ e = BodyReadError msg)
      \/ (exists key,
            key ∈ [SignatureQueryKey cfg; PrivateKeyQueryKey cfg; BodyHashQueryKey cfg]
            /\ URL.Get (URL.Query (HTTP.URL r)) key <> ""
            /\ e = ReservedParameterError key)).
Proof.
  unfold GetSignedURLFromHTTPRequest.
  destruct (HTTP.Body r) as [[unread|msg]|] eqn:Hbody;
    cbn [HTTP.readBody HTTP.ReadAll HTTP.URL snd].
  2: { intros [= <-]. repeat split; try done. left. by exists msg. }
  all: destruct (Str.is_empty (URL.Get _ (SignatureQueryKey cfg))) eqn:H1; cbn [negb];
    [|intros [= <-]; repeat split; try done; right; eexists;
      split; [apply list_elem_of_here|by apply is_empty_false in H1]].
  all: destruct (Str.is_empty (URL.Get _ (PrivateKeyQueryKey cfg))) eqn:H2; cbn [negb];
    [|intros [= <-]; repeat split; try done; right; eexists;
      split; [apply list_elem_of_further, list_elem_of_here|by apply is_empty_false in H2]].
  all: destruct (Str.is_empty (URL.Get _ (BodyHashQueryKey cfg))) eqn:H3; cbn [negb];
    [|intros [= <-]; repeat split; try done; right; eexists;
      split; [do 2 apply list_elem_of_further; apply list_elem_of_here
             |by apply is_empty_false in H3]].
  all: by destruct (getSignature _ _ _ _ _).
Qed.

Lemma signer_rejection_witness :
  let r := newRequest "POST" "http" "example.com" "/pay" "privateKey=guess"
             (Some (HTTP.Stream "amount=1")) in
  signedURL (GetSignedURLFromHTTPRequest secretConfig r) = ""
  /\ signatureCalls (GetSignedURLFromHTTPRequest secretConfig r) = []
  /\ HTTP.URL (request (GetSignedURLFromHTTPRequest secretConfig r)) = HTTP.URL r
  /\ HTTP.Body (request (GetSignedURLFromHTTPRequest secretConfig r))
     = (HTTP.readBody (HTTP.Body r)).2
  /\ ((exists msg, HTTP.Body r = Some (HTTP.Failing msg)
                   /\ ReservedParameterError "privateKey" = BodyReadError msg)
      \/ (exists key,
            key ∈ [SignatureQueryKey secretConfig; PrivateKeyQueryKey secretConfig;
                   BodyHashQueryKey secretConfig]
            /\ URL.Get (URL.Query (HTTP.URL r)) key <> ""
            /\ ReservedParameterError "privateKey" = ReservedParameterError key)).
Proof.
  cbn zeta.
  apply (signer_rejection secretConfig
           (newRequest "POST" "http" "example.com" "/pay" "privateKey=guess"
                       (Some (HTTP.Stream "amount=1")))
           (ReservedParameterError "privateKey")).
  by_computing.
Defined.

Lemma signer_query_present cfg r :
  err (GetSignedURLFromHTTPRequest cfg r) = None ->
  URL.Query (HTTP.URL (request (GetSignedURLFromHTTPRequest cfg r)))
  = URL.Add (URL.Query (HTTP.URL r)) "signature"
      (getSignature cfg (HTTP.Method r) (URL.Scheme (HTTP.URL r) +:+ "://" +:+ HTTP.Host r)
         (URL.Path (HTTP.URL r) +:+ "?" +:+ URL.RawQuery (HTTP.URL r)) (body_bytes r)).1.
Proof.
  intros Hacc.
  destruct (signer_accepted _ _ Hacc) as (body & stream & Hread & _ & _ & _ & Heq).
  cbn zeta in Heq. rewrite Heq. unfold body_bytes. rewrite Hread.
  cbn [request HTTP.URL]. unfold URL.Query at 1, URL.with_RawQuery. cbn [URL.RawQuery].
  apply ParseQuery_Encode, Add_proper, ParseQuery_proper.
Qed.

(** After a successful call the query of the request holds the
    parameters it held before, as [url.ParseQuery] read them, and the
    signature as last value of the key "signature": no parameter is
    lost by the re-encoding. *)
Theorem signer_query_after cfg r :
  err (GetSignedURLFromHTTPRequest cfg r) = None ->
  URL.Query (HTTP.URL (request (GetSignedURLFromHTTPRequest cfg r)))
  = URL.Add (URL.Query (HTTP.URL r)) "signature"
      (getSignature cfg (HTTP.Method r) (URL.Scheme (HTTP.URL r) +:+ "://" +:+ HTTP.Host r)
         (URL.Path (HTTP.URL r) +:+ "?" +:+ URL.RawQuery (HTTP.URL r)) (body_bytes r)).1.
Proof.
  intros Hacc.
  destruct (signer_accepted _ _ Hacc) as (body & stream & Hread & _ & _ & _ & Heq).
  cbn zeta in Heq. rewrite Heq. unfold body_bytes. rewrite Hread.
  cbn [request HTTP.URL]. unfold URL.Query at 1, URL.with_RawQuery. cbn [URL.RawQuery].
  apply ParseQuery_Encode, Add_proper, ParseQuery_proper.
Qed.

Lemma signer_query_after_witness :
  URL.Query (HTTP.URL (request (GetSignedURLFromHTTPRequest secretConfig
      (newRequest "GET" "http" "example.com" "/" "b=%zz&a=1;2&a=x+y&signature=" None))))
  = {[ "a" := ["x y"];
       "signature" := [""; "ab32c8c08166823c00379c49a5b61a20a9944f33"] ]}.
Proof.
  rewrite (signer_query_after secretConfig
             (newRequest "GET" "http" "example.com" "/" "b=%zz&a=1;2&a=x+y&signature=" None))
    by by_computing.
  by_computing.
Defined.

(** The error of a second call of the signer on a request it has
    signed, by what the first call wrote under "signature". *)
Lemma signer_again cfg r :
  SignatureQueryKey cfg = "signature" ->
  err (GetSignedURLFromHTTPRequest cfg r) = None ->
  err (GetSignedURLFromHTTPRequest cfg (request (GetSignedURLFromHTTPRequest cfg r)))
  = if Str.is_empty (URL.Get (URL.Query (HTTP.URL (request (GetSignedURLFromHTTPRequest cfg r))))
                             "signature")
    then None else Some (ReservedParameterError "signature").
Proof.
  intros Hsk Hacc.
  destruct (signer_accepted _ _ Hacc) as (body & stream & Hread & _ & Hpk & Hbh & Heq).
  cbn zeta in Heq. rewrite Heq. cbn [request]. clear Heq Hacc.
  match goal with |- context [URL.with_RawQuery _ (URL.Encode ?q')] => set (q := q') end.
  unfold GetSignedURLFromHTTPRequest. cbn [HTTP.Body HTTP.URL HTTP.Method HTTP.Host].
  assert (exists stream', HTTP.readBody stream = (inl "", stream')) as [stream' ->].
  { destruct (HTTP.Body r) as [[unread|msg]|]; [| |]; simplify_eq/=; by eexists. }
  cbn [HTTP.URL]. rewrite Hsk.
  destruct (Str.is_empty (URL.Get _ "signature")) eqn:Hs; cbn [negb]; [|done].
  assert (forall key, URL.Get (URL.Query (HTTP.URL r)) key = "" ->
            Str.is_empty (URL.Get (URL.Query (URL.with_RawQuery (HTTP.URL r) (URL.Encode q)))
                                  key) = true) as Hkey.
  { intros key Hq. destruct (decide (key = "signature")) as [->|Hne]; [done|].
    unfold URL.Query at 1, URL.with_RawQuery. cbn [URL.RawQuery]. subst q.
    rewrite ParseQuery_Encode by apply Add_proper, ParseQuery_proper.
    by rewrite Get_Add_ne, Hq by done. }
  rewrite (Hkey _ Hpk), (Hkey _ Hbh). cbn [negb].
  match goal with |- context [getSignature ?c ?m ?b ?o ""] =>
    by destruct (getSignature c m b o "")
  end.
Qed.

(** Under the default signature key, a second call of the signer on
    a request it has signed fails with [ReservedParameterError] for
    "signature" when the query had no parameter of that name and the
    URL of the request parses: the first call wrote a signature into
    the query.  It succeeds again when the query had such a
    parameter, whose first value is then empty, or when the URL does
    not parse, the signature written being empty. *)
Theorem signer_second_call cfg r :
  SignatureQueryKey cfg = "signature" ->
  err (GetSignedURLFromHTTPRequest cfg r) = None ->
  let fresh := URL.Query (HTTP.URL r) !! "signature" = None in
  let parses :=
    is_Some (URL.ParseRequestURI
               ((URL.Scheme (HTTP.URL r) +:+ "://" +:+ HTTP.Host r)
                +:+ (URL.Path (HTTP.URL r) +:+ "?" +:+ URL.RawQuery (HTTP.URL r)))) in
  let again :=
    err (GetSignedURLFromHTTPRequest cfg (request (GetSignedURLFromHTTPRequest cfg r))) in
  (fresh /\ parses -> again = Some (ReservedParameterError "signature"))
  /\ (~ (fresh /\ parses) -> again = None).
Proof.
  cbn zeta. intros Hsk Hacc. rewrite (signer_again _ _ Hsk Hacc).
  rewrite (signer_query_present cfg r Hacc).
  destruct (signer_accepted _ _ Hacc) as (body & stream & Hread & Hsig & _ & _ & _).
  unfold body_bytes. rewrite Hread. rewrite Hsk in Hsig.
  unfold getSignature.
  destruct (URL.Query (HTTP.URL r) !! "signature") as [vs|] eqn:Hq.
  - assert (URL.Get (URL.Add (URL.Query (HTTP.URL r)) "signature"
                       (match URL.ParseRequestURI _ with
                        | Some parsed => _ | None => _ end).1) "signature" = "") as ->.
    { pose proof (ParseQuery_proper _ _ _ Hq) as Hvs.
      unfold URL.Get, URL.Add in *. rewrite lookup_insert_eq, Hq in *.
      cbn [default from_option id]. by destruct vs. }
    split; [by intros [? _]|done].
  - rewrite Get_Add_fresh by done.
    destruct (URL.ParseRequestURI _) as [parsed|]; cbn [fst].
    + rewrite getHash_nonempty. split; [done|]. intros []. by split.
    + split; [by intros [_ [? ?]]|done].
Qed.

Lemma signer_second_call_witness :
  err (GetSignedURLFromHTTPRequest secretConfig
         (request (GetSignedURLFromHTTPRequest secretConfig
                     (newRequest "GET" "http" "example.com" "/" "a=1" None))))
  = Some (ReservedParameterError "signature")
  /\ err (GetSignedURLFromHTTPRequest secretConfig
            (request (GetSignedURLFromHTTPRequest secretConfig
                        (newRequest "GET" "http" "example.com" "/" "signature=" None))))
     = None.
Proof.
  split.
  - apply (signer_second_call secretConfig
             (newRequest "GET" "http" "example.com" "/" "a=1" None));
      [reflexivity|by_computing|].
    split; [by_computing|]. eexists. by_computing.
  - apply (signer_second_call secretConfig
             (newRequest "GET" "http" "example.com" "/" "signature=" None));
      [reflexivity|by_computing|].
    intros [Hfresh _]. vm_compute in Hfresh. discriminate Hfresh.
Defined.



(** ** Order independence, where the code has it *)

Lemma values_of_Permutation k (ps1 ps2 : list (string * string)) :
  ps1 ≡ₚ ps2 -> values_of k ps1 ≡ₚ values_of k ps2.
Proof. intros Hp. unfold values_of. by rewrite Hp. Qed.

Lemma ParseQuery_pieces (l : list string) :
  Forall (fun p => Str.contains "&" p = false) l ->
  forall k, URL.ParseQuery (Str.join "&" l) !! k
            = if decide (values_of k (omap URL.parsePair l) = []) then None
              else Some (values_of k (omap URL.parsePair l)).
Proof.
  intros Hl k. rewrite ParseQuery_lookup.
  destruct l as [|p l]; [done|]. by rewrite split_join.
Qed.

(** Reordering the [&]-separated pieces of a query string reorders
    the values under each key and nothing else. *)
Lemma ParseQuery_Permutation skip (l1 l2 : list string) :
  l1 ≡ₚ l2 -> Forall (fun p => Str.contains "&" p = false) l1 ->
  same_params skip (URL.ParseQuery (Str.join "&" l1)) (URL.ParseQuery (Str.join "&" l2)).
Proof.
  intros Hp Hl1 k _.
  assert (Forall (fun p => Str.contains "&" p = false) l2) as Hl2 by (by rewrite <- Hp).
  rewrite !ParseQuery_pieces by done.
  assert (values_of k (omap URL.parsePair l1) ≡ₚ values_of k (omap URL.parsePair l2)) as Hv.
  { apply values_of_Permutation. by rewrite Hp. }
  repeat case_decide.
  - constructor.
  - rewrite H in Hv. by apply Permutation_nil_l in Hv.
  - rewrite H0 in Hv. by apply Permutation_nil_r in Hv.
  - by constructor.
Qed.


Lemma join_all p sep (l : list string) :
  Str.all p sep = true -> Forall (fun s => Str.all p s = true) l ->
  Str.all p (Str.join sep l) = true.
Proof.
  intros Hsep. induction 1 as [|s l Hs Hl IH]; [done|].
  destruct l as [|s' l]; [done|]. rewrite join_cons by done.
  by rewrite !all_app, Hs, Hsep, IH.
Qed.

(** For a plain web URL, the signature does not depend on the order
    in which the query parameters appear. *)
Lemma getSignature_parameter_order cfg method scheme host path (l1 l2 : list string) body :
  web_scheme scheme = true -> plain_host host = true -> plain_path path = true ->
  Forall (fun p => plain_query p = true /\ Str.contains "&" p = false) l1 ->
  l1 ≡ₚ l2 ->
  getSignature cfg method (scheme +:+ "://" +:+ host) (path +:+ "?" +:+ Str.join "&" l1) body
  = getSignature cfg method (scheme +:+ "://" +:+ host) (path +:+ "?" +:+ Str.join "&" l2) body.
Proof.
  intros Hs Hh (Hp1 & Hp2 & Hp3 & Hp4)%plain_path_spec Hl1 Hp.
  assert (Forall (fun p => plain_query p = true /\ Str.contains "&" p = false) l2) as Hl2.
  { by rewrite <- Hp. }
  assert (forall l, Forall (fun p => plain_query p = true /\ Str.contains "&" p = false) l ->
                    plain_query (Str.join "&" l) = true) as Hplain.
  { intros l Hl. apply join_all; [done|]. eapply Forall_impl; [exact Hl|]. by intros ? [? _]. }
  rewrite !(getSignature_web cfg _ _ _ _ _ _ path); try done; try by apply unescape_path_id.
  - do 3 f_equal. f_equal. do 5 f_equal.
    apply orderQueryParams_same, same_params_inject, ParseQuery_Permutation; [done|].
    eapply Forall_impl; [exact Hl1|]. by intros ? [_ ?].
  - by apply Hplain.
  - by apply Hplain.
Qed.

(** ** getSignature *)

(** [getSignature] fails only with [MalformedURL], exactly when
    [url.ParseRequestURI] refuses base and target put together; the
    signature it returns is empty exactly when it fails, and is
    otherwise a digest of the configured length. *)
Theorem getSignature_error_iff cfg method baseURL originalURL body :
  ((getSignature cfg method baseURL originalURL body).2 = Some MalformedURL
   <-> URL.ParseRequestURI (baseURL +:+ originalURL) = None)
  /\ ((getSignature cfg method baseURL originalURL body).2 = None
      <-> is_Some (URL.ParseRequestURI (baseURL +:+ originalURL)))
  /\ ((getSignature cfg method baseURL originalURL body).1 = ""
      <-> (getSignature cfg method baseURL originalURL body).2 <> None)
  /\ ((getSignature cfg method baseURL originalURL body).1 <> ""
      <-> String.length (getSignature cfg method baseURL originalURL body).1
          = digest_length cfg).
Proof.
  unfold getSignature. destruct (URL.ParseRequestURI _) as [parsed|]; cbn [fst snd].
  - pose proof (getHash_nonempty cfg (hashString cfg method parsed originalURL body)) as Hne.
    apply is_empty_false in Hne.
    split; [done|]. split; [done|]. split; [by intuition|].
    split; [intros _; apply digest_length_spec|done].
  - split; [done|]. split; [split; [done|by intros [? ?]]|]. split; [done|].
    split; [done|]. unfold digest_length. cbn [String.length].
    by repeat destruct (String.eqb _ _).
Qed.


Lemma orderQueryParams_singleton cfg k x :
  k <> SignatureQueryKey cfg -> orderQueryParams cfg {[k := [x]]} = k +:+ "=" +:+ x.
Proof.
  intros Hk. unfold orderQueryParams, URL.keys. rewrite map_to_list_singleton.
  cbn [fmap list_fmap fst]. rewrite filter_cons_True, filter_nil by done.
  rewrite sort_singleton. cbn [mbind list_bind]. rewrite lookup_singleton_eq.
  cbn [default from_option id]. rewrite sort_singleton. by rewrite app_nil_r.
Qed.

(** For a target with an empty query and an empty body, the message
    that is hashed is method, [&], scheme, host, path (a slash for
    the empty path), [?] and the private key under its name, provided
    the private key is not given the name of the signature. *)
Theorem getSignature_no_query cfg method scheme host path :
  web_scheme scheme = true -> plain_host host = true -> plain_path path = true ->
  PrivateKeyQueryKey cfg <> SignatureQueryKey cfg ->
  getSignature cfg method (scheme +:+ "://" +:+ host) (path +:+ "?") ""
  = (getHash cfg (method +:+ "&" +:+ scheme +:+ "://" +:+ host +:+ hashed_path path
                  +:+ "?" +:+ PrivateKeyQueryKey cfg +:+ "=" +:+ privateKey cfg), None).
Proof.
  intros Hs Hh (Hp1 & Hp2 & Hp3 & Hp4)%plain_path_spec Hk.
  change (path +:+ "?") with (path +:+ "?" +:+ "").
  rewrite (getSignature_web cfg _ _ _ _ _ _ path); [|done..|by apply unescape_path_id].
  do 3 f_equal. f_equal. do 5 f_equal.
  change (URL.ParseQuery "") with (∅ : gmap string (list string)).
  unfold injectParams, URL.Set_. cbn [String.length Nat.ltb Nat.leb].
  rewrite insert_empty. by apply orderQueryParams_singleton.
Qed.

Lemma getSignature_no_query_witness :
  getSignature secretConfig "DELETE" ("https" +:+ "://" +:+ "example.com:8443")
               ("/users/42" +:+ "?") ""
  = (getHash secretConfig
       ("DELETE" +:+ "&" +:+ "https" +:+ "://" +:+ "example.com:8443"
        +:+ hashed_path "/users/42" +:+ "?" +:+ PrivateKeyQueryKey secretConfig
        +:+ "=" +:+ privateKey secretConfig), None).
Proof.
  apply (getSignature_no_query secretConfig "DELETE" "https" "example.com:8443" "/users/42");
    [reflexivity|reflexivity|reflexivity|discriminate].
Defined.

Lemma getSignature_parameter_order_witness :
  getSignature secretConfig "GET" ("http" +:+ "://" +:+ "example.com")
               ("/items" +:+ "?" +:+ Str.join "&" ["b=2"; "a=1"]) "body"
  = getSignature secretConfig "GET" ("http" +:+ "://" +:+ "example.com")
                 ("/items" +:+ "?" +:+ Str.join "&" ["a=1"; "b=2"]) "body".
Proof.
  apply (getSignature_parameter_order secretConfig "GET" "http" "example.com" "/items"
           ["b=2"; "a=1"] ["a=1"; "b=2"] "body");
    [reflexivity|reflexivity|reflexivity| |apply perm_swap].
  repeat constructor.
Defined.






(** The empty path is hashed as a slash: a target that is only a
    query gets the signature of the root path with that query. *)
Theorem getSignature_empty_path cfg method scheme host rq body :
  web_scheme scheme = true -> plain_host host = true -> plain_query rq = true ->
  getSignature cfg method (scheme +:+ "://" +:+ host) ("?" +:+ rq) body
  = getSignature cfg method (scheme +:+ "://" +:+ host) ("/?" +:+ rq) body.
Proof.
  intros Hs Hh Hrq.
  change ("?" +:+ rq) with ("" +:+ "?" +:+ rq).
  change ("/?" +:+ rq) with ("/" +:+ "?" +:+ rq).
  by rewrite (getSignature_web cfg _ _ _ "" _ _ ""), (getSignature_web cfg _ _ _ "/" _ _ "/").
Qed.

Lemma getSignature_empty_path_witness :
  getSignature secretConfig "GET" ("https" +:+ "://" +:+ "example.com") ("?" +:+ "a=1") "x"
  = getSignature secretConfig "GET" ("https" +:+ "://" +:+ "example.com") ("/?" +:+ "a=1") "x".
Proof.
  apply (getSignature_empty_path secretConfig "GET" "https" "example.com" "a=1" "x");
    reflexivity.
Defined.

(** ** orderQueryParams *)




(** ** The query between signer and verifier *)

(** Re-encoding a query loses nothing that [url.ParseQuery] read:
    what the signer writes back into [r.URL.RawQuery] parses to the
    parameters it was encoded from. *)
Theorem ParseQuery_reencoded s :
  URL.ParseQuery (URL.Encode (URL.ParseQuery s)) = URL.ParseQuery s.
Proof. apply ParseQuery_Encode, ParseQuery_proper. Qed.

(** On a query written by [Values.Encode], Fiber's [c.Query] and
    [Values.Get] after [url.ParseQuery] read the same value under
    every non-empty key: the verifier sees the parameters the signer
    wrote. *)
Theorem Query_reads_Encode method base path v body key :
  key <> "" -> Str.contains "?" path = false -> Str.contains "#" path = false ->
  Fiber.Query (Fiber.mkCtx method base (path +:+ "?" +:+ URL.Encode v) body) key
  = URL.Get (URL.ParseQuery (URL.Encode v)) key.
Proof.
  intros Hkey Hp1 Hp2. rewrite Query_Encode by done.
  rewrite !Get_values, ParseQuery_Encode_pairs, fold_addPair_lookup, lookup_empty.
  rewrite values_of_pairs. case_decide as Hv; [by rewrite Hv|done].
Qed.

Lemma Query_reads_Encode_witness :
  Fiber.Query (Fiber.mkCtx "GET" "http://example.com"
                 ("/a" +:+ "?" +:+ URL.Encode {[ "q" := ["a&b=c d"; "e"] ]}) "") "q"
  = URL.Get (URL.ParseQuery (URL.Encode {[ "q" := ["a&b=c d"; "e"] ]})) "q".
Proof.
  apply (Query_reads_Encode "GET" "http://example.com" "/a" {[ "q" := ["a&b=c d"; "e"] ]} "" "q");
    [discriminate|reflexivity|reflexivity].
Defined.

Lemma deliver_method method rawURL body c :
  deliver method rawURL body = Some c -> method ∈ methods.
Proof.
  unfold deliver. destruct (URL.Parse rawURL) as [u|]; [|done]. cbn [mbind option_bind].
  destruct (decide (method ∈ methods)) as [|Hm]; [done|].
  by rewrite (bool_decide_eq_false_2 _ Hm), andb_false_r.
Qed.

(** Under a signature key other than "signature", the verifier finds
    no signature in a URL the signer returned for a plain request:
    requested with any method that reaches the handler, and any
    body, the URL is rejected as unsigned. *)
Theorem signer_custom_key_rejected cfg now r :
  SignatureQueryKey cfg <> "signature" -> SignatureQueryKey cfg <> "" ->
  plain_request r = true ->
  err (GetSignedURLFromHTTPRequest cfg r) = None ->
  (forall method body,
     method ∈ methods ->
     is_Some (deliver method (signedURL (GetSignedURLFromHTTPRequest cfg r)) body))
  /\ (forall method body c,
        deliver method (signedURL (GetSignedURLFromHTTPRequest cfg r)) body = Some c ->
        validateRequest cfg now c
        = (false, Some (MissingSignature (SignatureQueryKey cfg)))).
Proof.
  intros Hsk Hsk' Hr Hacc.
  destruct (signer_accepted _ _ Hacc) as (body & stream & Hread & Hsig & _ & _ & Heq).
  cbn zeta in Heq. rewrite Heq. cbn [signedURL]. clear Heq Hacc.
  unfold plain_request in Hr.
  apply andb_prop in Hr as [[Hu Hhost%String.eqb_eq]%andb_prop Hq].
  pose proof (plain_url_spec _ Hu) as (_ & _ & _ & _ & _ & _ & Hp).
  destruct (target_path_spec _ Hp) as (_ & _ & Ht3 & Ht4 & _).
  split.
  - intros method body' Hm. rewrite deliver_plain;
      [done|done..|apply Encode_Add_nonempty|apply Encode_plain|apply Encode_no_hash].
  - intros method body' c Hc. pose proof (deliver_method _ _ _ _ Hc) as Hm.
    rewrite deliver_plain in Hc;
      [|done..|apply Encode_Add_nonempty|apply Encode_plain|apply Encode_no_hash].
    injection Hc as <-.
    unfold validateRequest. rewrite Query_Encode by done.
    by rewrite Get_Add_ne, Hsig by done.
Qed.

Lemma signer_custom_key_rejected_witness :
  exists c,
    deliver "POST"
      (signedURL (GetSignedURLFromHTTPRequest signConfig
                    (newRequest "POST" "http" "Example.com" "/" "a=1"
                                (Some (HTTP.Stream "body")))))
      "body"
    = Some c
    /\ validateRequest signConfig aNow c
       = (false, Some (MissingSignature (SignatureQueryKey signConfig))).
Proof.
  destruct (signer_custom_key_rejected signConfig aNow
              (newRequest "POST" "http" "Example.com" "/" "a=1" (Some (HTTP.Stream "body")))
              ltac:(discriminate) ltac:(discriminate) eq_refl ltac:(by_computing))
    as [Hsome Hrejected].
  destruct (Hsome "POST" "body") as [c Hc].
  { do 2 apply list_elem_of_further. apply list_elem_of_here. }
  exists c. split; [exact Hc|]. exact (Hrejected _ _ _ Hc).
Defined.

(** When scheme, host, path and raw query of a request do not make a
    URL that [url.ParseRequestURI] accepts, the signer still
    succeeds, and the signature it writes into the query is empty. *)
Theorem signer_malformed_empty_signature cfg r :
  URL.ParseRequestURI
    ((URL.Scheme (HTTP.URL r) +:+ "://" +:+ HTTP.Host r)
     +:+ (URL.Path (HTTP.URL r) +:+ "?" +:+ URL.RawQuery (HTTP.URL r))) = None ->
  err (GetSignedURLFromHTTPRequest cfg r) = None ->
  URL.RawQuery (HTTP.URL (request (GetSignedURLFromHTTPRequest cfg r)))
  = URL.Encode (URL.Add (URL.Query (HTTP.URL r)) "signature" "").
Proof.
  intros Hparse Hacc.
  destruct (signer_accepted _ _ Hacc) as (body & stream & Hread & _ & _ & _ & Heq).
  cbn zeta in Heq. rewrite Heq. cbn [request HTTP.URL].
  unfold URL.with_RawQuery. cbn [URL.RawQuery].
  unfold getSignature. by rewrite Hparse.
Qed.

Lemma signer_malformed_empty_signature_witness :
  URL.RawQuery (HTTP.URL (request (GetSignedURLFromHTTPRequest secretConfig
      (newRequest "GET" "http" "exa mple.com" "/" "a=1" None))))
  = URL.Encode
      (URL.Add (URL.Query (HTTP.URL (newRequest "GET" "http" "exa mple.com" "/" "a=1" None)))
               "signature" "").
Proof.
  apply (signer_malformed_empty_signature secretConfig
           (newRequest "GET" "http" "exa mple.com" "/" "a=1" None)); by_computing.
Defined.
